(** * ItemEditor build scripts: a shallow embedding and its properties

    The repository is a set of Python build-orchestration scripts
    ([build_linux.py], [build_linux_all_in_one.py], [build_qt6_project.py],
    [setup_environment.py], [cmake_error_logger.py]).  Each script threads a
    builder object ([self.stats], the console, the logger) through a fixed
    sequence of steps that launch external processes and touch the file
    system.

    The embedding below keeps that shape: a state-and-exception monad for
    Python control flow ([try]/[except]/[finally], early [return]), a world
    made of a file system, a process oracle and an event trace, and one
    module per script holding the translated methods. *)

From Stdlib Require Import ZArith NArith Ascii String List Lia Bool.
From stdpp Require Import base gmap strings list pretty.

Set Default Proof Using "Type".
Open Scope Z_scope.

(* ================================================================== *)
(** * Python control flow *)
(* ================================================================== *)

Module Py.

(** The exceptions the scripts can meet.  [KeyboardInterrupt] and
    [SystemExit] derive from [BaseException] only, so a clause
    [except Exception] lets them through; [TimeoutExpired] is
    [subprocess.TimeoutExpired]; [Exception text] stands for every other
    subclass of [Exception], [text] being [str(e)]. *)
Inductive exn :=
| KeyboardInterrupt
| SystemExit (code : Z)
| TimeoutExpired (cmd : list string) (timeout : N)
| Exception (text : string).

(** [isinstance(e, Exception)] *)
Definition is_Exception (e : exn) : bool :=
  match e with
  | KeyboardInterrupt | SystemExit _ => false
  | TimeoutExpired _ _ | Exception _ => true
  end.

(** How a call ends: it returns a value or raises. *)
Inductive Res (A : Type) :=
| Ret (a : A)
| Raise (e : exn).
Arguments Ret {A} a.
Arguments Raise {A} e.

(** A computation over a state [S]. *)
Definition M (S A : Type) : Type := S -> Res A * S.

Definition ret {S A} (a : A) : M S A := fun s => (Ret a, s).
Definition raise {S A} (e : exn) : M S A := fun s => (Raise e, s).

Definition bind {S A B} (m : M S A) (k : A -> M S B) : M S B :=
  fun s =>
    match m s with
    | (Ret a, s') => k a s'
    | (Raise e, s') => (Raise e, s')
    end.

Definition get {S} : M S S := fun s => (Ret s, s).
Definition modify {S} (f : S -> S) : M S unit := fun s => (Ret tt, f s).

(** [try: body  except ...: handler].  [handler e = None] when no
    [except] clause matches [e], which then propagates. *)
Definition try_except {S A} (body : M S A) (handler : exn -> option (M S A))
  : M S A :=
  fun s =>
    match body s with
    | (Ret a, s') => (Ret a, s')
    | (Raise e, s') =>
        match handler e with
        | Some h => h s'
        | None => (Raise e, s')
        end
    end.

(** [try: body  finally: fin].  The [finally] suite runs however [body]
    ends (also on [return]); when it raises, its exception replaces the
    outcome of [body]. *)
Definition try_finally {S A} (body : M S A) (fin : M S unit) : M S A :=
  fun s =>
    match body s with
    | (r, s') =>
        match fin s' with
        | (Ret _, s'') => (r, s'')
        | (Raise e, s'') => (Raise e, s'')
        end
    end.

(** A [for] loop whose body may [return] from the enclosing function:
    the body yields [Some r] for [return r] and [None] to go on. *)
Fixpoint for_each {S A R} (l : list A) (body : A -> M S (option R))
  : M S (option R) :=
  match l with
  | [] => ret None
  | x :: l' =>
      bind (body x) (fun r =>
        match r with
        | Some v => ret (Some v)
        | None => for_each l' body
        end)
  end.

Definition when {S} (b : bool) (m : M S unit) : M S unit :=
  if b then m else ret tt.

End Py.

Import Py.

Notation "x <- m ;; k" := (bind m (fun x => k))
  (at level 100, m at next level, right associativity).
Notation "m ;;; k" := (bind m (fun _ => k))
  (at level 100, right associativity).

(* ================================================================== *)
(** * Text *)
(* ================================================================== *)

Module Text.

(** Text is a sequence of code points below 256.  [str.isspace] on that
    range: TAB, LF, VT, FF, CR, FS, GS, RS, US, SPACE, NEL and NBSP. *)
Definition isspace (c : ascii) : bool :=
  let n := N_of_ascii c in
  ((9 <=? n) && (n <=? 13) || (28 <=? n) && (n <=? 32)
   || (n =? 133) || (n =? 160))%N.

(** [s.lstrip()] *)
Fixpoint lstrip (s : string) : string :=
  match s with
  | EmptyString => EmptyString
  | String c s' => if isspace c then lstrip s' else s
  end.

(** [s.rstrip()]: the characters are kept up to the last one that is not
    white space. *)
Fixpoint rstrip (s : string) : string :=
  match s with
  | EmptyString => EmptyString
  | String c s' =>
      match rstrip s' with
      | EmptyString => if isspace c then EmptyString else String c EmptyString
      | r => String c r
      end
  end.

(** [s.strip()] *)
Definition strip (s : string) : string := rstrip (lstrip s).

(** [sep.join(parts)] *)
Fixpoint join (sep : string) (parts : list string) : string :=
  match parts with
  | [] => ""
  | [p] => p
  | p :: rest => p +:+ sep +:+ join sep rest
  end.





(** [needle in s] for strings. *)
Fixpoint is_prefix (p s : string) : bool :=
  match p, s with
  | EmptyString, _ => true
  | String a p', String b s' => if Ascii.eqb a b then is_prefix p' s' else false
  | _, _ => false
  end.

Fixpoint contains (needle s : string) : bool :=
  is_prefix needle s ||
  match s with
  | EmptyString => false
  | String _ s' => contains needle s'
  end.

(** [repr] of a list of strings (no character of the strings needs an
    escape in the argument vectors of the scripts). *)
Definition repr_list (l : list string) : string :=
  "[" +:+ join ", " (map (fun x => "'" +:+ x +:+ "'") l) +:+ "]".

(** [str(e)] *)
Definition str_exn (e : exn) : string :=
  match e with
  | KeyboardInterrupt => ""
  | SystemExit code => pretty code
  | TimeoutExpired cmd timeout =>
      "Command '" +:+ repr_list cmd +:+ "' timed out after "
      +:+ pretty timeout +:+ " seconds"
  | Exception text => text
  end.

(** [f"{n:,}"]: decimal digits in groups of three. *)
Fixpoint group3 (rev_digits : list ascii) : list ascii :=
  match rev_digits with
  | a :: b :: c :: rest =>
      match rest with
      | [] => [a; b; c]
      | _ => a :: b :: c :: ","%char :: group3 rest
      end
  | l => l
  end.

Definition format_thousands (n : N) : string :=
  string_of_list_ascii (rev (group3 (rev (list_ascii_of_string (pretty n))))).

(** [s * n] *)
Fixpoint replicate (n : nat) (s : string) : string :=
  match n with
  | O => ""
  | S n' => s +:+ replicate n' s
  end.

Definition nl : string := String "010"%char EmptyString.
Definition cr : string := String "013"%char EmptyString.
Definition dq : string := String "034"%char EmptyString.

(** Carriage return and line feed. *)
Definition is_cr (c : ascii) : bool := (N_of_ascii c =? 13)%N.
Definition is_lf (c : ascii) : bool := (N_of_ascii c =? 10)%N.
Definition lf : ascii := "010"%char.

(** What a stream opened in text mode hands out ([text=True], universal
    newlines): every [CR LF] and every [CR] alone has become [LF]. *)
Fixpoint universal_newlines (s : string) : string :=
  match s with
  | EmptyString => EmptyString
  | String c rest =>
      if is_cr c then
        match rest with
        | EmptyString => String lf EmptyString
        | String c' rest' =>
            if is_lf c' then String lf (universal_newlines rest')
            else String lf (universal_newlines rest)
        end
      else String c (universal_newlines rest)
  end.


End Text.

(* ================================================================== *)
(** * The world outside the interpreter *)
(* ================================================================== *)

(** A path is the list of its components under the root, as [pathlib]
    keeps them; [p / "name"] appends a component. *)
Abbreviation path := (list string).

Module Os.

(** [str(p)] for an absolute POSIX path. *)
Definition str (p : path) : string := "/" +:+ Text.join "/" p.

(** [p.parent] and [p.name] *)
Definition parent (p : path) : path := removelast p.
Definition name (p : path) : string := List.last p "".

(** ** File system *)

Inductive node :=
| File (content : string)
| Dir.

(** [p.exists()] *)
Definition exists_ (fs : gmap path node) (p : path) : bool :=
  match p with
  | [] => true
  | _ => match fs !! p with Some _ => true | None => false end
  end.

Definition is_dir (fs : gmap path node) (p : path) : bool :=
  match p with
  | [] => true
  | _ => match fs !! p with Some Dir => true | _ => false end
  end.

(** [p.stat().st_size] of a regular file. *)
Definition st_size (fs : gmap path node) (p : path) : option N :=
  match fs !! p with
  | Some (File c) => Some (N.of_nat (String.length c))
  | _ => None
  end.

(** The calls that change the file system. *)
Inductive FsOp :=
| Rmtree (p : path)                              (* shutil.rmtree(p) *)
| Mkdir (p : path) (parents exist_ok : bool)     (* p.mkdir(parents=, exist_ok=) *)
| Copy2 (src dst : path)                         (* shutil.copy2(src, dst) *)
| Chmod (p : path) (mode : N)                    (* os.chmod(p, mode) *)
| WriteText (p : path) (data : string)           (* open(p, 'w') ... f.write(data) *)
| Append (p : path) (data : string).             (* open(p, 'a') ... f.write(data) *)

Definition ENOENT (p : path) : string :=
  "[Errno 2] No such file or directory: '" +:+ str p +:+ "'".
Definition EEXIST (p : path) : string :=
  "[Errno 17] File exists: '" +:+ str p +:+ "'".
Definition ENOTDIR (p : path) : string :=
  "[Errno 20] Not a directory: '" +:+ str p +:+ "'".
Definition EISDIR (p : path) : string :=
  "[Errno 21] Is a directory: '" +:+ str p +:+ "'".

(** The prefixes [p[:1]], [p[:2]], ..., [p] that [mkdir(parents=True)]
    walks down. *)
Definition chain (p : path) : list path :=
  map (fun n => take n p) (seq 1 (length p)).

Fixpoint mkdir_chain (ps : list path) (fs : gmap path node)
  : string + gmap path node :=
  match ps with
  | [] => inr fs
  | q :: ps' =>
      match fs !! q with
      | None => mkdir_chain ps' (<[q := Dir]> fs)
      | Some Dir => mkdir_chain ps' fs
      | Some (File _) =>
          inl (match ps' with [] => EEXIST q | _ => ENOTDIR q end)
      end
  end.

(** What a call does when the operating system lets it through: the new
    file system, or the text of the [OSError] it raises. *)
Definition fs_apply (op : FsOp) (fs : gmap path node)
  : string + gmap path node :=
  match op with
  | Rmtree p =>
      match fs !! p with
      | Some Dir => inr (filter (fun kv => ¬ (p `prefix_of` kv.1)) fs)
      | Some (File _) => inl (ENOTDIR p)
      | None => inl (ENOENT p)
      end
  | Mkdir p parents exist_ok =>
      match fs !! p with
      | Some Dir => if exist_ok then inr fs else inl (EEXIST p)
      | Some (File _) => inl (EEXIST p)
      | None =>
          if parents then mkdir_chain (chain p) fs
          else if is_dir fs (parent p) then inr (<[p := Dir]> fs)
          else inl (ENOENT p)
      end
  | Copy2 src dst =>
      match fs !! src with
      | Some (File c) =>
          let target := if is_dir fs dst then dst ++ [name src] else dst in
          if is_dir fs target then inl (EISDIR target)
          else if is_dir fs (parent target) then inr (<[target := File c]> fs)
          else inl (ENOENT target)
      | Some Dir => inl (EISDIR src)
      | None => inl (ENOENT src)
      end
  | Chmod p _ =>
      if exists_ fs p then inr fs else inl (ENOENT p)
  | WriteText p data =>
      if is_dir fs p then inl (EISDIR p)
      else if is_dir fs (parent p) then inr (<[p := File data]> fs)
      else inl (ENOENT p)
  | Append p data =>
      match fs !! p with
      | Some Dir => inl (EISDIR p)
      | Some (File c) => inr (<[p := File (c +:+ data)]> fs)
      | None =>
          if is_dir fs (parent p) then inr (<[p := File data]> fs)
          else inl (ENOENT p)
      end
  end.

(** ** Processes *)

(** What a launched program does, seen from [subprocess.run]. *)
Inductive Behaviour :=
| Exits (seconds : N) (returncode : Z) (out err : string)
    (* runs for [seconds], writes the characters [out] and [err], exits
       with [returncode] *)
| Hangs
    (* never exits by itself *)
| Fails (text : string)
    (* [subprocess.run] raises an [Exception] with [str(e) = text]:
       missing binary, permission denied, undecodable output *)
| Interrupted.
    (* the user presses Ctrl-C while the call waits *)

(** [subprocess.CompletedProcess]; the streams are [None] unless captured. *)
Record CompletedProcess := {
  returncode : Z;
  stdout : option string;
  stderr : option string;
}.

(** A captured stream as the caller reads it: with [text=True] Python
    decodes it with universal newlines; without, the caller gets the
    bytes as written. *)
Definition stream (text : bool) (written : string) : string :=
  if text then Text.universal_newlines written else written.

Definition completed (capture text : bool) (rc : Z) (out err : string)
  : CompletedProcess :=
  {| returncode := rc;
     stdout := if capture then Some (stream text out) else None;
     stderr := if capture then Some (stream text err) else None |}.

(** The program is still running when [timeout] seconds have passed. *)
Definition exceeds (b : Behaviour) (timeout : N) : bool :=
  match b with
  | Exits d _ _ _ => (timeout <? d)%N
  | Hangs => true
  | Fails _ | Interrupted => false
  end.

(** [subprocess.run(cmd, capture_output=capture, text=text,
    timeout=timeout)] on a program that behaves as [b]. *)
Definition run (cmd : list string) (b : Behaviour) (capture text : bool)
    (timeout : N) : Res CompletedProcess :=
  match b with
  | Exits d rc out err =>
      if (timeout <? d)%N then Raise (TimeoutExpired cmd timeout)
      else Ret (completed capture text rc out err)
  | Hangs => Raise (TimeoutExpired cmd timeout)
  | Fails text => Raise (Exception text)
  | Interrupted => Raise KeyboardInterrupt
  end.

(** [subprocess.run(cmd, capture_output=capture, text=text)], no timeout:
    a program that hangs blocks the call for ever, so there is no outcome. *)
Definition run_unbounded (b : Behaviour) (capture text : bool)
  : option (Res CompletedProcess) :=
  match b with
  | Exits _ rc out err => Some (Ret (completed capture text rc out err))
  | Hangs => None
  | Fails text => Some (Raise (Exception text))
  | Interrupted => Some (Raise KeyboardInterrupt)
  end.

End Os.

Import Os.


(* ================================================================== *)
(** * Dates and times *)
(* ================================================================== *)

Module Clock.

(** [datetime.datetime] *)
Record datetime := {
  year : N; month : N; day : N;
  hour : N; minute : N; second : N;
  microsecond : N;
}.

(** The fields are in the ranges of a clock reading ([datetime.now()] on
    a running machine: a four-digit year). *)
Definition valid (t : datetime) : Prop :=
  (1000 <= year t <= 9999 /\ 1 <= month t <= 12 /\ 1 <= day t <= 31 /\
   hour t < 24 /\ minute t < 60 /\ second t < 60 /\
   microsecond t < 1000000)%N.

Definition digit (n : N) : ascii := ascii_of_N (48 + n mod 10).

(** Zero-padded decimal fields of [strftime]. *)
Definition pad2 (n : N) : string :=
  String (digit (n / 10)) (String (digit n) EmptyString).
Definition pad3 (n : N) : string :=
  String (digit (n / 100)) (pad2 n).
Definition pad4 (n : N) : string :=
  String (digit (n / 1000)) (pad3 n).

(** [t.strftime("%Y%m%d_%H%M%S")] *)
Definition strftime_stamp (t : datetime) : string :=
  pad4 (year t) +:+ pad2 (month t) +:+ pad2 (day t) +:+ "_"
  +:+ pad2 (hour t) +:+ pad2 (minute t) +:+ pad2 (second t).

(** [t.strftime("%Y-%m-%d %H:%M:%S")] *)
Definition strftime_human (t : datetime) : string :=
  pad4 (year t) +:+ "-" +:+ pad2 (month t) +:+ "-" +:+ pad2 (day t) +:+ " "
  +:+ pad2 (hour t) +:+ ":" +:+ pad2 (minute t) +:+ ":" +:+ pad2 (second t).

(** [%(asctime)s] of the logging module: seconds, a comma, milliseconds. *)
Definition asctime (t : datetime) : string :=
  strftime_human t +:+ "," +:+ pad3 (microsecond t / 1000).

(** Two readings fall in the same second. *)
Definition same_second (t1 t2 : datetime) : Prop :=
  year t1 = year t2 /\ month t1 = month t2 /\ day t1 = day t2 /\
  hour t1 = hour t2 /\ minute t1 = minute t2 /\ second t1 = second t2.

End Clock.
(* ================================================================== *)
(** * The builder object and its environment *)
(* ================================================================== *)

(** [self.stats]: the dictionary has a fixed set of keys, filled in by
    [__init__] and never extended, so it is a record; the fields are the
    keys the modelled methods touch, over all builder classes. *)
Record Stats := {
  plugins_built : Z;
  plugins_failed : Z;
  main_app_built : bool;
  deployment_successful : bool;
  cmake_successful : bool;
  build_successful : bool;
  python_packages_installed : Z;
  total_errors : Z;
  total_warnings : Z;
}.

(** The values [__init__] stores. *)
Definition initial_stats : Stats :=
  {| plugins_built := 0; plugins_failed := 0;
     main_app_built := false; deployment_successful := false;
     cmake_successful := false; build_successful := false;
     python_packages_installed := 0;
     total_errors := 0; total_warnings := 0 |}.

Definition set_plugins_built (v : Z) (s : Stats) : Stats :=
  {| plugins_built := v; plugins_failed := plugins_failed s;
     main_app_built := main_app_built s;
     deployment_successful := deployment_successful s;
     cmake_successful := cmake_successful s;
     build_successful := build_successful s;
     python_packages_installed := python_packages_installed s;
     total_errors := total_errors s; total_warnings := total_warnings s |}.

Definition set_plugins_failed (v : Z) (s : Stats) : Stats :=
  {| plugins_built := plugins_built s; plugins_failed := v;
     main_app_built := main_app_built s;
     deployment_successful := deployment_successful s;
     cmake_successful := cmake_successful s;
     build_successful := build_successful s;
     python_packages_installed := python_packages_installed s;
     total_errors := total_errors s; total_warnings := total_warnings s |}.

Definition set_main_app_built (v : bool) (s : Stats) : Stats :=
  {| plugins_built := plugins_built s; plugins_failed := plugins_failed s;
     main_app_built := v;
     deployment_successful := deployment_successful s;
     cmake_successful := cmake_successful s;
     build_successful := build_successful s;
     python_packages_installed := python_packages_installed s;
     total_errors := total_errors s; total_warnings := total_warnings s |}.

Definition set_deployment_successful (v : bool) (s : Stats) : Stats :=
  {| plugins_built := plugins_built s; plugins_failed := plugins_failed s;
     main_app_built := main_app_built s;
     deployment_successful := v;
     cmake_successful := cmake_successful s;
     build_successful := build_successful s;
     python_packages_installed := python_packages_installed s;
     total_errors := total_errors s; total_warnings := total_warnings s |}.

Definition set_cmake_successful (v : bool) (s : Stats) : Stats :=
  {| plugins_built := plugins_built s; plugins_failed := plugins_failed s;
     main_app_built := main_app_built s;
     deployment_successful := deployment_successful s;
     cmake_successful := v;
     build_successful := build_successful s;
     python_packages_installed := python_packages_installed s;
     total_errors := total_errors s; total_warnings := total_warnings s |}.

Definition set_build_successful (v : bool) (s : Stats) : Stats :=
  {| plugins_built := plugins_built s; plugins_failed := plugins_failed s;
     main_app_built := main_app_built s;
     deployment_successful := deployment_successful s;
     cmake_successful := cmake_successful s;
     build_successful := v;
     python_packages_installed := python_packages_installed s;
     total_errors := total_errors s; total_warnings := total_warnings s |}.

Definition set_python_packages_installed (v : Z) (s : Stats) : Stats :=
  {| plugins_built := plugins_built s; plugins_failed := plugins_failed s;
     main_app_built := main_app_built s;
     deployment_successful := deployment_successful s;
     cmake_successful := cmake_successful s;
     build_successful := build_successful s;
     python_packages_installed := v;
     total_errors := total_errors s; total_warnings := total_warnings s |}.

Definition set_total_errors (v : Z) (s : Stats) : Stats :=
  {| plugins_built := plugins_built s; plugins_failed := plugins_failed s;
     main_app_built := main_app_built s;
     deployment_successful := deployment_successful s;
     cmake_successful := cmake_successful s;
     build_successful := build_successful s;
     python_packages_installed := python_packages_installed s;
     total_errors := v; total_warnings := total_warnings s |}.

Definition set_total_warnings (v : Z) (s : Stats) : Stats :=
  {| plugins_built := plugins_built s; plugins_failed := plugins_failed s;
     main_app_built := main_app_built s;
     deployment_successful := deployment_successful s;
     cmake_successful := cmake_successful s;
     build_successful := build_successful s;
     python_packages_installed := python_packages_installed s;
     total_errors := total_errors s; total_warnings := v |}.

Inductive Level := DEBUG | INFO | WARNING | ERROR.

(** What a run does that can be observed, in the order it happens. *)
Inductive Event :=
| Print (text : string)
    (* console.print(text) *)
| PrintPanel (text title : string)
    (* console.print(Panel(text, title=title)) *)
| PrintTable (rows : list (list string))
    (* console.print(table), the rows added with add_row *)
| Log (lvl : Level) (msg : string)
    (* self.logger.debug / info / warning / error *)
| Spawn (cmd : list string) (cwd : option path) (capture : bool)
        (timeout : option N)
    (* subprocess.run(cmd, cwd=, capture_output=, timeout=) *)
| Fs (op : FsOp) (error : option string).
    (* a file-system call and, when it raised, the text of the error *)

(** What the scripts do not decide: where the script lives, the working
    directory it is started from, how the n-th
    launched program behaves, whether the operating system refuses the n-th
    file-system call, what the clock shows after n events, whether [rich]
    was importable when the script started and whether [import rich] works
    after n launches, and whether the interpreter is recent enough. *)
Record World := {
  project_dir : path;
  cwd : path;
  behaviour : nat -> list string -> Behaviour;
  fs_fault : nat -> FsOp -> option string;
  clock : nat -> Clock.datetime;
  rich_available : bool;
  rich_importable : nat -> bool;
  python_at_least_3_7 : bool;
}.

(** The state of a run: the file system, the statistics of the builder,
    the file the logging module writes to once [setup_logging] has run
    ([self.log_file]), what has happened so far, and the world. *)
Record Env := {
  fs : gmap path node;
  stats : Stats;
  log_file : option path;
  trace : list Event;
  world : World;
}.

Definition with_fs (f : gmap path node) (e : Env) : Env :=
  {| fs := f; stats := stats e; log_file := log_file e;
     trace := trace e; world := world e |}.
Definition with_stats (st : Stats) (e : Env) : Env :=
  {| fs := fs e; stats := st; log_file := log_file e;
     trace := trace e; world := world e |}.
Definition with_log_file (p : path) (e : Env) : Env :=
  {| fs := fs e; stats := stats e; log_file := Some p;
     trace := trace e; world := world e |}.
Definition emit (ev : Event) (e : Env) : Env :=
  {| fs := fs e; stats := stats e; log_file := log_file e;
     trace := trace e ++ [ev]; world := world e |}.

(** A process starts with the file system it finds, fresh statistics and
    no log file. *)
Definition boot (w : World) (f : gmap path node) : Env :=
  {| fs := f; stats := initial_stats; log_file := None;
     trace := []; world := w |}.

(** [datetime.now()]: the reading of the clock at this point of the run. *)
Definition now (e : Env) : Clock.datetime :=
  clock (world e) (length (trace e)).

(** The argument vectors launched so far, and the file-system calls made. *)
Definition is_spawn (ev : Event) : bool :=
  match ev with Spawn _ _ _ _ => true | _ => false end.
Definition is_fs (ev : Event) : bool :=
  match ev with Fs _ _ => true | _ => false end.

Fixpoint spawned (t : list Event) : list (list string) :=
  match t with
  | [] => []
  | Spawn cmd _ _ _ :: t' => cmd :: spawned t'
  | _ :: t' => spawned t'
  end.

Fixpoint fs_calls (t : list Event) : list (FsOp * option string) :=
  match t with
  | [] => []
  | Fs op err :: t' => (op, err) :: fs_calls t'
  | _ :: t' => fs_calls t'
  end.

(** The file-system calls that raised. *)
Definition fs_errors (t : list Event) : list (FsOp * string) :=
  omap (fun c => match c.2 with Some text => Some (c.1, text) | None => None end)
       (fs_calls t).

(** What was shown on the console. *)
Fixpoint printed (t : list Event) : list string :=
  match t with
  | [] => []
  | Print text :: t' => text :: printed t'
  | _ :: t' => printed t'
  end.

Module Builder.

Definition console_print (text : string) : M Env unit :=
  modify (emit (Print text)).
Definition console_print_panel (text title : string) : M Env unit :=
  modify (emit (PrintPanel text title)).
Definition console_print_table (rows : list (list string)) : M Env unit :=
  modify (emit (PrintTable rows)).

Definition levelname (lvl : Level) : string :=
  match lvl with
  | DEBUG => "DEBUG" | INFO => "INFO" | WARNING => "WARNING" | ERROR => "ERROR"
  end.

(** The line the file handler writes for a record, with the format
    ['%(asctime)s - %(levelname)s - %(message)s']. *)
Definition format_record (t : Clock.datetime) (lvl : Level) (msg : string)
  : string :=
  Clock.asctime t +:+ " - " +:+ levelname lvl +:+ " - " +:+ msg +:+ Text.nl.

(** The file handler appends to the log file; the logging module
    swallows the errors of its handlers. *)
Definition handler_write (data : string) (e : Env) : Env :=
  match log_file e with
  | Some p =>
      match fs_apply (Append p data) (fs e) with
      | inr fs' => with_fs fs' e
      | inl _ => e
      end
  | None => e
  end.

(** [self.logger.debug], [.info], [.warning], [.error], [.exception] *)
Definition logger (lvl : Level) (msg : string) : M Env unit :=
  modify (fun e => emit (Log lvl msg) (handler_write (format_record (now e) lvl msg) e)).

Definition get_stats : M Env Stats := fun e => (Ret (stats e), e).
Definition update_stats (f : Stats -> Stats) : M Env unit :=
  modify (fun e => with_stats (f (stats e)) e).

(** [self.stats["total_errors"] += 1] and the like. *)
Definition incr_total_errors : M Env unit :=
  update_stats (fun s => set_total_errors (total_errors s + 1) s).
Definition incr_total_warnings : M Env unit :=
  update_stats (fun s => set_total_warnings (total_warnings s + 1) s).
Definition incr_plugins_built : M Env unit :=
  update_stats (fun s => set_plugins_built (plugins_built s + 1) s).
Definition incr_plugins_failed : M Env unit :=
  update_stats (fun s => set_plugins_failed (plugins_failed s + 1) s).
Definition incr_python_packages_installed : M Env unit :=
  update_stats (fun s =>
    set_python_packages_installed (python_packages_installed s + 1) s).

(** [subprocess.run] with a timeout: the launch is recorded, the world
    says how the program behaves. *)
Definition subprocess_run (cmd : list string) (cwd : option path)
    (capture text : bool) (timeout : N) : M Env CompletedProcess :=
  fun e =>
    let b := behaviour (world e) (length (spawned (trace e))) cmd in
    (Os.run cmd b capture text timeout,
     emit (Spawn cmd cwd capture (Some timeout)) e).

(** A call that changes the file system: the operating system may refuse
    it ([fs_fault]); otherwise [fs_apply] decides.  Either way the call is
    recorded, with the error text when it raises. *)
Definition fs_call (op : FsOp) : M Env unit :=
  fun e =>
    let outcome :=
      match fs_fault (world e) (length (fs_calls (trace e))) op with
      | Some text => inl text
      | None => fs_apply op (fs e)
      end in
    match outcome with
    | inl text => (Raise (Exception text), emit (Fs op (Some text)) e)
    | inr fs' => (Ret tt, emit (Fs op None) (with_fs fs' e))
    end.

Definition path_exists (p : path) : M Env bool :=
  fun e => (Ret (Os.exists_ (fs e) p), e).

(** [x.strip()] on a stream of a [CompletedProcess]: [None] has no such
    attribute. *)
Definition strip_stream (x : option string) : M Env string :=
  match x with
  | Some s => ret (Text.strip s)
  | None => raise (Exception "'NoneType' object has no attribute 'strip'")
  end.

(** Truth value of a string: non-empty. *)
Definition truthy (s : string) : bool :=
  match s with EmptyString => false | _ => true end.

(** [p.stat().st_size]; a directory reports the size of its entry. *)
Definition path_stat_size (p : path) : M Env N :=
  fun e =>
    match fs e !! p with
    | Some (File c) => (Ret (N.of_nat (String.length c)), e)
    | Some Dir => (Ret 4096%N, e)
    | None => (Raise (Exception (ENOENT p)), e)
    end.

(** The [self.logger.info] calls that end [setup_logging]. *)
Fixpoint log_lines (lines : list string) : M Env unit :=
  match lines with
  | [] => ret tt
  | l :: rest => logger INFO l ;;; log_lines rest
  end.

(** [setup_logging], the same in the four builder classes up to the
    prefix of the file name and the lines logged at the end: create
    [logs/], name the file after the clock, attach a file handler (which
    opens the file for appending at once), remember the name. *)
Definition setup_logging (prefix : string)
    (banner : path -> path -> list string) : M Env unit :=
  e <- get ;;
  let log_dir := project_dir (world e) ++ ["logs"] in
  fs_call (Mkdir log_dir false true) ;;;
  e1 <- get ;;
  let timestamp := Clock.strftime_stamp (now e1) in
  let log_file := log_dir ++ [prefix +:+ "_" +:+ timestamp +:+ ".log"] in
  fs_call (Append log_file "") ;;;
  modify (with_log_file log_file) ;;;
  log_lines (banner log_file (project_dir (world e))).

(** [run_command] of [Qt6Builder], [LinuxBuilder] and
    [UbuntuEnvironmentSetup]: the three methods are the same text, up to
    the line announcing the command ([running]) and the timeout, fixed to
    300 in [Qt6Builder] and a parameter in the other two. *)
Definition run_command_rich (running : string) (command : list string)
    (description : string) (cwd : option path) (timeout : N)
  : M Env (bool * string * string) :=
  let cmd_str := Text.join " " command in
  e <- get ;;
  let dir := default (project_dir (world e)) cwd in
  logger INFO ("Running command: " +:+ cmd_str) ;;;
  logger INFO ("Working directory: " +:+ Os.str dir) ;;;
  console_print (running +:+ description) ;;;
  try_except
    (result <- subprocess_run command (Some dir) true true timeout ;;
     stdout <- strip_stream (Os.stdout result) ;;
     stderr <- strip_stream (Os.stderr result) ;;
     let success := Os.returncode result =? 0 in
     when (truthy stdout) (logger DEBUG ("STDOUT:" +:+ Text.nl +:+ stdout)) ;;;
     when (truthy stderr) (logger WARNING ("STDERR:" +:+ Text.nl +:+ stderr)) ;;;
     (if success then
        console_print ("[OK] " +:+ description) ;;;
        logger INFO ("Command succeeded: " +:+ cmd_str)
      else
        console_print ("[FAIL] " +:+ description) ;;;
        logger ERROR ("Command failed: " +:+ cmd_str +:+ " (exit code: "
                      +:+ pretty (Os.returncode result) +:+ ")") ;;;
        incr_total_errors) ;;;
     ret (success, stdout, stderr))
    (fun ex =>
       match ex with
       | TimeoutExpired _ _ =>
           Some (console_print ("[TIMEOUT] " +:+ description +:+ " - TIMEOUT") ;;;
                 logger ERROR ("Command timed out: " +:+ cmd_str) ;;;
                 incr_total_errors ;;;
                 ret (false, "", "Command timed out"))
       | Exception text =>
           Some (console_print ("[ERROR] " +:+ description +:+ " - EXCEPTION") ;;;
                 logger ERROR ("Command exception: " +:+ cmd_str +:+ " - " +:+ text) ;;;
                 incr_total_errors ;;;
                 ret (false, "", text))
       | KeyboardInterrupt | SystemExit _ => None
       end).

End Builder.

Import Builder.


(* ================================================================== *)
(** * Calling the steps of a pipeline *)
(* ================================================================== *)

Module Controller.

(** A controller calls methods of the builder.  Each call is recorded
    with the way it ended, [Ret (Some b)] for a step that returned the
    boolean [b] and [Ret None] for a procedure; the methods themselves
    only see the environment, never the record of calls. *)
Record Run := {
  env : Env;
  calls : list (string * Res (option bool));
}.

Definition start (e : Env) : Run := {| env := e; calls := [] |}.

(** [self.<name>()] for a step that returns a boolean. *)
Definition call (name : string) (m : M Env bool) : M Run bool :=
  fun r =>
    match m (env r) with
    | (Ret b, e') =>
        (Ret b, {| env := e'; calls := calls r ++ [(name, Ret (Some b))] |})
    | (Raise ex, e') =>
        (Raise ex, {| env := e'; calls := calls r ++ [(name, Raise ex)] |})
    end.

(** [self.<name>()] for a procedure. *)
Definition call_proc (name : string) (m : M Env unit) : M Run unit :=
  fun r =>
    match m (env r) with
    | (Ret _, e') =>
        (Ret tt, {| env := e'; calls := calls r ++ [(name, Ret None)] |})
    | (Raise ex, e') =>
        (Raise ex, {| env := e'; calls := calls r ++ [(name, Raise ex)] |})
    end.

(** Statements of the controller itself (console output, logging,
    statistics): no call is recorded. *)
Definition own {A} (m : M Env A) : M Run A :=
  fun r =>
    match m (env r) with
    | (res, e') => (res, {| env := e'; calls := calls r |})
    end.

(** [console.print] of several lines in a row. *)
Fixpoint say (lines : list string) : M Run unit :=
  match lines with
  | [] => ret tt
  | l :: rest => own (console_print l) ;;; say rest
  end.

(** The shape all the controllers spell out by hand:
    [if not self.step(): return False] for each step in turn, then the
    code [k] that follows the last step.  A gate is the name of the step,
    the step, and what the controller prints when it fails. *)
Definition Gate : Type := string * M Env bool * list string.

Fixpoint gates (gs : list Gate) (k : M Run bool) : M Run bool :=
  match gs with
  | [] => k
  | (name, step, on_fail) :: gs' =>
      ok <- call name step ;;
      if negb ok then say on_fail ;;; ret false
      else gates gs' k
  end.

Definition gate_name (g : Gate) : string := g.1.1.

(** How the calls of a chain of gates can unfold: every step before the
    last call returned [True]; the last call either returned [False] or
    raised, which ends the chain, or it was the last step. *)
Inductive unfolds : list string -> list (string * Res (option bool))
                    -> option (Res bool) -> Prop :=
| unfolds_all : unfolds [] [] None
| unfolds_pass name names cs r :
    unfolds names cs r ->
    unfolds (name :: names) ((name, Ret (Some true)) :: cs) r
| unfolds_stop name names :
    unfolds (name :: names) [(name, Ret (Some false))] (Some (Ret false))
| unfolds_raise name names ex :
    unfolds (name :: names) [(name, Raise ex)] (Some (Raise ex)).

(** The status the operating system sees when the interpreter ends with
    [r]: the argument of [sys.exit], 130 for an interrupt that nobody
    caught, 1 for any other exception that nobody caught. *)
Definition exit_status (r : Res unit) : Z :=
  match r with
  | Ret _ => 0
  | Raise (SystemExit code) => code
  | Raise KeyboardInterrupt => 130
  | Raise _ => 1
  end.

(** How often [name] was called. *)
Definition times_called (name : string)
    (cs : list (string * Res (option bool))) : nat :=
  length (filter (fun c => c.1 = name) cs).

(** A call raised the way an interruption or a failure does: a
    [KeyboardInterrupt] or a subclass of [Exception]. *)
Definition aborts (ex : exn) : bool :=
  match ex with
  | KeyboardInterrupt => true
  | SystemExit _ => false
  | _ => is_Exception ex
  end.

End Controller.

Import Controller.
(* ================================================================== *)
(** * build_linux.py *)
(* ================================================================== *)

Module BuildLinux.

Definition plugins : list string := ["PluginOne"; "PluginTwo"; "PluginThree"].

Definition build_dir (e : Env) : path := project_dir (world e) ++ ["build"].
Definition deploy_dir (e : Env) : path := project_dir (world e) ++ ["deploy_linux"].

(** [LinuxQt6Builder.run_command] *)
Definition run_command (cmd : list string) (cwd : option path)
    (capture_output : bool) (timeout : N) : M Env (bool * string * string) :=
  let cmd_str := Text.join " " cmd in
  logger INFO ("Running command: " +:+ cmd_str) ;;;
  match cwd with
  | Some d => logger INFO ("Working directory: " +:+ Os.str d)
  | None => ret tt
  end ;;;
  try_except
    (if capture_output then
       result <- subprocess_run cmd cwd true true timeout ;;
       stdout <- strip_stream (Os.stdout result) ;;
       stderr <- strip_stream (Os.stderr result) ;;
       (if Os.returncode result =? 0 then
          logger INFO ("Command succeeded: " +:+ cmd_str) ;;;
          when (truthy stdout) (logger DEBUG ("STDOUT: " +:+ stdout))
        else
          logger ERROR ("Command failed with code "
                        +:+ pretty (Os.returncode result) +:+ ": " +:+ cmd_str) ;;;
          when (truthy stderr) (logger ERROR ("STDERR: " +:+ stderr)) ;;;
          when (truthy stdout) (logger DEBUG ("STDOUT: " +:+ stdout))) ;;;
       ret (Os.returncode result =? 0, stdout, stderr)
     else
       result <- subprocess_run cmd cwd false false timeout ;;
       let success := Os.returncode result =? 0 in
       (if success then
          logger INFO ("Command succeeded: " +:+ cmd_str)
        else
          logger ERROR ("Command failed with code "
                        +:+ pretty (Os.returncode result) +:+ ": " +:+ cmd_str)) ;;;
       ret (success, "", ""))
    (fun e =>
       match e with
       | TimeoutExpired _ _ =>
           Some (logger ERROR ("Command timed out after " +:+ pretty timeout
                               +:+ "s: " +:+ cmd_str) ;;;
                 ret (false, "", "Command timed out after " +:+ pretty timeout
                                 +:+ " seconds"))
       | Exception text =>
           Some (logger ERROR ("Command execution failed: " +:+ cmd_str
                               +:+ " - " +:+ text) ;;;
                 ret (false, "", text))
       | KeyboardInterrupt | SystemExit _ => None
       end).

(** The path of a plugin library in the build tree. *)
Definition plugin_lib (plugin_dir : path) (plugin_name : string) : path :=
  plugin_dir ++ [plugin_name; "lib" +:+ plugin_name +:+ ".so"].

Definition msg_exe_not_found (main_exe : path) : string :=
  "[red]✗ Main executable not found: " +:+ Os.str main_exe +:+ "[/red]".
Definition msg_exe_found (main_exe : path) : string :=
  "[green]✓ Main executable found: " +:+ Os.str main_exe +:+ "[/green]".
Definition msg_plugin_found (lib : path) : string :=
  "[green]✓ Plugin found: " +:+ Os.str lib +:+ "[/green]".
Definition msg_plugin_not_found (lib : path) : string :=
  "[yellow]⚠ Plugin not found: " +:+ Os.str lib +:+ "[/yellow]".

(** The loop of [verify_build_artifacts] over [self.plugins], with its
    counter [plugins_found]. *)
Fixpoint check_plugins (plugin_dir : path) (names : list string)
    (plugins_found : Z) : M Env Z :=
  match names with
  | [] => ret plugins_found
  | plugin_name :: rest =>
      let lib := plugin_lib plugin_dir plugin_name in
      found <- path_exists lib ;;
      if found then
        console_print (msg_plugin_found lib) ;;;
        check_plugins plugin_dir rest (plugins_found + 1)
      else
        console_print (msg_plugin_not_found lib) ;;;
        check_plugins plugin_dir rest plugins_found
  end.

(** [LinuxQt6Builder.verify_build_artifacts] *)
Definition verify_build_artifacts : M Env bool :=
  console_print "[bold yellow]🔍 Verifying build artifacts...[/bold yellow]" ;;;
  e <- get ;;
  let main_exe := build_dir e ++ ["src"; "ItemEditor"] in
  found <- path_exists main_exe ;;
  if negb found then
    console_print (msg_exe_not_found main_exe) ;;;
    ret false
  else
    console_print (msg_exe_found main_exe) ;;;
    let plugin_dir := build_dir e ++ ["plugins"] in
    plugins_found <- check_plugins plugin_dir plugins 0 ;;
    update_stats (set_plugins_built plugins_found) ;;;
    update_stats (set_plugins_failed (Z.of_nat (length plugins) - plugins_found)) ;;;
    ret true.

(** The launcher script written into the deployment directory. *)
Definition run_script_text : string :=
  Text.join Text.nl
    [ "#!/bin/bash";
      "# Item Editor Qt6 - Linux Run Script";
      "";
      "# Get the directory where this script is located";
      "SCRIPT_DIR=" +:+ Text.dq +:+ "$(cd " +:+ Text.dq +:+ "$(dirname "
        +:+ Text.dq +:+ "${BASH_SOURCE[0]}" +:+ Text.dq +:+ ")" +:+ Text.dq
        +:+ " && pwd)" +:+ Text.dq;
      "";
      "# Set library path to include Qt6 libraries";
      "export LD_LIBRARY_PATH=" +:+ Text.dq
        +:+ "/usr/lib/qt6/lib:/usr/lib/x86_64-linux-gnu/qt6/lib:$LD_LIBRARY_PATH"
        +:+ Text.dq;
      "";
      "# Set plugin path";
      "export QT_PLUGIN_PATH=" +:+ Text.dq
        +:+ "$SCRIPT_DIR/plugins:/usr/lib/qt6/plugins:/usr/lib/x86_64-linux-gnu/qt6/plugins"
        +:+ Text.dq;
      "";
      "# Run the application";
      "cd " +:+ Text.dq +:+ "$SCRIPT_DIR" +:+ Text.dq;
      "./ItemEditor " +:+ Text.dq +:+ "$@" +:+ Text.dq;
      "" ].

(** The loop of [create_deployment_package] that copies the plugin
    libraries that exist. *)
Fixpoint copy_plugins (plugin_dir plugin_deploy_dir : path)
    (names : list string) : M Env unit :=
  match names with
  | [] => ret tt
  | plugin_name :: rest =>
      let lib := plugin_lib plugin_dir plugin_name in
      found <- path_exists lib ;;
      when found
        (fs_call (Copy2 lib (plugin_deploy_dir ++ ["lib" +:+ plugin_name +:+ ".so"])) ;;;
         console_print ("[green]✓ Plugin " +:+ plugin_name +:+ " copied[/green]")) ;;;
      copy_plugins plugin_dir plugin_deploy_dir rest
  end.

(** [LinuxQt6Builder.create_deployment_package] *)
Definition create_deployment_package : M Env bool :=
  console_print "[bold yellow]📦 Creating deployment package...[/bold yellow]" ;;;
  e <- get ;;
  let deploy := deploy_dir e in
  there <- path_exists deploy ;;
  when there (fs_call (Rmtree deploy)) ;;;
  fs_call (Mkdir deploy true true) ;;;
  try_except
    (let main_exe := build_dir e ++ ["src"; "ItemEditor"] in
     found <- path_exists main_exe ;;
     when found
       (fs_call (Copy2 main_exe (deploy ++ ["ItemEditor"])) ;;;
        fs_call (Chmod (deploy ++ ["ItemEditor"]) 493) ;;;
        console_print "[green]✓ Main executable copied[/green]") ;;;
     let plugin_deploy_dir := deploy ++ ["plugins"] in
     fs_call (Mkdir plugin_deploy_dir false true) ;;;
     let plugin_dir := build_dir e ++ ["plugins"] in
     copy_plugins plugin_dir plugin_deploy_dir plugins ;;;
     let run_script := deploy ++ ["run_itemeditor.sh"] in
     fs_call (WriteText run_script run_script_text) ;;;
     fs_call (Chmod run_script 493) ;;;
     console_print "[green]✓ Deployment package created successfully[/green]" ;;;
     update_stats (set_deployment_successful true) ;;;
     ret true)
    (fun ex =>
       if is_Exception ex then
         Some (console_print ("[red]✗ Failed to create deployment package: "
                              +:+ Text.str_exn ex +:+ "[/red]") ;;;
               ret false)
       else None).

(** [LinuxQt6Builder.setup_logging] *)
Definition setup_logging : M Env unit :=
  Builder.setup_logging "build_linux" (fun _ _ => []).

(** The methods of [LinuxQt6Builder] that the controller calls and that
    are not translated above: any behaviour is allowed for them. *)
Record Methods := {
  print_header : M Env unit;
  check_sudo_access : M Env bool;
  update_package_lists : M Env bool;
  install_system_packages : M Env bool;
  setup_build_environment : M Env bool;
  clean_build_directory : M Env bool;
  configure_cmake : M Env bool;
  build_project : M Env bool;
  print_build_summary : M Env unit;
}.

(** The [except] clauses of [run_build_process]. *)
Definition on_exception (ex : exn) : option (M Run bool) :=
  match ex with
  | KeyboardInterrupt =>
      Some (own (console_print (Text.nl +:+ "[red]Build interrupted by user[/red]")) ;;;
            ret false)
  | SystemExit _ => None
  | _ =>
      Some (own (console_print (Text.nl +:+ "[red]Unexpected error: "
                                +:+ Text.str_exn ex +:+ "[/red]")) ;;;
            own (logger ERROR "Unexpected error during build process") ;;;
            ret false)
  end.

(** [LinuxQt6Builder.run_build_process] *)
Definition run_build_process (self : Methods) : M Run bool :=
  try_except
    (call_proc "print_header" (print_header self) ;;;
     ok <- call "check_sudo_access" (check_sudo_access self) ;;
     if negb ok then
       own (console_print "[red]✗ This script requires sudo access to install system packages.[/red]") ;;;
       own (console_print "[yellow]Please run: sudo -v[/yellow]") ;;;
       ret false
     else
     ok <- call "update_package_lists" (update_package_lists self) ;;
     if negb ok then ret false else
     ok <- call "install_system_packages" (install_system_packages self) ;;
     if negb ok then ret false else
     ok <- call "setup_build_environment" (setup_build_environment self) ;;
     if negb ok then ret false else
     ok <- call "clean_build_directory" (clean_build_directory self) ;;
     if negb ok then ret false else
     ok <- call "configure_cmake" (configure_cmake self) ;;
     if negb ok then ret false else
     ok <- call "build_project" (build_project self) ;;
     if negb ok then ret false else
     ok <- call "verify_build_artifacts" verify_build_artifacts ;;
     if negb ok then ret false else
     ok <- call "create_deployment_package" create_deployment_package ;;
     if negb ok then ret false else
     ret true)
    on_exception.

(** [main]: the constructor of the builder (whose observable part is
    [setup_logging]), the build, the summary, the exit status. *)
Definition main (self : Methods) : M Run unit :=
  own setup_logging ;;;
  try_except
    (success <- run_build_process self ;;
     call_proc "print_build_summary" (print_build_summary self) ;;;
     raise (SystemExit (if success then 0 else 1)))
    (fun ex =>
       if is_Exception ex then
         Some (own (console_print ("[red]Fatal error: " +:+ Text.str_exn ex +:+ "[/red]")) ;;;
               own (logger ERROR "Fatal error in main") ;;;
               raise (SystemExit 1))
       else None).

(** The steps of [run_build_process], in the order of the source. *)
Definition pipeline (self : Methods) : list Gate :=
  [ ("check_sudo_access", check_sudo_access self,
     ["[red]✗ This script requires sudo access to install system packages.[/red]";
      "[yellow]Please run: sudo -v[/yellow]"]);
    ("update_package_lists", update_package_lists self, []);
    ("install_system_packages", install_system_packages self, []);
    ("setup_build_environment", setup_build_environment self, []);
    ("clean_build_directory", clean_build_directory self, []);
    ("configure_cmake", configure_cmake self, []);
    ("build_project", build_project self, []);
    ("verify_build_artifacts", verify_build_artifacts, []);
    ("create_deployment_package", create_deployment_package, []) ].

Definition step_names : list string :=
  [ "check_sudo_access"; "update_package_lists"; "install_system_packages";
    "setup_build_environment"; "clean_build_directory"; "configure_cmake";
    "build_project"; "verify_build_artifacts"; "create_deployment_package" ].

End BuildLinux.

(* ================================================================== *)
(** * build_qt6_project.py *)
(* ================================================================== *)

Module BuildQt6.

Definition plugins : list string := ["PluginOne"; "PluginTwo"; "PluginThree"].

Definition build_dir (e : Env) : path := project_dir (world e) ++ ["build"].
Definition deploy_dir (e : Env) : path :=
  project_dir (world e) ++ ["deploy_threestep"].

(** [Qt6Builder.setup_logging] *)
Definition setup_logging : M Env unit :=
  Builder.setup_logging "build"
    (fun log_file project =>
       [ "Build session started - Log file: " +:+ Os.str log_file;
         "Project directory: " +:+ Os.str project ]).

(** [Qt6Builder.run_command]: five minutes of timeout, always. *)
Definition run_command (command : list string) (description : string)
    (cwd : option path) : M Env (bool * string * string) :=
  run_command_rich "[RUNNING] Running: " command description cwd 300.

(** The artifacts of a deployment: path under the deployment directory
    and the name shown in the report. *)
Definition required_files : list (path * string) :=
  [ (["ItemEditor.exe"], "Main executable");
    (["plugins"; "PluginOne.dll"], "Plugin One");
    (["plugins"; "PluginTwo.dll"], "Plugin Two");
    (["plugins"; "PluginThree.dll"], "Plugin Three") ].

Definition row_found (description : string) (file_size : N) : list string :=
  [description; "[OK] Found"; Text.format_thousands file_size +:+ " bytes"].
Definition row_missing (description : string) : list string :=
  [description; "[FAIL] Missing"; "N/A"].

(** The loop of [verify_deployment]: one row of the table per required
    file, and the flag [all_files_ok]. *)
Fixpoint check_required (deploy : path) (files : list (path * string))
    (rows : list (list string)) (all_files_ok : bool)
  : M Env (list (list string) * bool) :=
  match files with
  | [] => ret (rows, all_files_ok)
  | (file_path, description) :: rest =>
      let full_path := deploy ++ file_path in
      there <- path_exists full_path ;;
      if there then
        file_size <- path_stat_size full_path ;;
        check_required deploy rest
          (rows ++ [row_found description file_size]) all_files_ok
      else
        check_required deploy rest
          (rows ++ [row_missing description]) false
  end.

(** [Qt6Builder.verify_deployment] *)
Definition verify_deployment : M Env bool :=
  e <- get ;;
  checked <- check_required (deploy_dir e) required_files [] true ;;
  let all_files_ok := checked.2 in
  console_print_table checked.1 ;;;
  (if all_files_ok then
     logger INFO "Deployment verification successful"
   else
     logger ERROR "Deployment verification failed - missing files") ;;;
  ret all_files_ok.

(** The methods of [Qt6Builder] the controller calls; any behaviour is
    allowed for them. *)
Record Methods := {
  show_header : M Env unit;
  verify_prerequisites : M Env bool;
  clean_previous_builds : M Env bool;
  step1_build_plugins : M Env bool;
  step2_build_main_app : M Env bool;
  step3_deploy_application : M Env bool;
  show_build_summary : M Env unit;
}.

(** The [except] clauses of [run_build]. *)
Definition on_exception (ex : exn) : option (M Run bool) :=
  match ex with
  | KeyboardInterrupt =>
      Some (own (console_print (Text.nl +:+ "[STOP] Build interrupted by user")) ;;;
            own (logger WARNING "Build interrupted by user") ;;;
            ret false)
  | SystemExit _ => None
  | _ =>
      Some (own (console_print (Text.nl +:+ "[ERROR] Unexpected error: "
                                +:+ Text.str_exn ex)) ;;;
            own (logger ERROR ("Unexpected error: " +:+ Text.str_exn ex)) ;;;
            ret false)
  end.

(** [Qt6Builder.run_build] *)
Definition run_build (self : Methods) : M Run bool :=
  try_finally
    (try_except
       (call_proc "show_header" (show_header self) ;;;
        ok <- call "verify_prerequisites" (verify_prerequisites self) ;;
        if negb ok then ret false else
        ok <- call "clean_previous_builds" (clean_previous_builds self) ;;
        if negb ok then ret false else
        ok <- call "step1_build_plugins" (step1_build_plugins self) ;;
        if negb ok then ret false else
        ok <- call "step2_build_main_app" (step2_build_main_app self) ;;
        if negb ok then ret false else
        ok <- call "step3_deploy_application" (step3_deploy_application self) ;;
        if negb ok then ret false else
        ret true)
       on_exception)
    (call_proc "show_build_summary" (show_build_summary self)).

(** [main]: the version check, the constructor of the builder (whose
    observable part is [setup_logging]), the build, the exit status. *)
Definition main (self : Methods) : M Run unit :=
  e <- own get ;;
  if negb (python_at_least_3_7 (world e)) then
    own (console_print "[FAIL] Python 3.7 or higher is required") ;;;
    raise (SystemExit 1)
  else
    own setup_logging ;;;
    success <- run_build self ;;
    raise (SystemExit (if success then 0 else 1)).

Definition pipeline (self : Methods) : list Gate :=
  [ ("verify_prerequisites", verify_prerequisites self, []);
    ("clean_previous_builds", clean_previous_builds self, []);
    ("step1_build_plugins", step1_build_plugins self, []);
    ("step2_build_main_app", step2_build_main_app self, []);
    ("step3_deploy_application", step3_deploy_application self, []) ].

Definition step_names : list string :=
  [ "verify_prerequisites"; "clean_previous_builds"; "step1_build_plugins";
    "step2_build_main_app"; "step3_deploy_application" ].

End BuildQt6.

(* ================================================================== *)
(** * build_linux_all_in_one.py *)
(* ================================================================== *)

Module AllInOne.

Definition build_dir (e : Env) : path := project_dir (world e) ++ ["build"].

(** [LinuxBuilder.setup_logging] *)
Definition setup_logging : M Env unit :=
  Builder.setup_logging "build_linux"
    (fun log_file project =>
       [ "Linux build session started - Log file: " +:+ Os.str log_file;
         "Project directory: " +:+ Os.str project ]).

(** [LinuxBuilder.run_command] *)
Definition run_command (command : list string) (description : string)
    (cwd : option path) (timeout : N) : M Env (bool * string * string) :=
  run_command_rich "[RUNNING] " command description cwd timeout.

Definition qt6_paths : list path :=
  [ ["usr"; "lib"; "qt6"];
    ["usr"; "lib"; "x86_64-linux-gnu"; "cmake"; "Qt6"];
    ["usr"; "share"; "qt6"] ].

(** The loop of [configure_cmake] that picks the first Qt6 directory
    that exists, [qt6_path] being the default. *)
Fixpoint find_qt6 (paths : list path) (qt6_path : string) : M Env string :=
  match paths with
  | [] => ret qt6_path
  | p :: rest =>
      there <- path_exists p ;;
      if there then
        console_print ("[FOUND] Using Qt6 path: " +:+ Os.str p) ;;;
        ret (Os.str p)
      else find_qt6 rest qt6_path
  end.

Definition cmake_args (qt6_path : string) (project_root : path) : list string :=
  [ "cmake";
    "-G"; "Unix Makefiles";
    "-DCMAKE_BUILD_TYPE=Release";
    "-DCMAKE_EXPORT_COMPILE_COMMANDS=ON";
    "-DCMAKE_PREFIX_PATH=" +:+ qt6_path;
    "-DCMAKE_VERBOSE_MAKEFILE=ON";
    Os.str project_root ].

(** [LinuxBuilder.configure_cmake] *)
Definition configure_cmake : M Env bool :=
  console_print_panel "[CMAKE] Configuring Project" "" ;;;
  qt6_path <- find_qt6 qt6_paths "/usr/lib/qt6" ;;
  e <- get ;;
  let args := cmake_args qt6_path (project_dir (world e)) in
  r <- run_command args "CMake configuration" (Some (build_dir e)) 600 ;;
  if r.1.1 then
    update_stats (set_cmake_successful true) ;;;
    console_print "[OK] CMake configuration successful" ;;;
    ret true
  else
    console_print_panel
      ("[red]CMake configuration failed![/red]" +:+ Text.nl +:+ Text.nl
       +:+ "Error output:" +:+ Text.nl +:+ r.2 +:+ Text.nl +:+ Text.nl
       +:+ "Trying with Ninja generator as fallback...")
      "[WARN] CMake Configuration Error" ;;;
    (* cmake_args[2] = "Ninja" *)
    let args := <[2%nat := "Ninja"]> args in
    r <- run_command args "CMake configuration (Ninja fallback)"
           (Some (build_dir e)) 600 ;;
    if r.1.1 then
      update_stats (set_cmake_successful true) ;;;
      console_print "[OK] CMake configuration successful with Ninja" ;;;
      ret true
    else
      console_print_panel
        ("[red]CMake configuration failed with both generators![/red]"
         +:+ Text.nl +:+ Text.nl +:+ "Error output:" +:+ Text.nl +:+ r.2)
        "[FAIL] CMake Configuration Error" ;;;
      ret false.

(** The methods of [LinuxBuilder] the controller calls and that are not
    translated above; any behaviour is allowed for them. *)
Record Methods := {
  show_header : M Env unit;
  verify_prerequisites : M Env bool;
  install_system_packages : M Env bool;
  verify_qt6_installation : M Env bool;
  clean_previous_builds : M Env bool;
  build_plugins : M Env bool;
  build_main_application : M Env bool;
  show_build_summary : M Env unit;
}.

(** The [except] clauses of [run_build]. *)
Definition on_exception (ex : exn) : option (M Run bool) :=
  match ex with
  | KeyboardInterrupt =>
      Some (own (console_print (Text.nl +:+ "[STOP] Build interrupted by user")) ;;;
            own (logger WARNING "Build interrupted by user") ;;;
            ret false)
  | SystemExit _ => None
  | _ =>
      Some (own (console_print (Text.nl +:+ "[ERROR] Unexpected error: "
                                +:+ Text.str_exn ex)) ;;;
            own (logger ERROR ("Unexpected error: " +:+ Text.str_exn ex)) ;;;
            ret false)
  end.

(** [LinuxBuilder.run_build] *)
Definition run_build (self : Methods) : M Run bool :=
  try_finally
    (try_except
       (call_proc "show_header" (show_header self) ;;;
        ok <- call "verify_prerequisites" (verify_prerequisites self) ;;
        if negb ok then ret false else
        ok <- call "install_system_packages" (install_system_packages self) ;;
        if negb ok then ret false else
        ok <- call "verify_qt6_installation" (verify_qt6_installation self) ;;
        if negb ok then ret false else
        ok <- call "clean_previous_builds" (clean_previous_builds self) ;;
        if negb ok then ret false else
        ok <- call "configure_cmake" configure_cmake ;;
        if negb ok then ret false else
        ok <- call "build_plugins" (build_plugins self) ;;
        if negb ok then ret false else
        ok <- call "build_main_application" (build_main_application self) ;;
        if negb ok then ret false else
        own (update_stats (set_build_successful true)) ;;;
        ret true)
       on_exception)
    (call_proc "show_build_summary" (show_build_summary self)).

Definition pipeline (self : Methods) : list Gate :=
  [ ("verify_prerequisites", verify_prerequisites self, []);
    ("install_system_packages", install_system_packages self, []);
    ("verify_qt6_installation", verify_qt6_installation self, []);
    ("clean_previous_builds", clean_previous_builds self, []);
    ("configure_cmake", configure_cmake, []);
    ("build_plugins", build_plugins self, []);
    ("build_main_application", build_main_application self, []) ].

Definition step_names : list string :=
  [ "verify_prerequisites"; "install_system_packages";
    "verify_qt6_installation"; "clean_previous_builds"; "configure_cmake";
    "build_plugins"; "build_main_application" ].

End AllInOne.

(* ================================================================== *)
(** * setup_environment.py *)
(* ================================================================== *)

Module SetupEnv.

(** [UbuntuEnvironmentSetup.setup_logging] *)
Definition setup_logging : M Env unit :=
  Builder.setup_logging "setup_ubuntu"
    (fun log_file project =>
       [ "Ubuntu environment setup session started - Log file: "
           +:+ Os.str log_file;
         "Project directory: " +:+ Os.str project ]).

(** [print_message]: through the rich console or with [print]; the text
    shown is the same. *)
Definition print_message (message : string) : M Env unit :=
  console_print message.

(** [print_panel] *)
Definition print_panel (content title : string) : M Env unit :=
  e <- get ;;
  if rich_available (world e) then console_print_panel content title
  else
    console_print (Text.nl +:+ "=== " +:+ title +:+ " ===") ;;;
    console_print content ;;;
    console_print (Text.replicate (String.length title + 8) "=").

(** [UbuntuEnvironmentSetup.run_command] *)
Definition run_command (command : list string) (description : string)
    (cwd : option path) (timeout : N) : M Env (bool * string * string) :=
  run_command_rich "[RUNNING] " command description cwd timeout.

(** [import rich] inside [install_python_rich]: [True] when the import
    works, [False] on [ImportError]. *)
Definition import_rich : M Env bool :=
  fun e => (Ret (rich_importable (world e) (length (spawned (trace e)))), e).

Definition pip_commands : list string := ["pip3"; "pip"].

(** [UbuntuEnvironmentSetup.install_python_rich] *)
Definition install_python_rich : M Env bool :=
  e <- get ;;
  if rich_available (world e) then
    print_message "[OK] Rich library already available" ;;;
    ret true
  else
    print_panel "[PYTHON] Installing Python Rich Library" "Python Setup" ;;;
    first <- for_each pip_commands (fun pip_cmd =>
      r <- run_command [pip_cmd; "install"; "rich"]
             ("Installing rich library with " +:+ pip_cmd) None 300 ;;
      if r.1.1 then
        incr_python_packages_installed ;;;
        print_message ("[OK] Rich library installed successfully with " +:+ pip_cmd) ;;;
        logger INFO ("Rich library installed with " +:+ pip_cmd) ;;;
        ok <- import_rich ;;
        if ok then
          print_message "[OK] Rich library import verified" ;;;
          ret (Some true)
        else
          print_message "[WARN] Rich installed but import failed" ;;;
          ret None
      else
        print_message ("[FAIL] Failed to install rich with " +:+ pip_cmd) ;;;
        ret None) ;;
    match first with
    | Some b => ret b
    | None =>
        second <- for_each pip_commands (fun pip_cmd =>
          r <- run_command [pip_cmd; "install"; "--user"; "rich"]
                 ("Installing rich library with " +:+ pip_cmd +:+ " --user")
                 None 300 ;;
          if r.1.1 then
            incr_python_packages_installed ;;;
            print_message ("[OK] Rich library installed successfully with "
                           +:+ pip_cmd +:+ " --user") ;;;
            ret (Some true)
          else ret None) ;;
        match second with
        | Some b => ret b
        | None =>
            print_message "[FAIL] Failed to install rich library with all methods" ;;;
            ret false
        end
    end.

End SetupEnv.

(* ================================================================== *)
(** * cmake_error_logger.py *)
(* ================================================================== *)

Module CmakeErrorLogger.

(** This script calls [subprocess.run] without a timeout, so a call may
    never return: a computation yields [None] when it blocks for ever. *)
Definition P (A : Type) : Type := Env -> option (Res A * Env).

Definition lift {A} (m : M Env A) : P A := fun e => Some (m e).

Definition bindP {A B} (m : P A) (k : A -> P B) : P B :=
  fun e =>
    match m e with
    | None => None
    | Some (Ret a, e') => k a e'
    | Some (Raise ex, e') => Some (Raise ex, e')
    end.

Definition try_exceptP {A} (body : P A) (handler : exn -> option (P A)) : P A :=
  fun e =>
    match body e with
    | None => None
    | Some (Ret a, e') => Some (Ret a, e')
    | Some (Raise ex, e') =>
        match handler ex with
        | Some h => h e'
        | None => Some (Raise ex, e')
        end
    end.

(** [subprocess.run(cmd, capture_output=True, text=True, cwd=os.getcwd())] *)
Definition subprocess_run (cmd : list string) : P CompletedProcess :=
  fun e =>
    let b := behaviour (world e) (length (spawned (trace e))) cmd in
    match Os.run_unbounded b true true with
    | None => None
    | Some r => Some (r, emit (Spawn cmd (Some (cwd (world e))) true None) e)
    end.

(** [f.write(data)] on the log file opened by the script. *)
Definition f_write (log_file : path) (data : string) : P unit :=
  lift (fs_call (Append log_file data)).

Definition whenP (b : bool) (m : P unit) : P unit :=
  if b then m else lift (ret tt).

Definition stream_text (x : option string) : string := default "" x.

(** One of the two [try] blocks of the script: run the command, write
    its return code and what it printed; [label] is ["Configure"] or
    ["Build"]. *)
Definition run_and_log (log_file : path) (label : string) (cmd : list string)
  : P unit :=
  try_exceptP
    (bindP (subprocess_run cmd) (fun result =>
     bindP (f_write log_file (label +:+ " Return code: "
                              +:+ pretty (Os.returncode result)
                              +:+ Text.nl +:+ Text.nl)) (fun _ =>
     bindP (whenP (truthy (stream_text (Os.stderr result)))
              (bindP (f_write log_file (label +:+ " STDERR:" +:+ Text.nl)) (fun _ =>
               bindP (f_write log_file (stream_text (Os.stderr result))) (fun _ =>
               f_write log_file Text.nl)))) (fun _ =>
     whenP (truthy (stream_text (Os.stdout result)))
              (bindP (f_write log_file (label +:+ " STDOUT:" +:+ Text.nl)) (fun _ =>
               bindP (f_write log_file (stream_text (Os.stdout result))) (fun _ =>
               f_write log_file Text.nl)))))))
    (fun ex =>
       if is_Exception ex then
         Some (f_write log_file (label +:+ " Exception: " +:+ Text.str_exn ex
                                 +:+ Text.nl +:+ Text.nl))
       else None).

Definition cmake_configure_cmd : list string :=
  ["cmake"; "-B"; "build"; "-S"; "."; "-DCMAKE_PREFIX_PATH=/usr/lib/qt6"].
Definition cmake_build_cmd : list string :=
  ["cmake"; "--build"; "build"; "--parallel"; "4"].

(** The name of the log file of a run whose clock shows [t]. *)
Definition log_file_at (w : World) (t : Clock.datetime) : path :=
  cwd w ++ ["logs"; "cmake_build_errors_" +:+ Clock.strftime_stamp t +:+ ".log"].

(** [run_full_cmake_build_and_log_errors] *)
Definition run_full_cmake_build_and_log_errors : P unit :=
  bindP (lift get) (fun e =>
  bindP (lift (fs_call (Mkdir (cwd (world e) ++ ["logs"]) true true))) (fun _ =>
  bindP (lift get) (fun e1 =>
  let log_file := log_file_at (world e1) (now e1) in
  (* with open(log_file, 'w') as f: *)
  bindP (lift (fs_call (WriteText log_file ""))) (fun _ =>
  bindP (lift get) (fun e2 =>
  bindP (f_write log_file ("CMake Full Build Error Log - "
                           +:+ Clock.strftime_human (now e2) +:+ Text.nl)) (fun _ =>
  bindP (f_write log_file (Text.replicate 80 "=" +:+ Text.nl +:+ Text.nl)) (fun _ =>
  bindP (f_write log_file ("STEP 1: CMAKE CONFIGURE" +:+ Text.nl)) (fun _ =>
  bindP (f_write log_file (Text.replicate 40 "-" +:+ Text.nl)) (fun _ =>
  bindP (f_write log_file ("Command: " +:+ Text.join " " cmake_configure_cmd
                           +:+ Text.nl +:+ Text.nl)) (fun _ =>
  bindP (run_and_log log_file "Configure" cmake_configure_cmd) (fun _ =>
  bindP (f_write log_file (Text.nl +:+ Text.replicate 80 "=" +:+ Text.nl +:+ Text.nl)) (fun _ =>
  bindP (f_write log_file ("STEP 2: CMAKE BUILD (Libraries + Executable)" +:+ Text.nl)) (fun _ =>
  bindP (f_write log_file (Text.replicate 40 "-" +:+ Text.nl)) (fun _ =>
  bindP (f_write log_file ("Command: " +:+ Text.join " " cmake_build_cmd
                           +:+ Text.nl +:+ Text.nl)) (fun _ =>
  bindP (run_and_log log_file "Build" cmake_build_cmd) (fun _ =>
  lift (console_print ("Full CMake build errors logged to: logs/cmake_build_errors_"
                       +:+ Clock.strftime_stamp (now e1) +:+ ".log")))))))))))))))))).

End CmakeErrorLogger.

(* ================================================================== *)
(** * Further methods of the builder classes *)
(* ================================================================== *)

(** ** build_qt6_project.py and build_linux_all_in_one.py *)

Module Cleaning.

(** The rows of the table of [verify_prerequisites] and the flag
    [all_good], from the list [checks]. *)
Fixpoint check_rows (checks : list (string * bool * string))
  : list (list string) * bool :=
  match checks with
  | [] => ([], true)
  | (name, status, details) :: rest =>
      let r := check_rows rest in
      if status then ([name; "[OK] OK"; details] :: r.1, r.2)
      else ([name; "[FAIL] FAIL"; details] :: r.1, false)
  end.

End Cleaning.

Module Qt6Builder.

Definition prerequisites_failed_text : string :=
  "[red][FAIL] Prerequisites check failed![/red]" +:+ Text.nl +:+ Text.nl
  +:+ "Please ensure:" +:+ Text.nl
  +:+ "• Qt6 is installed and in your PATH" +:+ Text.nl
  +:+ "• CMake is available in PATH" +:+ Text.nl
  +:+ "• A compatible C++ compiler is installed" +:+ Text.nl
  +:+ "• CMakeLists.txt exists in project root".

(** [Qt6Builder.verify_prerequisites] *)
Definition verify_prerequisites : M Env bool :=
  console_print_panel "[CHECK] Verifying Prerequisites" "" ;;;
  e <- get ;;
  let cmake_file := project_dir (world e) ++ ["CMakeLists.txt"] in
  there <- path_exists cmake_file ;;
  (if there then
     logger INFO ("CMakeLists.txt found: " +:+ Os.str cmake_file)
   else
     logger ERROR ("CMakeLists.txt not found: " +:+ Os.str cmake_file)) ;;;
  let check1 :=
    if there then ("CMakeLists.txt", true, Os.str cmake_file)
    else ("CMakeLists.txt", false, "Not found at " +:+ Os.str cmake_file) in
  r <- BuildQt6.run_command ["cmake"; "--version"] "CMake availability check" None ;;
  let success := r.1.1 in
  let check2 :=
    ("CMake", success, if success then "Available" else "Not found in PATH") in
  let table := Cleaning.check_rows [check1; check2] in
  console_print_table table.1 ;;;
  console_print "" ;;;
  if negb table.2 then
    logger ERROR "Prerequisites check failed" ;;;
    console_print_panel prerequisites_failed_text "[FAIL] Build Cannot Continue" ;;;
    ret false
  else
    logger INFO "All prerequisites verified successfully" ;;;
    ret true.




(** The loop of [copy_plugins] over [self.plugins]. *)
Fixpoint copy_dlls (src_dir dst_dir : path) (names : list string) : M Env unit :=
  match names with
  | [] => ret tt
  | plugin :: rest =>
      let src_dll := src_dir ++ [plugin +:+ ".dll"] in
      let dst_dll := dst_dir ++ [plugin +:+ ".dll"] in
      fs_call (Copy2 src_dll dst_dll) ;;;
      logger INFO ("Copied plugin: " +:+ Os.str src_dll +:+ " -> " +:+ Os.str dst_dll) ;;;
      copy_dlls src_dir dst_dir rest
  end.

(** [Qt6Builder.copy_plugins] *)
Definition copy_plugins : M Env bool :=
  e <- get ;;
  let src_dir := BuildQt6.build_dir e ++ ["Release"; "plugins"] in
  let dst_dir := BuildQt6.deploy_dir e ++ ["plugins"] in
  try_except
    (fs_call (Mkdir dst_dir false true) ;;;
     copy_dlls src_dir dst_dir BuildQt6.plugins ;;;
     ret true)
    (fun ex =>
       if is_Exception ex then
         Some (logger ERROR ("Failed to copy plugins: " +:+ Text.str_exn ex) ;;;
               ret false)
       else None).




End Qt6Builder.

Module LinuxBuilder.

Definition prerequisites_failed_text : string :=
  "[red][FAIL] Prerequisites check failed![/red]" +:+ Text.nl +:+ Text.nl
  +:+ "Please ensure:" +:+ Text.nl
  +:+ "• Qt6 is installed and in your PATH" +:+ Text.nl
  +:+ "• CMake is available in PATH" +:+ Text.nl
  +:+ "• GCC/Clang compiler is installed" +:+ Text.nl
  +:+ "• CMakeLists.txt exists in project root".

(** [LinuxBuilder.verify_prerequisites] *)
Definition verify_prerequisites : M Env bool :=
  console_print_panel "[CHECK] Verifying Prerequisites" "" ;;;
  e <- get ;;
  let cmake_file := project_dir (world e) ++ ["CMakeLists.txt"] in
  there <- path_exists cmake_file ;;
  (if there then
     logger INFO ("CMakeLists.txt found: " +:+ Os.str cmake_file)
   else
     logger ERROR ("CMakeLists.txt not found: " +:+ Os.str cmake_file)) ;;;
  let check1 :=
    if there then ("CMakeLists.txt", true, Os.str cmake_file)
    else ("CMakeLists.txt", false, "Not found at " +:+ Os.str cmake_file) in
  r <- AllInOne.run_command ["cmake"; "--version"] "CMake availability check"
         None 300 ;;
  let cmake_ok := r.1.1 in
  let check2 :=
    ("CMake", cmake_ok, if cmake_ok then "Available" else "Not found in PATH") in
  r <- AllInOne.run_command ["g++"; "--version"] "GCC availability check"
         None 300 ;;
  let gcc_ok := r.1.1 in
  let check3 :=
    ("GCC Compiler", gcc_ok, if gcc_ok then "Available" else "Not found in PATH") in
  let table := Cleaning.check_rows [check1; check2; check3] in
  console_print_table table.1 ;;;
  console_print "" ;;;
  if negb table.2 then
    logger ERROR "Prerequisites check failed" ;;;
    console_print_panel prerequisites_failed_text "[FAIL] Build Cannot Continue" ;;;
    ret false
  else
    logger INFO "All prerequisites verified successfully" ;;;
    ret true.

End LinuxBuilder.

(** ** build_linux.py *)

Module LinuxQt6Builder.

(** [LinuxQt6Builder.check_sudo_access].  The [except] clause names
    [TimeoutExpired] and [CalledProcessError]; [subprocess.run] without
    [check=True] never raises the latter, and the exceptions of a launch
    that fails (no [sudo] on the machine) are neither. *)
Definition check_sudo_access : M Env bool :=
  try_except
    (result <- subprocess_run ["sudo"; "-n"; "true"] None true false 5 ;;
     ret (Os.returncode result =? 0))
    (fun ex =>
       match ex with
       | TimeoutExpired _ _ => Some (ret false)
       | _ => None
       end).

(** [LinuxQt6Builder.update_package_lists] *)
Definition update_package_lists : M Env bool :=
  console_print "[bold yellow]📦 Updating package lists...[/bold yellow]" ;;;
  r <- BuildLinux.run_command ["sudo"; "apt"; "update"] None false 120 ;;
  if r.1.1 then
    console_print "[green]✓ Package lists updated successfully[/green]" ;;;
    ret true
  else
    console_print ("[red]✗ Failed to update package lists: " +:+ r.2 +:+ "[/red]") ;;;
    ret false.

(** [LinuxQt6Builder.clean_build_directory] *)
Definition clean_build_directory : M Env bool :=
  console_print "[bold yellow]🧹 Cleaning build directory...[/bold yellow]" ;;;
  e <- get ;;
  let build_dir := BuildLinux.build_dir e in
  there <- path_exists build_dir ;;
  cleaned <-
    (if there then
       try_except
         (fs_call (Rmtree build_dir) ;;;
          console_print "[green]✓ Build directory cleaned[/green]" ;;;
          ret true)
         (fun ex =>
            if is_Exception ex then
              Some (console_print ("[red]✗ Failed to clean build directory: "
                                   +:+ Text.str_exn ex +:+ "[/red]") ;;;
                    ret false)
            else None)
     else ret true) ;;
  if cleaned then
    fs_call (Mkdir build_dir true true) ;;;
    ret true
  else ret false.

End LinuxQt6Builder.

(* ================================================================== *)
(** * build_linux.py, before the class: the Python dependencies *)
(* ================================================================== *)

Module BuildLinuxScript.
Import CmakeErrorLogger.







End BuildLinuxScript.

(* ================================================================== *)
(** * Vocabulary of the statements *)
(* ================================================================== *)

(** [wp m Q s]: running [m] from [s] ends in an outcome and a state that
    satisfy [Q]. *)
Definition wp {S A} (m : M S A) (Q : Res A -> S -> Prop) (s : S) : Prop :=
  Q (m s).1 (m s).2.

(** What [LinuxQt6Builder.run_command] answers when the program launched
    behaves as [b]. *)
Definition linux_answer (b : Behaviour) (capture_output : bool) (timeout : N)
  : Res (bool * string * string) :=
  match b with
  | Exits d rc out err =>
      if (timeout <? d)%N then
        Ret (false, "", "Command timed out after " +:+ pretty timeout +:+ " seconds")
      else
        Ret (rc =? 0,
             if capture_output then Text.strip (Text.universal_newlines out)
             else "",
             if capture_output then Text.strip (Text.universal_newlines err)
             else "")
  | Hangs =>
      Ret (false, "", "Command timed out after " +:+ pretty timeout +:+ " seconds")
  | Fails text => Ret (false, "", text)
  | Interrupted => Raise KeyboardInterrupt
  end.

(** What the [run_command] of the other three classes answers. *)
Definition rich_answer (b : Behaviour) (timeout : N)
  : Res (bool * string * string) :=
  match b with
  | Exits d rc out err =>
      if (timeout <? d)%N then Ret (false, "", "Command timed out")
      else Ret (rc =? 0, Text.strip (Text.universal_newlines out),
                Text.strip (Text.universal_newlines err))
  | Hangs => Ret (false, "", "Command timed out")
  | Fails text => Ret (false, "", text)
  | Interrupted => Raise KeyboardInterrupt
  end.

(** The behaviour of the program that the next launch of [cmd] starts. *)
Definition next_behaviour (e : Env) (cmd : list string) : Behaviour :=
  behaviour (world e) (length (spawned (trace e))) cmd.


(** ** Sample worlds *)

Module Sample.

Definition noon : Clock.datetime :=
  {| Clock.year := 2025; Clock.month := 3; Clock.day := 14;
     Clock.hour := 12; Clock.minute := 0; Clock.second := 7;
     Clock.microsecond := 250000 |}%N.

Definition project : path := ["home"; "dev"; "ItemEditor"].

(** A world where the programs behave as [b] says, no file-system call
    is refused and the clock stands at [t]. *)
Definition world_at (t : Clock.datetime)
    (b : nat -> list string -> Behaviour) : World :=
  {| project_dir := project;
     cwd := project;
     behaviour := b;
     fs_fault := fun _ _ => None;
     clock := fun _ => t;
     rich_available := false;
     rich_importable := fun _ => true;
     python_at_least_3_7 := true |}.

Definition world_of (b : nat -> list string -> Behaviour) : World :=
  world_at noon b.

Definition apt_update : list string := ["sudo"; "apt"; "update"].

(** [apt update] that never comes back, is interrupted, or prints a line
    and exits with 0 after two seconds. *)
Definition hanging : World := world_of (fun _ _ => Hangs).
Definition interrupted : World := world_of (fun _ _ => Interrupted).

(** A program that rewrites a progress line in place with a carriage
    return and ends its lines with [CR LF]. *)
Definition progress_text : string :=
  "Get:1 10%" +:+ Text.cr +:+ "Get:1 100%" +:+ Text.cr +:+ Text.nl
  +:+ "Done" +:+ Text.cr +:+ Text.nl.
Definition progress : World :=
  world_of (fun _ _ => Exits 2 0 progress_text "").

End Sample.

(** ** What the verifiers are expected to report *)

(** The line [verify_build_artifacts] prints for a plugin. *)
Definition plugin_report (f : gmap path node) (plugin_dir : path)
    (plugin_name : string) : string :=
  let lib := BuildLinux.plugin_lib plugin_dir plugin_name in
  if Os.exists_ f lib then BuildLinux.msg_plugin_found lib
  else BuildLinux.msg_plugin_not_found lib.

(** How many of the plugin libraries exist. *)
Definition plugins_present (f : gmap path node) (plugin_dir : path)
    (names : list string) : Z :=
  Z.of_nat (length (filter
    (fun n => Os.exists_ f (BuildLinux.plugin_lib plugin_dir n) = true) names)).

(** [p.stat().st_size] when [p] exists. *)
Definition size_of (f : gmap path node) (p : path) : N :=
  match f !! p with
  | Some (File c) => N.of_nat (String.length c)
  | _ => 4096
  end.

(** The row of the table of [verify_deployment] for a required file. *)
Definition deployment_row (f : gmap path node) (deploy : path)
    (file : path * string) : list string :=
  if Os.exists_ f (deploy ++ file.1)
  then BuildQt6.row_found file.2 (size_of f (deploy ++ file.1))
  else BuildQt6.row_missing file.2.

Definition verifying_banner : string :=
  "[bold yellow]🔍 Verifying build artifacts...[/bold yellow]".

(** ** Sample build trees *)

Module SampleTree.

Definition build : path := Sample.project ++ ["build"].
Definition exe : path := build ++ ["src"; "ItemEditor"].
Definition lib (plugin_name : string) : path :=
  BuildLinux.plugin_lib (build ++ ["plugins"]) plugin_name.

Definition dirs : gmap path node :=
  list_to_map
    (map (fun p => (p, Dir))
         [ ["home"]; ["home"; "dev"]; Sample.project; build;
           build ++ ["src"]; build ++ ["plugins"];
           build ++ ["plugins"; "PluginOne"];
           build ++ ["plugins"; "PluginTwo"];
           build ++ ["plugins"; "PluginThree"] ]).

(** The three plugin libraries are built, the main executable is not. *)
Definition plugins_only : gmap path node :=
  <[lib "PluginOne" := File "one"]>
    (<[lib "PluginTwo" := File "two"]>
       (<[lib "PluginThree" := File "three"]> dirs)).

(** The main executable and [PluginTwo] are built, the other two
    plugins are not. *)
Definition exe_and_one_plugin : gmap path node :=
  <[exe := File "ELF"]> (<[lib "PluginTwo" := File "two"]> dirs).

Definition quiet : World := Sample.world_of (fun _ _ => Exits 1 0 "" "").

(** A fresh process in front of a build tree that holds no artifact. *)
Definition bare : Env := boot quiet dirs.

End SampleTree.

(** With exactly the artifact number [missing] absent: the rows
    [verify_deployment] should show, and the lines
    [verify_build_artifacts] should print for the plugins. *)
Definition expected_rows (f : gmap path node) (deploy : path) (missing : nat)
  : list (list string) :=
  imap (fun j file =>
          if decide (j = missing) then BuildQt6.row_missing file.2
          else BuildQt6.row_found file.2 (size_of f (deploy ++ file.1)))
       BuildQt6.required_files.

Definition expected_plugin_lines (plugin_dir : path) (missing : nat)
  : list Event :=
  imap (fun j n =>
          let lib := BuildLinux.plugin_lib plugin_dir n in
          Print (if decide (j = missing) then BuildLinux.msg_plugin_not_found lib
                 else BuildLinux.msg_plugin_found lib))
       BuildLinux.plugins.

(** A deployment where [PluginTwo.dll] alone is missing. *)
Module SampleDeployment.

Definition deploy : path := Sample.project ++ ["deploy_threestep"].

Definition without_plugin_two : gmap path node :=
  <[deploy ++ ["ItemEditor.exe"] := File "MZ-main"]>
    (<[deploy ++ ["plugins"; "PluginOne.dll"] := File "MZ-1"]>
       (<[deploy ++ ["plugins"; "PluginThree.dll"] := File "MZ-three"]>
          (<[deploy ++ ["plugins"] := Dir]> (<[deploy := Dir]> SampleTree.dirs)))).

End SampleDeployment.

(** ** Fail-fast pipelines *)

(** How a call of a boolean step is recorded. *)
Definition record_of (res : Res bool) : Res (option bool) :=
  match res with
  | Ret b => Ret (Some b)
  | Raise ex => Raise ex
  end.

(** The calls [cs] made while running the steps [names], and the result
    [res] of the run, are those of a fail-fast pipeline: the steps are
    called in order, each at most once; a step that returns [False] is the
    last one called and makes the result [False]; the result is [True] only
    if every step was called and returned [True]. *)
Definition fail_fast (names : list string)
    (cs : list (string * Res (option bool))) (res : Res bool) : Prop :=
  map fst cs `prefix_of` names /\
  (forall i name, cs !! i = Some (name, Ret (Some false)) ->
                  length cs = S i /\ res = Ret false) /\
  (res = Ret true ->
   map fst cs = names /\ forall c, c ∈ cs -> c.2 = Ret (Some true)).

(** Builders whose untranslated methods all succeed without doing
    anything, except that [step1_build_plugins] (resp.
    [install_system_packages]) is interrupted by the user. *)
Module SampleRun.

Definition fine : M Env bool := ret true.
Definition silent : M Env unit := ret tt.
Definition ctrl_c : M Env bool := raise KeyboardInterrupt.

Definition qt6_interrupted : BuildQt6.Methods :=
  {| BuildQt6.show_header := silent;
     BuildQt6.verify_prerequisites := fine;
     BuildQt6.clean_previous_builds := fine;
     BuildQt6.step1_build_plugins := ctrl_c;
     BuildQt6.step2_build_main_app := fine;
     BuildQt6.step3_deploy_application := fine;
     BuildQt6.show_build_summary := silent |}.

Definition linux_interrupted : BuildLinux.Methods :=
  {| BuildLinux.print_header := silent;
     BuildLinux.check_sudo_access := fine;
     BuildLinux.update_package_lists := fine;
     BuildLinux.install_system_packages := ctrl_c;
     BuildLinux.setup_build_environment := fine;
     BuildLinux.clean_build_directory := fine;
     BuildLinux.configure_cmake := fine;
     BuildLinux.build_project := fine;
     BuildLinux.print_build_summary := silent |}.

End SampleRun.

(** The result of a chain of gates whose calls unfolded to [out]. *)
Definition chain_result (out : option (Res bool)) : Res bool :=
  match out with
  | Some o => o
  | None => Ret true
  end.

(** What [try: ... except KeyboardInterrupt: ... except Exception: ...]
    of the controllers makes of the result of the body: an interrupt or an
    [Exception] becomes [False], anything else goes through. *)
Definition after_except (res : Res bool) : Res bool :=
  match res with
  | Ret b => Ret b
  | Raise (SystemExit code) => Raise (SystemExit code)
  | Raise _ => Ret false
  end.

(** The [except] clauses [handler] turn an interrupt or an [Exception]
    into the result [False], without calling any method, and let any
    other exception through. *)
Definition except_clauses (handler : exn -> option (M Run bool)) : Prop :=
  forall ex,
    match handler ex with
    | Some h =>
        after_except (Raise ex) = Ret false /\
        forall r, wp h (fun res r' => res = Ret false /\ calls r' = calls r) r
    | None => after_except (Raise ex) = Raise ex
    end.

(** The calls and the result of a guarded pipeline: the header, then the
    steps as a chain of gates, the whole under the [except] clauses. *)
Definition guarded_run (header : string) (names : list string)
    (cs : list (string * Res (option bool))) (res : Res bool) : Prop :=
  exists hres steps,
    cs = (header, hres) :: steps /\
    ((hres = Ret None /\
      exists out, unfolds names steps out /\
                  res = after_except (chain_result out))
     \/ (exists ex, hres = Raise ex /\ steps = [] /\
                    res = after_except (Raise ex))).

(** [run_build] of [Qt6Builder] and of [LinuxBuilder]: the guarded chain,
    then the summary, whose exception (if any) replaces the result. *)
Definition with_summary (names : list string)
    (cs : list (string * Res (option bool))) (res : Res bool) : Prop :=
  exists body bres sres,
    cs = body ++ [("show_build_summary", sres)] /\
    guarded_run "show_header" names body bres /\
    match sres with
    | Raise ex => res = Raise ex
    | Ret _ => res = bres
    end.


(** What C6 asks of a run that ended with [res] after the calls [cs], the
    summary being the method [summary]: under the two conditions that
    every exception raised by a method is an interrupt or an [Exception]
    (no method calls [sys.exit] itself) and that some method other than the
    summary did raise, the summary was called exactly once, as the last
    call, and the exit status is not 0. *)
Definition summary_once (summary : string)
    (cs : list (string * Res (option bool))) (res : Res unit) : Prop :=
  (forall name ex, (name, Raise ex) ∈ cs -> aborts ex = true) ->
  (exists name ex, (name, Raise ex) ∈ cs /\ name <> summary) ->
  times_called summary cs = 1%nat /\
  (exists sres, last cs = Some (summary, sres)) /\
  exit_status res <> 0.

(** The commands [install_python_rich] may launch, in the order it tries
    them. *)
Definition pip_attempts : list (list string) :=
  [ ["pip3"; "install"; "rich"];
    ["pip"; "install"; "rich"];
    ["pip3"; "install"; "--user"; "rich"];
    ["pip"; "install"; "--user"; "rich"] ].

(** What the executor answers for the attempt number [i] (from 0) of a
    search that starts in [e]: the program is the one the world starts for
    that command as its launch number [i] from there. *)
Definition pip_answer (e : Env) (i : nat) : Res (bool * string * string) :=
  rich_answer
    (behaviour (world e) (length (spawned (trace e)) + i)%nat
       (nth i pip_attempts []))
    300.

(** [import rich] works once the attempt number [i] is over. *)
Definition import_after (e : Env) (i : nat) : bool :=
  rich_importable (world e) (length (spawned (trace e)) + i + 1)%nat.

Definition pip_installed (e : Env) (i : nat) : bool :=
  match pip_answer e i with Ret (true, _, _) => true | _ => false end.

Definition pip_failed (e : Env) (i : nat) : bool :=
  match pip_answer e i with Ret (false, _, _) => true | _ => false end.

(** The attempt number [i] ends the search with [True]: the command
    succeeded and, for the two attempts without [--user], the import that
    follows works. *)
Definition pip_settles (e : Env) (i : nat) : bool :=
  pip_installed e i && ((2 <=? i)%nat || import_after e i).

(** The attempt number [i] leaves the search to go on: the command
    failed, or it succeeded without [--user] and the import still fails. *)
Definition pip_goes_on (e : Env) (i : nat) : bool :=
  pip_failed e i
  || pip_installed e i && (i <? 2)%nat && negb (import_after e i).

(** How many of the numbers below [n] satisfy [f]. *)
Fixpoint count_upto (f : nat -> bool) (n : nat) : nat :=
  match n with
  | O => O
  | S n' => (count_upto f n' + if f n' then 1 else 0)%nat
  end.

(** The state [e'] of a search started in [e], once [n] attempts are
    over: they were launched, each success was counted as an installed
    package and each failure as an error. *)
Definition pip_progress (e : Env) (n : nat) (e' : Env) : Prop :=
  world e' = world e /\
  spawned (trace e') = spawned (trace e) ++ take n pip_attempts /\
  python_packages_installed (stats e')
  = python_packages_installed (stats e) + Z.of_nat (count_upto (pip_installed e) n) /\
  total_errors (stats e')
  = total_errors (stats e) + Z.of_nat (count_upto (pip_failed e) n).

(** How a search started in [e] that stopped at the attempt number [k]
    ended. *)
Definition pip_outcome (e : Env) (k : nat) (r : Res bool) : Prop :=
  match r with
  | Ret true => pip_settles e k = true
  | Ret false => k = 3%nat /\ pip_goes_on e 3 = true
  | Raise ex => ex = KeyboardInterrupt /\ pip_answer e k = Raise KeyboardInterrupt
  end.


(** ** Log files *)

(** The log file of a run that reads [t] from the clock. *)
Definition log_name (prefix : string) (project : path) (t : Clock.datetime)
  : path :=
  project ++ ["logs"; prefix +:+ "_" +:+ Clock.strftime_stamp t +:+ ".log"].

(** The four classes that set up logging, with the prefix of their log
    files. *)
Definition logging_setups : list (string * M Env unit) :=
  [ ("build_linux", BuildLinux.setup_logging);
    ("build", BuildQt6.setup_logging);
    ("build_linux", AllInOne.setup_logging);
    ("setup_ubuntu", SetupEnv.setup_logging) ].

(** Going from [f] to [f'], every file other than [log] is still there
    with the same content. *)
Definition keeps_other_files (log : path) (f f' : gmap path node) : Prop :=
  forall p c, p <> log -> f !! p = Some (File c) -> f' !! p = Some (File c).

(** Moreover [log], if it was a file, has only grown at its end. *)
Definition appends_only (log : path) (f f' : gmap path node) : Prop :=
  keeps_other_files log f f' /\
  forall c, f !! log = Some (File c) ->
            exists more, f' !! log = Some (File (c +:+ more)).

(** [p] is a regular file. *)
Definition is_file (f : gmap path node) (p : path) : Prop :=
  exists c, f !! p = Some (File c).

(** No program launched in [w] hangs. *)
Definition never_hangs (w : World) : Prop :=
  forall n cmd, behaviour w n cmd <> Hangs.

(** A run of [cmake_error_logger.py] and one of [build_linux.py] read the
    clock once the [logs] directory is there: after the first event of
    the process. *)
Definition start_reading (w : World) : Clock.datetime := clock w 1.

Module SampleLogs.

Definition a_second_later : Clock.datetime :=
  {| Clock.year := 2025; Clock.month := 3; Clock.day := 14;
     Clock.hour := 12; Clock.minute := 0; Clock.second := 8;
     Clock.microsecond := 100 |}%N.

(** [cmake] is not installed. *)
Definition no_cmake (t : Clock.datetime) : World :=
  Sample.world_at t
    (fun _ _ => Fails "[Errno 2] No such file or directory: 'cmake'").

(** [cmake] fails with a message on stderr. *)
Definition cmake_error (t : Clock.datetime) : World :=
  Sample.world_at t (fun _ _ => Exits 0 1 "" "CMake Error: boom").

Definition project_only : gmap path node :=
  list_to_map
    (map (fun p => (p, Dir)) [ ["home"]; ["home"; "dev"]; Sample.project ]).

Definition log : path :=
  Sample.project ++ ["logs"; "cmake_build_errors_20250314_120007.log"].

End SampleLogs.

(** [returns m Q e]: [m], run from [e], comes back, with an outcome and a
    state that satisfy [Q]. *)
Definition returns {A} (m : CmakeErrorLogger.P A)
    (Q : Res A -> Env -> Prop) (e : Env) : Prop :=
  match m e with
  | Some (r, e') => Q r e'
  | None => False
  end.

(* ================================================================== *)
(** * Sample runs for the further properties *)
(* ================================================================== *)

Module SampleSteps.

(** [apt update] cannot get its lock: it says so on stderr and exits with
    code 100 after three seconds. *)
Definition apt_locked : World :=
  Sample.world_of
    (fun _ _ => Exits 3 100 "" "E: Could not get lock /var/lib/apt/lists/lock").

(** No program can be launched on this machine. *)
Definition nothing_installed : World :=
  Sample.world_of (fun _ _ => Fails "[Errno 2] No such file or directory").

(** Builders whose untranslated methods all succeed without doing
    anything. *)
Definition qt6_fine : BuildQt6.Methods :=
  {| BuildQt6.show_header := SampleRun.silent;
     BuildQt6.verify_prerequisites := SampleRun.fine;
     BuildQt6.clean_previous_builds := SampleRun.fine;
     BuildQt6.step1_build_plugins := SampleRun.fine;
     BuildQt6.step2_build_main_app := SampleRun.fine;
     BuildQt6.step3_deploy_application := SampleRun.fine;
     BuildQt6.show_build_summary := SampleRun.silent |}.

End SampleSteps.

(** Every step of [names] was called and returned [True]. *)
Definition all_steps_passed (names : list string)
    (cs : list (string * Res (option bool))) : Prop :=
  forall name, name ∈ names -> (name, Ret (Some true)) ∈ cs.

(** Some method called [sys.exit(0)] by itself. *)
Definition exited_with_zero (cs : list (string * Res (option bool))) : Prop :=
  exists name, (name, Raise (SystemExit 0)) ∈ cs.

(** [ensures m Q e]: if [m], run from [e], comes back, the outcome and the
    state satisfy [Q]. *)
Definition ensures {A} (m : CmakeErrorLogger.P A)
    (Q : Res A -> Env -> Prop) (e : Env) : Prop :=
  match m e with
  | Some (r, e') => Q r e'
  | None => True
  end.

(** Whenever [m] ends without an exception, it has launched the commands
    [l], in this order, and no other. *)
Definition launches {A} (l : list (list string)) (m : CmakeErrorLogger.P A)
  : Prop :=
  forall e,
    ensures m
      (fun r e' =>
         match r with
         | Ret _ => spawned (trace e') = spawned (trace e) ++ l
         | Raise _ => True
         end)
      e.

(** However [m] ends, if it comes back it has launched the commands [l],
    in this order, and no other. *)
Definition always_launches {A} (l : list (list string))
    (m : CmakeErrorLogger.P A) : Prop :=
  forall e,
    ensures m (fun _ e' => spawned (trace e') = spawned (trace e) ++ l) e.

Module SampleBuild.

Definition build : path := Sample.project ++ ["build"].
Definition deploy : path := Sample.project ++ ["deploy_threestep"].

(** A finished Windows-style build of the three-step script: the
    executable and the three plugin libraries are there, and so is an
    empty deployment directory. *)
Definition built : gmap path node :=
  <[build ++ ["bin"; "Release"; "ItemEditor.exe"] := File "MZ-editor"]>
  (<[build ++ ["Release"; "plugins"; "PluginOne.dll"] := File "MZ-one"]>
  (<[build ++ ["Release"; "plugins"; "PluginTwo.dll"] := File "MZ-two"]>
  (<[build ++ ["Release"; "plugins"; "PluginThree.dll"] := File "MZ-three"]>
  (list_to_map
     (map (fun p => (p, Dir))
          [ ["home"]; ["home"; "dev"]; Sample.project; build;
            build ++ ["bin"]; build ++ ["bin"; "Release"];
            build ++ ["Release"]; build ++ ["Release"; "plugins"];
            deploy ]))))).

(** The same without [PluginTwo.dll]. *)
Definition without_plugin_two : gmap path node :=
  delete (build ++ ["Release"; "plugins"; "PluginTwo.dll"]) built.

End SampleBuild.


(* ================================================================== *)
(** * Reasoning about computations *)
(* ================================================================== *)

Section Wp.
Context {S : Type}.

Lemma wp_ret {A} (a : A) (Q : Res A -> S -> Prop) s :
  Q (Ret a) s -> wp (ret a) Q s.
Proof. exact id. Qed.

Lemma wp_raise {A} ex (Q : Res A -> S -> Prop) s :
  Q (Raise ex) s -> wp (raise ex) Q s.
Proof. exact id. Qed.

Lemma wp_get (Q : Res S -> S -> Prop) s :
  Q (Ret s) s -> wp get Q s.
Proof. exact id. Qed.

Lemma wp_modify (f : S -> S) (Q : Res unit -> S -> Prop) s :
  Q (Ret tt) (f s) -> wp (modify f) Q s.
Proof. exact id. Qed.

Lemma wp_bind {A B} (m : M S A) (k : A -> M S B) (Q : Res B -> S -> Prop) s :
  wp m (fun r s' => match r with
                    | Ret a => wp (k a) Q s'
                    | Raise ex => Q (Raise ex) s'
                    end) s ->
  wp (bind m k) Q s.
Proof.
  unfold wp, bind. destruct (m s) as [[a|ex] s']; exact id.
Qed.

Lemma wp_try_except {A} (body : M S A) handler (Q : Res A -> S -> Prop) s :
  wp body (fun r s' => match r with
                       | Ret a => Q (Ret a) s'
                       | Raise ex =>
                           match handler ex with
                           | Some h => wp h Q s'
                           | None => Q (Raise ex) s'
                           end
                       end) s ->
  wp (try_except body handler) Q s.
Proof.
  unfold wp, try_except. destruct (body s) as [[a|ex] s']; [exact id|].
  cbn [fst snd]. destruct (handler ex); exact id.
Qed.

Lemma wp_try_finally {A} (body : M S A) fin (Q : Res A -> S -> Prop) s :
  wp body (fun r s' =>
             wp fin (fun rf s'' => match rf with
                                   | Ret _ => Q r s''
                                   | Raise ex => Q (Raise ex) s''
                                   end) s') s ->
  wp (try_finally body fin) Q s.
Proof.
  unfold wp, try_finally. destruct (body s) as [r s']. cbn [fst snd].
  destruct (fin s') as [[u|ex] s'']; exact id.
Qed.

Lemma wp_mono {A} (m : M S A) (Q Q' : Res A -> S -> Prop) s :
  wp m Q s -> (forall r s', Q r s' -> Q' r s') -> wp m Q' s.
Proof. unfold wp. intros H HQ. apply HQ, H. Qed.

Lemma wp_when (b : bool) (m : M S unit) (Q : Res unit -> S -> Prop) s :
  (if b then wp m Q s else Q (Ret tt) s) -> wp (when b m) Q s.
Proof. destruct b; exact id. Qed.

Lemma wp_run {A} (m : M S A) (Q : Res A -> S -> Prop) s :
  wp m Q s -> Q (m s).1 (m s).2.
Proof. exact id. Qed.

End Wp.

(** ** Projections of the environment *)

Lemma world_handler_write d e : world (handler_write d e) = world e.
Proof.
  unfold handler_write. destruct (log_file e); [|reflexivity].
  destruct (fs_apply _ _); reflexivity.
Qed.

Lemma trace_handler_write d e : trace (handler_write d e) = trace e.
Proof.
  unfold handler_write. destruct (log_file e); [|reflexivity].
  destruct (fs_apply _ _); reflexivity.
Qed.

Lemma stats_handler_write d e : stats (handler_write d e) = stats e.
Proof.
  unfold handler_write. destruct (log_file e); [|reflexivity].
  destruct (fs_apply _ _); reflexivity.
Qed.

Lemma log_file_handler_write d e : log_file (handler_write d e) = log_file e.
Proof.
  unfold handler_write. destruct (log_file e) eqn:E; [|exact E].
  destruct (fs_apply _ _); exact E.
Qed.

Lemma spawned_app t1 t2 : spawned (t1 ++ t2) = spawned t1 ++ spawned t2.
Proof.
  induction t1 as [|ev t1 IH]; [reflexivity|].
  destruct ev; cbn [app spawned]; rewrite ?IH; reflexivity.
Qed.

Lemma fs_calls_app t1 t2 : fs_calls (t1 ++ t2) = fs_calls t1 ++ fs_calls t2.
Proof.
  induction t1 as [|ev t1 IH]; [reflexivity|].
  destruct ev; cbn [app fs_calls]; rewrite ?IH; reflexivity.
Qed.

Lemma printed_app t1 t2 : printed (t1 ++ t2) = printed t1 ++ printed t2.
Proof.
  induction t1 as [|ev t1 IH]; [reflexivity|].
  destruct ev; cbn [app printed]; rewrite ?IH; reflexivity.
Qed.

Lemma fs_errors_app t1 t2 :
  fs_errors (t1 ++ t2) = fs_errors t1 ++ fs_errors t2.
Proof. unfold fs_errors. rewrite fs_calls_app. apply omap_app. Qed.

(** Only a launch changes the behaviour of the next program. *)
Lemma next_behaviour_quiet e e' cmd :
  world e' = world e -> spawned (trace e') = spawned (trace e) ->
  next_behaviour e' cmd = next_behaviour e cmd.
Proof. intros Hw Hs. unfold next_behaviour. now rewrite Hw, Hs. Qed.

(** ** Rules for the primitives of the builder

    Each rule hands over the state after the call as a fresh variable,
    described by what the call keeps and what it adds to the trace. *)

Lemma wp_logger lvl msg (Q : Res unit -> Env -> Prop) e :
  (forall e', world e' = world e -> stats e' = stats e ->
              log_file e' = log_file e ->
              trace e' = trace e ++ [Log lvl msg] -> Q (Ret tt) e') ->
  wp (logger lvl msg) Q e.
Proof.
  intros H. apply H; unfold logger, modify;
    cbn [fst snd world stats log_file trace emit].
  - apply world_handler_write.
  - apply stats_handler_write.
  - apply log_file_handler_write.
  - now rewrite trace_handler_write.
Qed.

Lemma wp_emit ev (Q : Res unit -> Env -> Prop) e :
  (forall e', world e' = world e -> stats e' = stats e ->
              log_file e' = log_file e -> fs e' = fs e ->
              trace e' = trace e ++ [ev] -> Q (Ret tt) e') ->
  wp (modify (emit ev)) Q e.
Proof. intros H. apply H; reflexivity. Qed.

Lemma wp_console_print text (Q : Res unit -> Env -> Prop) e :
  (forall e', world e' = world e -> stats e' = stats e ->
              log_file e' = log_file e -> fs e' = fs e ->
              trace e' = trace e ++ [Print text] -> Q (Ret tt) e') ->
  wp (console_print text) Q e.
Proof. apply wp_emit. Qed.

Lemma wp_console_print_panel text title (Q : Res unit -> Env -> Prop) e :
  (forall e', world e' = world e -> stats e' = stats e ->
              log_file e' = log_file e -> fs e' = fs e ->
              trace e' = trace e ++ [PrintPanel text title] -> Q (Ret tt) e') ->
  wp (console_print_panel text title) Q e.
Proof. apply wp_emit. Qed.

Lemma wp_console_print_table rows (Q : Res unit -> Env -> Prop) e :
  (forall e', world e' = world e -> stats e' = stats e ->
              log_file e' = log_file e -> fs e' = fs e ->
              trace e' = trace e ++ [PrintTable rows] -> Q (Ret tt) e') ->
  wp (console_print_table rows) Q e.
Proof. apply wp_emit. Qed.

Lemma wp_update_stats f (Q : Res unit -> Env -> Prop) e :
  (forall e', world e' = world e -> stats e' = f (stats e) ->
              log_file e' = log_file e -> fs e' = fs e ->
              trace e' = trace e -> Q (Ret tt) e') ->
  wp (update_stats f) Q e.
Proof. intros H. apply H; reflexivity. Qed.

Lemma wp_path_exists p (Q : Res bool -> Env -> Prop) e :
  Q (Ret (Os.exists_ (fs e) p)) e -> wp (path_exists p) Q e.
Proof. exact id. Qed.

Lemma wp_subprocess_run cmd cwd capture text timeout
    (Q : Res CompletedProcess -> Env -> Prop) e :
  (forall e', world e' = world e -> stats e' = stats e ->
              log_file e' = log_file e -> fs e' = fs e ->
              trace e' = trace e ++ [Spawn cmd cwd capture (Some timeout)] ->
              Q (Os.run cmd (next_behaviour e cmd) capture text timeout) e') ->
  wp (subprocess_run cmd cwd capture text timeout) Q e.
Proof. intros H. apply H; reflexivity. Qed.

(** A call to the file system either raises, leaving the files as they
    are and recording the error, or succeeds and records that. *)
Lemma wp_fs_call op (Q : Res unit -> Env -> Prop) e :
  (forall e' text,
     world e' = world e -> stats e' = stats e -> log_file e' = log_file e ->
     fs e' = fs e -> trace e' = trace e ++ [Fs op (Some text)] ->
     Q (Raise (Exception text)) e') ->
  (forall e',
     world e' = world e -> stats e' = stats e -> log_file e' = log_file e ->
     fs_apply op (fs e) = inr (fs e') -> trace e' = trace e ++ [Fs op None] ->
     Q (Ret tt) e') ->
  wp (fs_call op) Q e.
Proof.
  intros Hraise Hret. unfold wp, fs_call.
  destruct (fs_fault _ _ _) as [text|]; [apply Hraise; reflexivity|].
  destruct (fs_apply op (fs e)) as [text|fs'] eqn:E;
    [apply Hraise; reflexivity|apply Hret; reflexivity].
Qed.

(** Rewrite the projections of later states down to the first one. *)
Ltac chase_once :=
  repeat match goal with
         | H : world _ = _ |- _ => rewrite H
         | H : stats _ = _ |- _ => rewrite H
         | H : log_file _ = _ |- _ => rewrite H
         | H : fs _ = _ |- _ => rewrite H
         | H : trace _ = _ |- _ => rewrite H
         | H : fs_errors (trace _) = _ |- _ => rewrite H
         | H : spawned (trace _) = _ |- _ => rewrite H
         end;
  rewrite ?spawned_app, ?fs_calls_app, ?printed_app, ?fs_errors_app;
  cbn [spawned fs_calls printed fs_errors omap list_omap fst snd];
  rewrite <- ?app_assoc, ?app_nil_r; cbn [app].

Ltac chase := repeat (progress chase_once).

(** One step of symbolic execution; [wp_steps] goes on until a test has to
    be decided. *)
Ltac wp_step :=
  lazymatch goal with
  | |- wp (bind _ _) _ _ => apply wp_bind
  | |- wp (try_except _ _) _ _ => apply wp_try_except
  | |- wp (try_finally _ _) _ _ => apply wp_try_finally
  | |- wp (ret _) _ _ => apply wp_ret
  | |- wp (raise _) _ _ => apply wp_raise
  | |- wp get _ _ => apply wp_get
  | |- wp (when _ _) _ _ => apply wp_when
  | |- wp (logger _ _) _ _ => apply wp_logger; intros ? ? ? ? ?
  | |- wp (console_print _) _ _ => apply wp_console_print; intros ? ? ? ? ? ?
  | |- wp (console_print_panel _ _) _ _ =>
      apply wp_console_print_panel; intros ? ? ? ? ? ?
  | |- wp (console_print_table _) _ _ =>
      apply wp_console_print_table; intros ? ? ? ? ? ?
  | |- wp (update_stats _) _ _ => apply wp_update_stats; intros ? ? ? ? ? ?
  | |- wp incr_total_errors _ _ => apply wp_update_stats; intros ? ? ? ? ? ?
  | |- wp incr_python_packages_installed _ _ =>
      apply wp_update_stats; intros ? ? ? ? ? ?
  | |- wp (path_exists _) _ _ => apply wp_path_exists
  | |- wp (subprocess_run _ _ _ _ _) _ _ =>
      apply wp_subprocess_run; intros ? ? ? ? ? ?
  | |- wp (fs_call _) _ _ =>
      apply wp_fs_call; [intros ? ? ? ? ? ? ?|intros ? ? ? ? ? ?]
  end; cbv beta iota; cbn [is_Exception].

Ltac wp_steps := repeat wp_step.

(** Symbolic execution through the tests as well: every branch is
    followed. *)
Ltac wp_branches :=
  repeat (wp_steps;
          try match goal with
              | |- if ?b then _ else _ => destruct b
              | |- wp (if ?b then _ else _) _ _ => destruct b
              end).

(* ================================================================== *)
(** * The command executors *)
(* ================================================================== *)

(** [LinuxQt6Builder.run_command] launches one program, answers as
    [linux_answer] says and leaves the world alone. *)
Lemma rich_run_command_spec running cmd description cwd timeout e :
  wp (run_command_rich running cmd description cwd timeout)
     (fun r e' =>
        r = rich_answer (next_behaviour e cmd) timeout /\
        world e' = world e /\
        spawned (trace e') = spawned (trace e) ++ [cmd] /\
        fs_calls (trace e') = fs_calls (trace e))
     e.
Proof.
  unfold run_command_rich.
  wp_steps.
  rewrite (next_behaviour_quiet e) by (chase; reflexivity).
  destruct (next_behaviour e cmd) as [d rc out err| |text|];
    cbn [Os.run rich_answer].
  - destruct (timeout <? d)%N.
    + wp_steps. repeat split; chase; reflexivity.
    + cbn [completed stream Os.stdout Os.stderr Os.returncode strip_stream].
      wp_steps.
      repeat (match goal with
              | |- if ?b then _ else _ => destruct b
              | |- wp (if ?b then _ else _) _ _ => destruct b
              end; wp_steps).
      all: repeat split; chase; reflexivity.
  - wp_steps. repeat split; chase; reflexivity.
  - wp_steps. repeat split; chase; reflexivity.
  - repeat split; chase; reflexivity.
Qed.
(** [LinuxQt6Builder.run_command] launches one program, answers as
    [linux_answer] says and leaves the world alone. *)
Lemma linux_run_command_spec cmd cwd capture timeout e :
  wp (BuildLinux.run_command cmd cwd capture timeout)
     (fun r e' =>
        r = linux_answer (next_behaviour e cmd) capture timeout /\
        world e' = world e /\
        spawned (trace e') = spawned (trace e) ++ [cmd] /\
        fs_calls (trace e') = fs_calls (trace e))
     e.
Proof.
  unfold BuildLinux.run_command.
  wp_steps.
  assert (forall Q : Res unit -> Env -> Prop,
            (forall e', world e' = world e ->
                        spawned (trace e') = spawned (trace e) ->
                        fs_calls (trace e') = fs_calls (trace e) ->
                        Q (Ret tt) e') ->
            wp (match cwd with
                | Some d => logger INFO ("Working directory: " +:+ Os.str d)
                | None => ret tt
                end) Q e') as Hcwd.
  { intros Q HQ. destruct cwd as [d|]; wp_steps; apply HQ; chase; reflexivity. }
  apply Hcwd. clear Hcwd. intros e2 Hw2 Hs2 Hf2. wp_step.
  destruct capture; wp_steps;
    rewrite (next_behaviour_quiet e) by (chase; try reflexivity; assumption);
    (destruct (next_behaviour e cmd) as [d rc out err| |text|];
     cbn [Os.run linux_answer];
     [destruct (timeout <? d)%N|..]);
    cbn [completed stream Os.stdout Os.stderr Os.returncode strip_stream];
    wp_steps;
    repeat (match goal with
            | |- if ?b then _ else _ => destruct b
            | |- wp (if ?b then _ else _) _ _ => destruct b
            end; wp_steps).
  all: repeat split; chase; rewrite ?Hw2, ?Hs2, ?Hf2; reflexivity.
Qed.

(** The answers, read off the specifications. *)
Lemma linux_run_command_answer cmd cwd capture timeout e :
  (BuildLinux.run_command cmd cwd capture timeout e).1
  = linux_answer (next_behaviour e cmd) capture timeout.
Proof. apply (linux_run_command_spec cmd cwd capture timeout e). Qed.

Lemma rich_run_command_answer running cmd description cwd timeout e :
  (run_command_rich running cmd description cwd timeout e).1
  = rich_answer (next_behaviour e cmd) timeout.
Proof. apply (rich_run_command_spec running cmd description cwd timeout e). Qed.

(** ** Stripping white space *)

Lemma append_assoc (a b c : string) : (a +:+ b) +:+ c = a +:+ (b +:+ c).
Proof.
  induction a as [|x a IH]; [reflexivity|].
  change (String x ((a +:+ b) +:+ c) = String x (a +:+ b +:+ c)).
  f_equal. exact IH.
Qed.

Lemma append_empty_r (a : string) : a +:+ "" = a.
Proof.
  induction a as [|x a IH]; [reflexivity|].
  change (String x (a +:+ "") = String x a). f_equal. exact IH.
Qed.






(** Two facts about the same run. *)
Lemma wp_conj {S A} (m : M S A) (Q1 Q2 : Res A -> S -> Prop) s :
  wp m Q1 s -> wp m Q2 s -> wp m (fun r s' => Q1 r s' /\ Q2 r s') s.
Proof. unfold wp. now split. Qed.

(** The statistics after a call of a rich executor: one more error when
    the answer is a failure, nothing else. *)
Lemma rich_run_command_stats running cmd description cwd timeout e :
  wp (run_command_rich running cmd description cwd timeout)
     (fun r e' =>
        match r with
        | Ret (false, _, _) =>
            stats e' = set_total_errors (total_errors (stats e) + 1) (stats e)
        | _ => stats e' = stats e
        end)
     e.
Proof.
  unfold run_command_rich, incr_total_errors.
  wp_steps.
  match goal with
  | |- context [Os.run cmd ?b true _ timeout] =>
      destruct b as [d rc out err| |text|]; cbn [Os.run]
  end.
  - destruct (timeout <? d)%N.
    + wp_steps. now chase.
    + cbn [completed stream Os.stdout Os.stderr Os.returncode strip_stream].
      wp_steps.
      repeat (match goal with
              | |- if ?b then _ else _ => destruct b eqn:?
              | |- wp (if ?b then _ else _) _ _ => destruct b eqn:?
              end; wp_steps).
      all: now chase.
  - wp_steps. now chase.
  - wp_steps. now chase.
  - now chase.
Qed.

(** C2. A command that is still running when its timeout expires makes the
    executor answer failure with a message about the timeout in the place
    of stderr, never success: [LinuxQt6Builder.run_command] answers
    [(False, "", "Command timed out after <timeout> seconds")], the
    executors of [LinuxBuilder], [UbuntuEnvironmentSetup] and [Qt6Builder]
    (whose timeout is always 300) answer [(False, "", "Command timed out")]. *)
Theorem timed_out_command_fails e cmd description cwd capture timeout :
  Os.exceeds (next_behaviour e cmd) timeout = true ->
  (BuildLinux.run_command cmd cwd capture timeout e).1
    = Ret (false, "", "Command timed out after " +:+ pretty timeout +:+ " seconds")
  /\ Text.contains "timed out"
       ("Command timed out after " +:+ pretty timeout +:+ " seconds") = true
  /\ (AllInOne.run_command cmd description cwd timeout e).1
       = Ret (false, "", "Command timed out")
  /\ (SetupEnv.run_command cmd description cwd timeout e).1
       = Ret (false, "", "Command timed out")
  /\ (timeout = 300%N ->
      (BuildQt6.run_command cmd description cwd e).1
        = Ret (false, "", "Command timed out")).
Proof.
  intros Hlate.
  unfold AllInOne.run_command, SetupEnv.run_command, BuildQt6.run_command.
  rewrite linux_run_command_answer, !rich_run_command_answer.
  destruct (next_behaviour e cmd) as [d rc out err| |text|];
    cbn [Os.exceeds] in Hlate; try discriminate Hlate;
    cbn [linux_answer rich_answer]; rewrite ?Hlate.
  - repeat split. intros ->. cbn [rich_answer]. now rewrite Hlate.
  - repeat split.
Qed.

Lemma timed_out_command_fails_witness :
  Os.exceeds (next_behaviour (boot Sample.hanging ∅) Sample.apt_update) 300 = true
  /\ (BuildLinux.run_command Sample.apt_update None false 300
        (boot Sample.hanging ∅)).1
     = Ret (false, "", "Command timed out after 300 seconds")
  /\ (BuildQt6.run_command Sample.apt_update "Updating package lists" None
        (boot Sample.hanging ∅)).1
     = Ret (false, "", "Command timed out").
Proof.
  split; [reflexivity|].
  pose proof (timed_out_command_fails (boot Sample.hanging ∅) Sample.apt_update
                "Updating package lists" None false 300 eq_refl)
    as (H1 & _ & _ & _ & H5).
  split; [exact H1|exact (H5 eq_refl)].
Defined.

(** C3, as the code has it.  The executors never raise an [Exception]: a
    program that exits, with any return code, gives
    [(returncode == 0, stdout, stderr)]; one that outlives the timeout
    gives failure with the timeout message; a launch that fails gives
    [(False, "", str(e))].  The one thing that leaves [run_command] as an
    exception is the user's interrupt: [KeyboardInterrupt] is not an
    [Exception], no clause catches it, and it travels up to the controller. *)
Theorem run_command_outcomes e cmd description cwd capture timeout :
  match next_behaviour e cmd with
  | Exits d rc out err =>
      if (timeout <? d)%N then
        (BuildLinux.run_command cmd cwd capture timeout e).1
          = Ret (false, "", "Command timed out after " +:+ pretty timeout +:+ " seconds")
        /\ (run_command_rich "[RUNNING] " cmd description cwd timeout e).1
          = Ret (false, "", "Command timed out")
      else
        (BuildLinux.run_command cmd cwd capture timeout e).1
          = Ret (rc =? 0,
                 if capture then Text.strip (Text.universal_newlines out)
                 else "",
                 if capture then Text.strip (Text.universal_newlines err)
                 else "")
        /\ (run_command_rich "[RUNNING] " cmd description cwd timeout e).1
          = Ret (rc =? 0, Text.strip (Text.universal_newlines out),
                 Text.strip (Text.universal_newlines err))
  | Hangs =>
      (BuildLinux.run_command cmd cwd capture timeout e).1
        = Ret (false, "", "Command timed out after " +:+ pretty timeout +:+ " seconds")
      /\ (run_command_rich "[RUNNING] " cmd description cwd timeout e).1
        = Ret (false, "", "Command timed out")
  | Fails text =>
      (BuildLinux.run_command cmd cwd capture timeout e).1 = Ret (false, "", text)
      /\ (run_command_rich "[RUNNING] " cmd description cwd timeout e).1
        = Ret (false, "", text)
  | Interrupted =>
      (BuildLinux.run_command cmd cwd capture timeout e).1 = Raise KeyboardInterrupt
      /\ (run_command_rich "[RUNNING] " cmd description cwd timeout e).1
        = Raise KeyboardInterrupt
  end
  /\ AllInOne.run_command cmd description cwd timeout
     = run_command_rich "[RUNNING] " cmd description cwd timeout
  /\ SetupEnv.run_command cmd description cwd timeout
     = run_command_rich "[RUNNING] " cmd description cwd timeout
  /\ (BuildQt6.run_command cmd description cwd e).1
     = (run_command_rich "[RUNNING] " cmd description cwd 300 e).1.
Proof.
  split; [|split; [reflexivity|split; [reflexivity|]]].
  - rewrite linux_run_command_answer, rich_run_command_answer.
    destruct (next_behaviour e cmd) as [d rc out err| |text|];
      cbn [linux_answer rich_answer]; [destruct (timeout <? d)%N|..];
      split; reflexivity.
  - unfold BuildQt6.run_command. now rewrite !rich_run_command_answer.
Qed.

(** C3, as stated, fails: when the user presses Ctrl-C while [apt update]
    runs, [run_command] raises [KeyboardInterrupt]. *)
Lemma run_command_raises_on_interrupt :
  ~ (forall e cmd cwd capture timeout,
       exists answer,
         (BuildLinux.run_command cmd cwd capture timeout e).1 = Ret answer).
Proof.
  intros H.
  destruct (H (boot Sample.interrupted ∅) Sample.apt_update None false 120%N)
    as [answer Hanswer].
  rewrite linux_run_command_answer in Hanswer. discriminate Hanswer.
Qed.




(** Captured output is not what was written either when the program
    prints carriage returns, as progress lines do: they come back as line
    feeds. *)
Lemma carriage_returns_come_back_as_line_feeds :
  (BuildLinux.run_command Sample.apt_update None true 300
     (boot Sample.progress ∅)).1
  <> Ret (true, Text.strip Sample.progress_text, "").
Proof. vm_compute. discriminate. Qed.

(* ================================================================== *)
(** * The artifact verifiers *)
(* ================================================================== *)

Lemma filter_cons_length {A} (P : A -> Prop) `{!forall x, Decision (P x)}
    (x : A) (l : list A) :
  Z.of_nat (length (filter P (x :: l)))
  = (if decide (P x) then 1 else 0) + Z.of_nat (length (filter P l)).
Proof.
  rewrite filter_cons. destruct (decide (P x)); cbn [length]; lia.
Qed.

(** The loop over the plugins counts the libraries that exist and prints
    one line for each plugin, in order; it changes nothing else. *)
Lemma check_plugins_spec plugin_dir names acc e :
  wp (BuildLinux.check_plugins plugin_dir names acc)
     (fun r e' =>
        r = Ret (acc + plugins_present (fs e) plugin_dir names) /\
        fs e' = fs e /\ stats e' = stats e /\ world e' = world e /\
        log_file e' = log_file e /\
        trace e' = trace e
                   ++ map (fun n => Print (plugin_report (fs e) plugin_dir n)) names)
     e.
Proof.
  revert acc e. induction names as [|n names IH]; intros acc e.
  - cbn [BuildLinux.check_plugins]. wp_steps.
    unfold plugins_present. cbn [map]. rewrite app_nil_r, filter_nil.
    repeat split. f_equal. cbn [length]. lia.
  - cbn [BuildLinux.check_plugins]. wp_steps.
    unfold plugins_present. rewrite filter_cons_length.
    unfold plugin_report at 1. cbn [map].
    destruct (Os.exists_ (fs e) (BuildLinux.plugin_lib plugin_dir n)) eqn:En;
      wp_steps; (eapply wp_mono; [apply IH|]);
      intros r e2 (Hr & Hfs & Hst & Hw & Hlf & Htr);
      rewrite Hr, Hfs, Hst, Hw, Hlf, Htr; chase; unfold plugins_present.
    + destruct (decide (true = true)); [|congruence].
      split; [f_equal; lia|]. repeat split.
    + destruct (decide (false = true)); [congruence|].
      split; [f_equal; lia|]. repeat split.
Qed.

Lemma plugins_present_bounds f plugin_dir names :
  0 <= plugins_present f plugin_dir names <= Z.of_nat (length names).
Proof.
  unfold plugins_present. split; [lia|].
  apply inj_le, length_filter.
Qed.

(** [verify_build_artifacts], in full: without the main executable it
    prints that it is missing, returns [False] and stops there; with it,
    it reports the executable and every plugin, stores the two counters and
    returns [True]. *)
Lemma verify_build_artifacts_spec e :
  wp BuildLinux.verify_build_artifacts
     (fun r e' =>
        fs e' = fs e /\
        if Os.exists_ (fs e) (BuildLinux.build_dir e ++ ["src"; "ItemEditor"]) then
          r = Ret true /\
          trace e' = trace e
            ++ [Print verifying_banner;
                Print (BuildLinux.msg_exe_found
                         (BuildLinux.build_dir e ++ ["src"; "ItemEditor"]))]
            ++ map (fun n => Print (plugin_report (fs e)
                                      (BuildLinux.build_dir e ++ ["plugins"]) n))
                   BuildLinux.plugins /\
          plugins_built (stats e')
            = plugins_present (fs e) (BuildLinux.build_dir e ++ ["plugins"])
                              BuildLinux.plugins /\
          plugins_failed (stats e')
            = 3 - plugins_present (fs e) (BuildLinux.build_dir e ++ ["plugins"])
                                  BuildLinux.plugins
        else
          r = Ret false /\
          trace e' = trace e
            ++ [Print verifying_banner;
                Print (BuildLinux.msg_exe_not_found
                         (BuildLinux.build_dir e ++ ["src"; "ItemEditor"]))] /\
          stats e' = stats e)
     e.
Proof.
  unfold BuildLinux.verify_build_artifacts. wp_steps.
  assert (BuildLinux.build_dir e' = BuildLinux.build_dir e) as ->
    by (unfold BuildLinux.build_dir; now chase).
  assert (Os.exists_ (fs e') (BuildLinux.build_dir e ++ ["src"; "ItemEditor"])
          = Os.exists_ (fs e) (BuildLinux.build_dir e ++ ["src"; "ItemEditor"]))
    as -> by now chase.
  destruct (Os.exists_ (fs e) (BuildLinux.build_dir e ++ ["src"; "ItemEditor"]));
    cbn [negb]; wp_steps.
  - eapply wp_mono; [apply check_plugins_spec|].
    intros r e3 (Hr & Hfs & Hst & Hw & Hlf & Htr). subst r.
    wp_steps. chase.
    split; [reflexivity|]. split; [reflexivity|]. split; [reflexivity|].
    split; reflexivity.
  - chase. repeat split.
Qed.

(** C9, as the code has it.  When the main executable exists,
    [verify_build_artifacts] returns [True] however many plugin libraries
    are missing and leaves [plugins_built + plugins_failed = 3]; when the
    main executable is absent it returns [False] (and only then) and leaves
    the statistics as they were. *)
Theorem verify_build_artifacts_outcome e :
  let main_exe := BuildLinux.build_dir e ++ ["src"; "ItemEditor"] in
  let r := (BuildLinux.verify_build_artifacts e).1 in
  let e' := (BuildLinux.verify_build_artifacts e).2 in
  if Os.exists_ (fs e) main_exe then
    r = Ret true /\
    plugins_built (stats e') + plugins_failed (stats e') = 3 /\
    0 <= plugins_built (stats e') <= 3
  else
    r = Ret false /\ stats e' = stats e.
Proof.
  intros main_exe r e'.
  pose proof (verify_build_artifacts_spec e) as [_ H].
  fold main_exe r e' in H.
  destruct (Os.exists_ (fs e) main_exe).
  - destruct H as (Hr & _ & Hb & Hf). split; [exact Hr|].
    rewrite Hb, Hf.
    pose proof (plugins_present_bounds (fs e)
                  (BuildLinux.build_dir e ++ ["plugins"]) BuildLinux.plugins) as Hbd.
    cbn [BuildLinux.plugins length Z.of_nat] in Hbd. lia.
  - destruct H as (Hr & _ & Hs). split; assumption.
Qed.

(** C9, as stated, fails: a fresh builder that finds no main executable
    keeps [plugins_built = plugins_failed = 0]. *)
Lemma counters_untouched_without_executable :
  ~ (forall e,
       let e' := (BuildLinux.verify_build_artifacts e).2 in
       plugins_built (stats e') + plugins_failed (stats e') = 3).
Proof.
  intros H.
  specialize (H (boot SampleTree.quiet SampleTree.plugins_only)).
  pose proof (verify_build_artifacts_spec
                (boot SampleTree.quiet SampleTree.plugins_only)) as [_ Hout].
  change (Os.exists_ _ _) with false in Hout.
  destruct Hout as (_ & _ & Hstats). cbv zeta in H. rewrite Hstats in H.
  discriminate H.
Qed.

(** ** [verify_deployment] *)

Lemma path_stat_size_exists p e :
  p <> [] -> Os.exists_ (fs e) p = true ->
  path_stat_size p e = (Ret (size_of (fs e) p), e).
Proof.
  intros Hp Hex. unfold path_stat_size, size_of, Os.exists_ in *.
  destruct p; [congruence|].
  destruct (fs e !! (s :: p)) as [[c|]|]; [reflexivity|reflexivity|discriminate Hex].
Qed.

(** The loop over the required files adds one row for each, in order, and
    clears the flag when one is missing; the state does not change. *)
Lemma check_required_spec deploy files rows ok e :
  Forall (fun f : path * string => f.1 <> []) files ->
  BuildQt6.check_required deploy files rows ok e
  = (Ret (rows ++ map (deployment_row (fs e) deploy) files,
          ok && forallb (fun f => Os.exists_ (fs e) (deploy ++ f.1)) files),
     e).
Proof.
  intros Hne. revert rows ok.
  induction Hne as [|[file_path description] files Hp _ IH]; intros rows ok.
  - cbn. now rewrite app_nil_r, andb_true_r.
  - cbn [BuildQt6.check_required map forallb fst snd].
    unfold bind at 1, path_exists.
    unfold deployment_row at 1. cbn [fst snd].
    destruct (Os.exists_ (fs e) (deploy ++ file_path)) eqn:Ex.
    + unfold bind. rewrite path_stat_size_exists; [|now destruct deploy|exact Ex].
      rewrite IH. now rewrite <- app_assoc.
    + rewrite IH. rewrite <- app_assoc. cbn. now rewrite andb_false_r.
Qed.

(** [verify_deployment], in full: the table has one row per required
    file, in order, [Found] with its size when the file exists and
    [Missing] when it does not; the answer is whether all exist. *)
Lemma verify_deployment_spec e :
  wp BuildQt6.verify_deployment
     (fun r e' =>
        let all_ok :=
          forallb (fun f => Os.exists_ (fs e) (BuildQt6.deploy_dir e ++ f.1))
                  BuildQt6.required_files in
        r = Ret all_ok /\
        trace e'
        = trace e
          ++ [ PrintTable (map (deployment_row (fs e) (BuildQt6.deploy_dir e))
                               BuildQt6.required_files);
               if all_ok then Log INFO "Deployment verification successful"
               else Log ERROR "Deployment verification failed - missing files" ])
     e.
Proof.
  unfold BuildQt6.verify_deployment. wp_steps.
  unfold wp at 1.
  rewrite check_required_spec by (repeat constructor; discriminate).
  cbn [app fst snd andb].
  set (all_ok := forallb _ _).
  wp_steps. destruct all_ok; wp_steps; chase; split; reflexivity.
Qed.

(** C5, as the code has it.  With exactly one expected artifact absent:
    [verify_deployment] shows that artifact as [Missing] and every other
    one as [Found], and answers [False]; [verify_build_artifacts] reports
    the main executable and every plugin, the absent plugin as not found
    and the others as found, when the absent artifact is a plugin; when it
    is the main executable, [verify_build_artifacts] reports that alone and
    returns [False] without looking at the plugins. *)
Theorem one_missing_artifact_reported e missing :
  (* the deployment directory, checked by verify_deployment *)
  ((missing < 4)%nat ->
   (forall j file, BuildQt6.required_files !! j = Some file ->
      Os.exists_ (fs e) (BuildQt6.deploy_dir e ++ file.1)
      = bool_decide (j <> missing)) ->
   (BuildQt6.verify_deployment e).1 = Ret false /\
   trace (BuildQt6.verify_deployment e).2
   = trace e
     ++ [ PrintTable (expected_rows (fs e) (BuildQt6.deploy_dir e) missing);
          Log ERROR "Deployment verification failed - missing files" ])
  /\
  (* the build tree, checked by verify_build_artifacts: a plugin is absent *)
  ((missing < 3)%nat ->
   Os.exists_ (fs e) (BuildLinux.build_dir e ++ ["src"; "ItemEditor"]) = true ->
   (forall j n, BuildLinux.plugins !! j = Some n ->
      Os.exists_ (fs e)
        (BuildLinux.plugin_lib (BuildLinux.build_dir e ++ ["plugins"]) n)
      = bool_decide (j <> missing)) ->
   (BuildLinux.verify_build_artifacts e).1 = Ret true /\
   trace (BuildLinux.verify_build_artifacts e).2
   = trace e
     ++ [ Print verifying_banner;
          Print (BuildLinux.msg_exe_found
                   (BuildLinux.build_dir e ++ ["src"; "ItemEditor"])) ]
     ++ expected_plugin_lines (BuildLinux.build_dir e ++ ["plugins"]) missing)
  /\
  (* the build tree: the main executable is absent *)
  (Os.exists_ (fs e) (BuildLinux.build_dir e ++ ["src"; "ItemEditor"]) = false ->
   (BuildLinux.verify_build_artifacts e).1 = Ret false /\
   trace (BuildLinux.verify_build_artifacts e).2
   = trace e
     ++ [ Print verifying_banner;
          Print (BuildLinux.msg_exe_not_found
                   (BuildLinux.build_dir e ++ ["src"; "ItemEditor"])) ]).
Proof.
  split; [|split].
  - intros Hm Hex.
    pose proof (verify_deployment_spec e) as [Hr Ht].
    pose proof (Hex 0%nat _ eq_refl) as H0. pose proof (Hex 1%nat _ eq_refl) as H1.
    pose proof (Hex 2%nat _ eq_refl) as H2. pose proof (Hex 3%nat _ eq_refl) as H3.
    cbn [fst snd] in H0, H1, H2, H3.
    unfold expected_rows. unfold deployment_row in Ht.
    cbn [BuildQt6.required_files forallb map imap fst snd compose] in Hr, Ht |- *.
    rewrite H0, H1, H2, H3 in Hr, Ht. rewrite Hr, Ht.
    do 4 (destruct missing as [|missing]; [split; reflexivity|]).
    lia.
  - intros Hm Hexe Hex.
    pose proof (verify_build_artifacts_spec e) as [_ H].
    rewrite Hexe in H. destruct H as (Hr & Ht & _). split; [exact Hr|].
    pose proof (Hex 0%nat _ eq_refl) as H0. pose proof (Hex 1%nat _ eq_refl) as H1.
    pose proof (Hex 2%nat _ eq_refl) as H2.
    unfold expected_plugin_lines. unfold plugin_report in Ht.
    cbn [BuildLinux.plugins map imap compose] in Ht |- *.
    rewrite H0, H1, H2 in Ht. rewrite Ht.
    do 3 (destruct missing as [|missing]; [reflexivity|]).
    lia.
  - intros Hexe.
    pose proof (verify_build_artifacts_spec e) as [_ H].
    rewrite Hexe in H. destruct H as (Hr & Ht & _). split; assumption.
Qed.

Lemma one_missing_artifact_reported_witness :
  (* PluginTwo.dll is missing from the deployment *)
  ((BuildQt6.verify_deployment
      (boot SampleTree.quiet SampleDeployment.without_plugin_two)).1 = Ret false /\
   trace (BuildQt6.verify_deployment
            (boot SampleTree.quiet SampleDeployment.without_plugin_two)).2
   = [ PrintTable [ ["Main executable"; "[OK] Found"; "7 bytes"];
                    ["Plugin One"; "[OK] Found"; "4 bytes"];
                    ["Plugin Two"; "[FAIL] Missing"; "N/A"];
                    ["Plugin Three"; "[OK] Found"; "8 bytes"] ];
       Log ERROR "Deployment verification failed - missing files" ])
  /\
  (* the main executable is missing from the build tree *)
  ((BuildLinux.verify_build_artifacts
      (boot SampleTree.quiet SampleTree.plugins_only)).1 = Ret false /\
   printed (trace (BuildLinux.verify_build_artifacts
                     (boot SampleTree.quiet SampleTree.plugins_only)).2)
   = [ verifying_banner;
       "[red]✗ Main executable not found: /home/dev/ItemEditor/build/src/ItemEditor[/red]" ]).
Proof.
  pose proof (one_missing_artifact_reported
                (boot SampleTree.quiet SampleDeployment.without_plugin_two) 2)
    as [Hdeploy _].
  pose proof (one_missing_artifact_reported
                (boot SampleTree.quiet SampleTree.plugins_only) 0)
    as (_ & _ & Hexe).
  split.
  - apply Hdeploy; [lia|].
    intros [|[|[|[|j]]]] file [= <-]; vm_compute; reflexivity.
  - destruct (Hexe eq_refl) as [Hr Ht]. split; [exact Hr|].
    rewrite Ht. vm_compute. reflexivity.
Defined.

(** C5, as stated, fails for [verify_build_artifacts]: with the three
    plugin libraries built and the main executable absent, no plugin is
    reported as found. *)
Lemma present_plugins_not_reported :
  ~ (forall e,
       let build := BuildLinux.build_dir e in
       Os.exists_ (fs e) (build ++ ["src"; "ItemEditor"]) = false ->
       (forall n, In n BuildLinux.plugins ->
          Os.exists_ (fs e) (BuildLinux.plugin_lib (build ++ ["plugins"]) n) = true) ->
       forall n, In n BuildLinux.plugins ->
         In (Print (BuildLinux.msg_plugin_found
                      (BuildLinux.plugin_lib (build ++ ["plugins"]) n)))
            (trace (BuildLinux.verify_build_artifacts e).2)).
Proof.
  intros H.
  specialize (H (boot SampleTree.quiet SampleTree.plugins_only) eq_refl).
  cbv zeta in H.
  assert (forall n, In n BuildLinux.plugins ->
            Os.exists_ SampleTree.plugins_only
              (BuildLinux.plugin_lib (Sample.project ++ ["build"; "plugins"]) n)
            = true) as Hall.
  { intros n [<-|[<-|[<-|[]]]]; reflexivity. }
  specialize (H Hall "PluginOne" (or_introl eq_refl)).
  vm_compute in H. destruct H as [H|[H|[]]]; discriminate H.
Qed.

(* ================================================================== *)
(** * Packaging the deployment *)
(* ================================================================== *)

(** The loop that copies the plugins raises only when a call to the file
    system does, and then that call is the last error recorded. *)
Lemma copy_plugins_spec plugin_dir plugin_deploy_dir names e :
  wp (BuildLinux.copy_plugins plugin_dir plugin_deploy_dir names)
     (fun r e' =>
        world e' = world e /\ stats e' = stats e /\
        match r with
        | Ret _ => fs_errors (trace e') = fs_errors (trace e)
        | Raise ex =>
            exists op text,
              ex = Exception text /\
              fs_errors (trace e') = fs_errors (trace e) ++ [(op, text)]
        end)
     e.
Proof.
  revert e. induction names as [|n names IH]; intros e.
  - cbn [BuildLinux.copy_plugins]. wp_steps. repeat split.
  - cbn [BuildLinux.copy_plugins]. wp_branches.
    + split; [now chase|]. split; [now chase|].
      eexists _, _. split; [reflexivity|]. now chase.
    + eapply wp_mono; [apply IH|].
      intros r e4 (Hw & Hst & Hr). split; [now chase|]. split; [now chase|].
      destruct r as [u|ex]; [now chase|].
      destruct Hr as (op & text & -> & Herr).
      exists op, text. split; [reflexivity|]. now chase.
    + eapply wp_mono; [apply IH|].
      intros r e4 (Hw & Hst & Hr). split; [exact Hw|]. split; [exact Hst|].
      exact Hr.
Qed.

(** [create_deployment_package], by outcome: [True] means that no call to
    the file system raised, and the flag is set; [False] means that a call
    inside the [try] raised; an error of the two calls made before the
    [try] (removing and creating the deployment directory) leaves the
    method as an exception. *)
Lemma create_deployment_package_spec e :
  wp BuildLinux.create_deployment_package
     (fun r e' =>
        match r with
        | Ret true =>
            deployment_successful (stats e') = true /\
            fs_errors (trace e') = fs_errors (trace e)
        | Ret false =>
            exists op text,
              fs_errors (trace e') = fs_errors (trace e) ++ [(op, text)]
        | Raise ex =>
            exists op text,
              ex = Exception text /\
              fs_errors (trace e') = fs_errors (trace e) ++ [(op, text)] /\
              (op = Rmtree (BuildLinux.deploy_dir e) \/
               op = Mkdir (BuildLinux.deploy_dir e) true true)
        end)
     e.
Proof.
  unfold BuildLinux.create_deployment_package. wp_steps.
  assert (BuildLinux.deploy_dir e' = BuildLinux.deploy_dir e) as Hdeploy
    by (unfold BuildLinux.deploy_dir; now chase).
  rewrite !Hdeploy. clear Hdeploy.
  wp_branches.
  all: try (eapply wp_mono; [apply copy_plugins_spec|];
            intros r e4 (Hw4 & Hst4 & Hr4);
            destruct r as [u|ex];
            [|destruct Hr4 as (op & text & -> & Hr4); cbn [is_Exception]];
            wp_branches).
  all: first
    [ solve [split; [now chase|now chase]]
    | solve [eexists _, _; split; [reflexivity|]; split; [now chase|];
             (now left) || (now right)]
    | solve [eexists _, _; now chase] ].
Qed.

Lemma list_neq_snoc {A} (l : list A) (x : A) : l ++ [x] <> l.
Proof.
  intros H. apply (f_equal length) in H. rewrite length_app in H.
  cbn [length] in H. lia.
Qed.

(** C10. Whatever the build tree holds (the copies of the main executable
    and of the plugin libraries are skipped when the file is absent),
    [create_deployment_package] returns [True] and sets
    [deployment_successful] whenever no call to the file system raises; it
    returns [False] only when a call to the file system raised, inside the
    [try]; the one other way out is the exception of the two calls made
    before the [try]. *)
Theorem deployment_package_outcome e :
  let r := (BuildLinux.create_deployment_package e).1 in
  let e' := (BuildLinux.create_deployment_package e).2 in
  (fs_errors (trace e') = fs_errors (trace e) ->
   r = Ret true /\ deployment_successful (stats e') = true)
  /\ (r = Ret false ->
      exists op text, fs_errors (trace e') = fs_errors (trace e) ++ [(op, text)])
  /\ (forall ex, r = Raise ex ->
      exists op text,
        ex = Exception text /\
        fs_errors (trace e') = fs_errors (trace e) ++ [(op, text)] /\
        (op = Rmtree (BuildLinux.deploy_dir e) \/
         op = Mkdir (BuildLinux.deploy_dir e) true true)).
Proof.
  intros r e'. pose proof (create_deployment_package_spec e) as H.
  unfold wp in H. fold r e' in H.
  destruct r as [[|]|ex].
  - split; [intros _; split; [reflexivity|apply H]|].
    split; [discriminate|intros ex [=]].
  - destruct H as (op & text & H). split.
    + intros Hsame. rewrite Hsame in H. symmetry in H.
      now apply list_neq_snoc in H.
    + split; [intros _; now exists op, text|intros ex [=]].
  - destruct H as (op & text & -> & H & Hop). split.
    + intros Hsame. rewrite Hsame in H. symmetry in H.
      now apply list_neq_snoc in H.
    + split; [discriminate|]. intros ex [= <-]. now exists op, text.
Qed.

(** A build tree with neither the main executable nor any plugin library:
    packaging succeeds, and nothing is copied. *)
Lemma deployment_package_outcome_witness :
  Os.exists_ (fs SampleTree.bare) SampleTree.exe = false /\
  fs_calls (trace (BuildLinux.create_deployment_package SampleTree.bare).2)
  = [ (Mkdir (Sample.project ++ ["deploy_linux"]) true true, None);
      (Mkdir (Sample.project ++ ["deploy_linux"; "plugins"]) false true, None);
      (WriteText (Sample.project ++ ["deploy_linux"; "run_itemeditor.sh"])
         BuildLinux.run_script_text, None);
      (Chmod (Sample.project ++ ["deploy_linux"; "run_itemeditor.sh"]) 493, None) ] /\
  (BuildLinux.create_deployment_package SampleTree.bare).1 = Ret true /\
  deployment_successful
    (stats (BuildLinux.create_deployment_package SampleTree.bare).2) = true.
Proof.
  split; [reflexivity|]. split; [vm_compute; reflexivity|].
  apply (proj1 (deployment_package_outcome SampleTree.bare)).
  vm_compute. reflexivity.
Defined.

(* ================================================================== *)
(** * The pipeline controllers *)
(* ================================================================== *)

(** ** Rules for the statements of a controller *)

Lemma wp_call name m (Q : Res bool -> Run -> Prop) r :
  (forall res r', calls r' = calls r ++ [(name, record_of res)] -> Q res r') ->
  wp (call name m) Q r.
Proof.
  intros H. unfold wp, call.
  destruct (m (env r)) as [[b|ex] e']; apply H; reflexivity.
Qed.

Lemma wp_call_proc name m (Q : Res unit -> Run -> Prop) r :
  (forall r', calls r' = calls r ++ [(name, Ret None)] -> Q (Ret tt) r') ->
  (forall ex r', calls r' = calls r ++ [(name, Raise ex)] -> Q (Raise ex) r') ->
  wp (call_proc name m) Q r.
Proof.
  intros Hret Hraise. unfold wp, call_proc.
  destruct (m (env r)) as [[[]|ex] e']; [apply Hret|apply Hraise]; reflexivity.
Qed.

Lemma wp_own {A} (m : M Env A) (Q : Res A -> Run -> Prop) r :
  (forall res r', calls r' = calls r -> Q res r') -> wp (own m) Q r.
Proof.
  intros H. unfold wp, own. destruct (m (env r)) as [res e']. apply H. reflexivity.
Qed.

(** Console output, logging and statistics never raise. *)
Lemma wp_own_modify f (Q : Res unit -> Run -> Prop) r :
  (forall r', calls r' = calls r -> Q (Ret tt) r') -> wp (own (modify f)) Q r.
Proof. intros H. apply H. reflexivity. Qed.

Lemma wp_say lines (Q : Res unit -> Run -> Prop) r :
  (forall r', calls r' = calls r -> Q (Ret tt) r') -> wp (say lines) Q r.
Proof.
  revert r. induction lines as [|l lines IH]; intros r H.
  - apply H. reflexivity.
  - cbn [say]. apply wp_bind. apply (wp_own_modify (emit (Print l))).
    intros r' Hr'. apply IH. intros r'' Hr''. apply H. congruence.
Qed.

(** ** Chains of gates *)

Lemma gates_spec gs (k : M Run bool) r0 :
  (forall r, wp k (fun res r' => res = Ret true /\ calls r' = calls r) r) ->
  wp (gates gs k)
     (fun res r1 =>
        exists cs out,
          unfolds (map gate_name gs) cs out /\
          calls r1 = calls r0 ++ cs /\
          res = chain_result out)
     r0.
Proof.
  intros Hk. revert r0. induction gs as [|[[name step] on_fail] gs IH]; intros r0.
  - cbn [gates]. eapply wp_mono; [apply Hk|].
    intros res r' [-> Hc]. exists [], None.
    split; [constructor|]. split; [now rewrite app_nil_r|reflexivity].
  - cbn [gates map]. apply wp_bind. apply wp_call.
    intros [[|]|ex] r' Hc; cbn [negb record_of] in *.
    + eapply wp_mono; [apply IH|].
      intros res r1 (cs & out & Hu & Hc1 & Hres).
      exists ((name, Ret (Some true)) :: cs), out.
      split; [now constructor|]. split; [|exact Hres].
      rewrite Hc1, Hc, <- app_assoc. reflexivity.
    + apply wp_bind. apply wp_say. intros r'' Hc'. apply wp_ret.
      exists [(name, Ret (Some false))], (Some (Ret false)).
      split; [constructor|]. split; [congruence|reflexivity].
    + exists [(name, Raise ex)], (Some (Raise ex)).
      split; [constructor|]. split; [exact Hc|reflexivity].
Qed.

Lemma unfolds_prefix names cs out :
  unfolds names cs out -> map fst cs `prefix_of` names.
Proof.
  induction 1 as [|name names cs r _ IH|name names|name names ex]; cbn [map fst].
  - reflexivity.
  - now apply prefix_cons.
  - apply prefix_cons, prefix_nil.
  - apply prefix_cons, prefix_nil.
Qed.

(** In a chain that came to its end, every step was called and returned
    [True]. *)
Lemma unfolds_all_true names cs :
  unfolds names cs None ->
  map fst cs = names /\ forall c, c ∈ cs -> c.2 = Ret (Some true).
Proof.
  remember None as out eqn:E. induction 1 as [|name names cs r _ IH| |];
    try discriminate E.
  - split; [reflexivity|]. intros c Hc. now apply elem_of_nil in Hc.
  - destruct (IH E) as [Hn Ht]. split; [cbn; now rewrite Hn|].
    intros c [->|Hc]%elem_of_cons; [reflexivity|now apply Ht].
Qed.

(** A step that returned [False] is the last one called. *)
Lemma unfolds_false_last names cs out i name :
  unfolds names cs out ->
  cs !! i = Some (name, Ret (Some false)) ->
  length cs = S i /\ out = Some (Ret false).
Proof.
  intros Hu. revert i.
  induction Hu as [|n names cs r _ IH|n names|n names ex]; intros i Hi.
  - discriminate Hi.
  - destruct i as [|i]; [discriminate Hi|].
    destruct (IH i Hi) as [Hl Ho]. split; [cbn; now rewrite Hl|exact Ho].
  - destruct i as [|[|i]]; [|discriminate Hi..]. split; reflexivity.
  - destruct i as [|[|i]]; discriminate Hi.
Qed.

(** A call that raised ended the chain with its exception. *)
Lemma unfolds_raised names cs out name ex :
  unfolds names cs out -> (name, Raise ex) ∈ cs -> out = Some (Raise ex).
Proof.
  induction 1 as [|n names cs r _ IH|n names|n names ex']; intros Hin.
  - now apply elem_of_nil in Hin.
  - apply elem_of_cons in Hin as [[=]|Hin]. now apply IH.
  - apply list_elem_of_singleton in Hin. discriminate Hin.
  - apply list_elem_of_singleton in Hin. now injection Hin as -> ->.
Qed.

(** The chain read as a fail-fast pipeline, for any result [res] that
    agrees with it: the result of the chain when it returned, and not
    [True] when it raised. *)
Lemma unfolds_fail_fast names cs out res :
  unfolds names cs out ->
  match out with
  | Some (Raise _) => res <> Ret true
  | _ => res = chain_result out
  end ->
  fail_fast names cs res.
Proof.
  intros Hu Hres. split; [now apply unfolds_prefix with out|]. split.
  - intros i name Hi.
    destruct (unfolds_false_last _ _ _ _ _ Hu Hi) as [Hl ->].
    split; [exact Hl|exact Hres].
  - intros ->. destruct out as [[b|ex]|].
    + cbn in Hres. injection Hres as <-.
      exfalso. clear -Hu. remember (Some (Ret true)) as out eqn:E.
      induction Hu; try discriminate E; auto.
    + now destruct Hres.
    + now apply unfolds_all_true.
Qed.

(** ** The three controllers *)

Ltac calls_chase :=
  repeat match goal with
         | H : calls _ = _ |- _ => rewrite H
         end;
  rewrite <- ?app_assoc; try reflexivity.

Ltac ctl_quiet :=
  repeat first
    [ apply wp_bind
    | apply wp_own_modify; intros ? ?
    | apply wp_ret ];
  cbv beta iota.

Lemma linux_except_clauses : except_clauses BuildLinux.on_exception.
Proof.
  intros [|code|cmd t|text]; cbn [BuildLinux.on_exception after_except];
    [split; [reflexivity|]|reflexivity|split; [reflexivity|]..];
    intros r; ctl_quiet; (split; [reflexivity|calls_chase]).
Qed.

Lemma qt6_except_clauses : except_clauses BuildQt6.on_exception.
Proof.
  intros [|code|cmd t|text]; cbn [BuildQt6.on_exception after_except];
    [split; [reflexivity|]|reflexivity|split; [reflexivity|]..];
    intros r; ctl_quiet; (split; [reflexivity|calls_chase]).
Qed.

Lemma all_in_one_except_clauses : except_clauses AllInOne.on_exception.
Proof.
  intros [|code|cmd t|text]; cbn [AllInOne.on_exception after_except];
    [split; [reflexivity|]|reflexivity|split; [reflexivity|]..];
    intros r; ctl_quiet; (split; [reflexivity|calls_chase]).
Qed.

(** A header, a chain of gates and the [except] clauses around them. *)
Lemma guarded_chain_spec header h gs k handler r0 :
  (forall r, wp k (fun res r' => res = Ret true /\ calls r' = calls r) r) ->
  except_clauses handler ->
  wp (try_except (call_proc header h ;;; gates gs k) handler)
     (fun res r1 =>
        exists cs, calls r1 = calls r0 ++ cs /\
                   guarded_run header (map gate_name gs) cs res)
     r0.
Proof.
  intros Hk Hh. apply wp_try_except, wp_bind, wp_call_proc.
  - intros r1 Hc1. eapply wp_mono; [apply (gates_spec gs k r1 Hk)|].
    intros res r2 (steps & out & Hu & Hc2 & ->).
    assert (calls r2 = calls r0 ++ (header, Ret None) :: steps) as Hc
      by (rewrite Hc2, Hc1, <- app_assoc; reflexivity).
    destruct (chain_result out) as [b|ex] eqn:Eout.
    + exists ((header, Ret None) :: steps). split; [exact Hc|].
      exists (Ret None), steps. split; [reflexivity|]. left.
      split; [reflexivity|]. exists out. split; [exact Hu|]. now rewrite Eout.
    + specialize (Hh ex). destruct (handler ex) as [hd|].
      * destruct Hh as [Ha Hwp]. eapply wp_mono; [apply Hwp|].
        intros res r3 [-> Hc3].
        exists ((header, Ret None) :: steps). split; [congruence|].
        exists (Ret None), steps. split; [reflexivity|]. left.
        split; [reflexivity|]. exists out. split; [exact Hu|].
        now rewrite Eout, Ha.
      * exists ((header, Ret None) :: steps). split; [exact Hc|].
        exists (Ret None), steps. split; [reflexivity|]. left.
        split; [reflexivity|]. exists out. split; [exact Hu|].
        now rewrite Eout, Hh.
  - intros ex r1 Hc1. specialize (Hh ex). destruct (handler ex) as [hd|].
    + destruct Hh as [Ha Hwp]. eapply wp_mono; [apply Hwp|].
      intros res r3 [-> Hc3].
      exists [(header, Raise ex)]. split; [congruence|].
      exists (Raise ex), []. split; [reflexivity|]. right.
      exists ex. now rewrite Ha.
    + exists [(header, Raise ex)]. split; [exact Hc1|].
      exists (Raise ex), []. split; [reflexivity|]. right.
      exists ex. now rewrite Hh.
Qed.

(** The controllers are such guarded chains. *)
Lemma linux_run_build_process_chain self :
  BuildLinux.run_build_process self
  = try_except
      (call_proc "print_header" (BuildLinux.print_header self) ;;;
       gates (BuildLinux.pipeline self) (ret true))
      BuildLinux.on_exception.
Proof. reflexivity. Qed.

Lemma qt6_run_build_chain self :
  BuildQt6.run_build self
  = try_finally
      (try_except
         (call_proc "show_header" (BuildQt6.show_header self) ;;;
          gates (BuildQt6.pipeline self) (ret true))
         BuildQt6.on_exception)
      (call_proc "show_build_summary" (BuildQt6.show_build_summary self)).
Proof. reflexivity. Qed.

Lemma all_in_one_run_build_chain self :
  AllInOne.run_build self
  = try_finally
      (try_except
         (call_proc "show_header" (AllInOne.show_header self) ;;;
          gates (AllInOne.pipeline self)
                (own (update_stats (set_build_successful true)) ;;; ret true))
         AllInOne.on_exception)
      (call_proc "show_build_summary" (AllInOne.show_build_summary self)).
Proof. reflexivity. Qed.

Lemma ret_true_quiet (r : Run) :
  wp (ret true) (fun res r' => res = Ret true /\ calls r' = calls r) r.
Proof. split; reflexivity. Qed.

Lemma linux_run_build_process_spec self r0 :
  wp (BuildLinux.run_build_process self)
     (fun res r1 =>
        exists cs, calls r1 = calls r0 ++ cs /\
                   guarded_run "print_header" BuildLinux.step_names cs res)
     r0.
Proof.
  rewrite linux_run_build_process_chain.
  apply (guarded_chain_spec _ _ (BuildLinux.pipeline self));
    [intros r; apply ret_true_quiet|apply linux_except_clauses].
Qed.

Lemma finally_summary_spec body summary names r0 :
  (forall r, wp body (fun res r1 =>
               exists cs, calls r1 = calls r ++ cs /\
                          guarded_run "show_header" names cs res) r) ->
  wp (try_finally body (call_proc "show_build_summary" summary))
     (fun res r1 =>
        exists cs, calls r1 = calls r0 ++ cs /\ with_summary names cs res)
     r0.
Proof.
  intros Hbody. apply wp_try_finally. eapply wp_mono; [apply Hbody|].
  intros bres r1 (cs & Hc & Hg). apply wp_call_proc.
  - intros r2 Hc2. exists (cs ++ [("show_build_summary", Ret None)]).
    split; [rewrite Hc2, Hc, <- app_assoc; reflexivity|].
    exists cs, bres, (Ret None). repeat split. exact Hg.
  - intros ex r2 Hc2. exists (cs ++ [("show_build_summary", Raise ex)]).
    split; [rewrite Hc2, Hc, <- app_assoc; reflexivity|].
    exists cs, bres, (Raise ex). repeat split. exact Hg.
Qed.

Lemma qt6_run_build_spec self r0 :
  wp (BuildQt6.run_build self)
     (fun res r1 =>
        exists cs, calls r1 = calls r0 ++ cs /\
                   with_summary BuildQt6.step_names cs res)
     r0.
Proof.
  rewrite qt6_run_build_chain. apply finally_summary_spec. intros r.
  apply (guarded_chain_spec _ _ (BuildQt6.pipeline self));
    [intros r'; apply ret_true_quiet|apply qt6_except_clauses].
Qed.

Lemma all_in_one_run_build_spec self r0 :
  wp (AllInOne.run_build self)
     (fun res r1 =>
        exists cs, calls r1 = calls r0 ++ cs /\
                   with_summary AllInOne.step_names cs res)
     r0.
Proof.
  rewrite all_in_one_run_build_chain. apply finally_summary_spec. intros r.
  apply (guarded_chain_spec _ _ (AllInOne.pipeline self));
    [|apply all_in_one_except_clauses].
  intros r'. ctl_quiet. split; [reflexivity|calls_chase].
Qed.

(** ** What the recorded calls tell *)

Lemma after_except_not_true_of_raise ex : after_except (Raise ex) <> Ret true.
Proof. destruct ex; discriminate. Qed.

Lemma after_except_aborts ex :
  aborts ex = true -> after_except (Raise ex) = Ret false.
Proof. destruct ex; [reflexivity|discriminate|reflexivity..]. Qed.

Lemma guarded_run_fail_fast header names cs res :
  guarded_run header names cs res ->
  exists hres steps, cs = (header, hres) :: steps /\ fail_fast names steps res.
Proof.
  intros (hres & steps & -> & [[_ (out & Hu & ->)]|(ex & _ & -> & ->)]);
    exists hres; eexists; (split; [reflexivity|]).
  - apply (unfolds_fail_fast _ _ out _ Hu).
    destruct out as [[b|ex]|]; [reflexivity| |reflexivity].
    apply after_except_not_true_of_raise.
  - split; [apply prefix_nil|]. split; [intros i name Hi; discriminate Hi|].
    intros H. now apply after_except_not_true_of_raise in H.
Qed.

(** The names called by a guarded run are the header and then steps of
    the pipeline, in order. *)
Lemma guarded_run_names header names cs res :
  guarded_run header names cs res -> map fst cs `prefix_of` header :: names.
Proof.
  intros (hres & steps & Hcs & Hfail)%guarded_run_fail_fast. subst cs.
  cbn [map fst]. apply prefix_cons, Hfail.
Qed.

(** When a call of a guarded run raised an interrupt or an [Exception],
    the run answers [False]. *)
Lemma guarded_run_aborted header names cs res name ex :
  guarded_run header names cs res ->
  (name, Raise ex) ∈ cs ->
  (forall n x, (n, Raise x) ∈ cs -> aborts x = true) ->
  res = Ret false.
Proof.
  intros (hres & steps & -> & [[-> (out & Hu & ->)]|(ex0 & -> & -> & ->)]) Hin Hab.
  - apply elem_of_cons in Hin as [[=]|Hin].
    rewrite (unfolds_raised _ _ _ _ _ Hu Hin). cbn [chain_result].
    apply after_except_aborts, (Hab name). now right.
  - apply after_except_aborts, (Hab header). now left.
Qed.

(** A guarded run raises only what the handler lets through. *)
Lemma guarded_run_raises header names cs res ex :
  guarded_run header names cs res -> res = Raise ex ->
  (exists code, ex = SystemExit code) /\ exists name, (name, Raise ex) ∈ cs.
Proof.
  intros (hres & steps & -> & [[-> (out & Hu & ->)]|(ex0 & -> & -> & ->)]) Hres.
  - destruct out as [[b|ex1]|]; try discriminate Hres.
    cbn [chain_result] in Hres.
    assert (ex1 = ex /\ exists code, ex = SystemExit code) as [-> Hcode]
      by (destruct ex1; try discriminate Hres; injection Hres as <-; eauto).
    split; [exact Hcode|].
    assert (exists name, (name, Raise ex) ∈ steps) as [name Hin].
    { clear -Hu. remember (Some (Raise ex)) as out eqn:E.
      induction Hu as [|n names cs r Hu' IH|n names|n names ex'];
        try discriminate E.
      - destruct (IH E) as [name Hin]. exists name. now right.
      - injection E as ->. exists n. now left. }
    exists name. now right.
  - assert (ex0 = ex /\ exists code, ex = SystemExit code) as [-> Hcode]
      by (destruct ex0; try discriminate Hres; injection Hres as <-; eauto).
    split; [exact Hcode|]. exists header. now left.
Qed.

Lemma times_called_app name cs1 cs2 :
  times_called name (cs1 ++ cs2)
  = (times_called name cs1 + times_called name cs2)%nat.
Proof. unfold times_called. now rewrite filter_app, length_app. Qed.

Lemma times_called_absent name cs :
  name ∉ map fst cs -> times_called name cs = 0%nat.
Proof.
  unfold times_called. induction cs as [|c cs IH]; intros Hn; [reflexivity|].
  rewrite filter_cons. cbn [map] in Hn. apply not_elem_of_cons in Hn as [Hc Hn].
  destruct (decide (c.1 = name)) as [E|_]; [now destruct Hc|now apply IH].
Qed.

Lemma absent_from_prefix name (l names : list string) :
  l `prefix_of` names -> name ∉ names -> name ∉ l.
Proof.
  intros [k ->] Hn Hin. apply Hn, elem_of_app. now left.
Qed.

Lemma aborts_exit_status ex : aborts ex = true -> exit_status (Raise ex) <> 0.
Proof. destruct ex; cbn; [discriminate|discriminate|discriminate|discriminate]. Qed.

(** C1. However the steps behave, [run_build_process] of
    [LinuxQt6Builder] and [run_build] of [LinuxBuilder] and [Qt6Builder]
    call the header and then the steps of the pipeline in order, each at
    most once; a step that returns [False] is the last step called, and
    the controller then answers [False]; the controller answers [True]
    only if every step was called and returned [True].  ([run_build] calls
    the summary after the last step called, whatever happened; when the
    summary itself raises, that exception is the outcome.) *)
Theorem pipeline_is_fail_fast
    (linux : BuildLinux.Methods) (all_in_one : AllInOne.Methods)
    (qt6 : BuildQt6.Methods) (e : Env) :
  (exists hres steps,
     calls (BuildLinux.run_build_process linux (start e)).2
       = ("print_header", hres) :: steps /\
     fail_fast BuildLinux.step_names steps
       (BuildLinux.run_build_process linux (start e)).1)
  /\
  (exists hres steps sres bres,
     calls (AllInOne.run_build all_in_one (start e)).2
       = ("show_header", hres) :: steps ++ [("show_build_summary", sres)] /\
     fail_fast AllInOne.step_names steps bres /\
     match sres with
     | Raise ex => (AllInOne.run_build all_in_one (start e)).1 = Raise ex
     | Ret _ => (AllInOne.run_build all_in_one (start e)).1 = bres
     end)
  /\
  (exists hres steps sres bres,
     calls (BuildQt6.run_build qt6 (start e)).2
       = ("show_header", hres) :: steps ++ [("show_build_summary", sres)] /\
     fail_fast BuildQt6.step_names steps bres /\
     match sres with
     | Raise ex => (BuildQt6.run_build qt6 (start e)).1 = Raise ex
     | Ret _ => (BuildQt6.run_build qt6 (start e)).1 = bres
     end).
Proof.
  split; [|split].
  - destruct (linux_run_build_process_spec linux (start e)) as (cs & Hc & Hg).
    cbn [start calls app] in Hc.
    apply guarded_run_fail_fast in Hg as (hres & steps & -> & Hff).
    now exists hres, steps.
  - destruct (all_in_one_run_build_spec all_in_one (start e))
      as (cs & Hc & body & bres & sres & -> & Hg & Hres).
    cbn [start calls app] in Hc.
    apply guarded_run_fail_fast in Hg as (hres & steps & -> & Hff).
    exists hres, steps, sres, bres. split; [exact Hc|]. split; [exact Hff|].
    exact Hres.
  - destruct (qt6_run_build_spec qt6 (start e))
      as (cs & Hc & body & bres & sres & -> & Hg & Hres).
    cbn [start calls app] in Hc.
    apply guarded_run_fail_fast in Hg as (hres & steps & -> & Hff).
    exists hres, steps, sres, bres. split; [exact Hc|]. split; [exact Hff|].
    exact Hres.
Qed.

(** A name is not in an explicit list of names. *)
Ltac not_among :=
  let H := fresh in
  intros H; unfold BuildQt6.step_names, BuildLinux.step_names,
              AllInOne.step_names in H;
  repeat (apply elem_of_cons in H as [H|H]; [discriminate H|]);
  now apply elem_of_nil in H.

(** No call was made: a run like that was not interrupted in the
    pipeline. *)
Lemma summary_once_no_call summary res : summary_once summary [] res.
Proof. intros _ (name & ex & Hin & _). now apply elem_of_nil in Hin. Qed.

Lemma qt6_main_spec self e :
  wp (BuildQt6.main self)
     (fun res r => summary_once "show_build_summary" (calls r) res)
     (start e).
Proof.
  unfold BuildQt6.main.
  apply wp_bind, wp_own. intros [e0|ex0] r0 Hc0; cbn [start calls] in Hc0;
    [|rewrite Hc0; apply summary_once_no_call].
  destruct (negb (python_at_least_3_7 (world e0))).
  { apply wp_bind, wp_own_modify. intros r1 Hc1. apply wp_raise.
    rewrite Hc1, Hc0. apply summary_once_no_call. }
  apply wp_bind, wp_own. intros [[]|ex1] r1 Hc1;
    [|rewrite Hc1, Hc0; apply summary_once_no_call].
  apply wp_bind. eapply wp_mono; [apply qt6_run_build_spec|].
  intros res r2 (cs & Hc2 & body & bres & sres & -> & Hg & Hres).
  rewrite Hc1, Hc0 in Hc2. cbn [app] in Hc2.
  assert (forall res', match res with
                       | Ret success => res' = Raise (SystemExit (if success then 0 else 1))
                       | Raise ex => res' = Raise ex
                       end ->
             summary_once "show_build_summary"
               (body ++ [("show_build_summary", sres)]) res') as Hgoal.
  { intros res' Hres' Hab (name & ex & Hin & Hname).
    apply elem_of_app in Hin as [Hin|Hin];
      [|apply list_elem_of_singleton in Hin; now injection Hin as -> _].
    assert (bres = Ret false) as ->.
    { apply (guarded_run_aborted _ _ _ _ name ex Hg Hin).
      intros n x Hnx. apply (Hab n). apply elem_of_app. now left. }
    split; [|split].
    - rewrite times_called_app, times_called_absent; [reflexivity|].
      apply (absent_from_prefix _ _ _ (guarded_run_names _ _ _ _ Hg)).
      not_among.
    - exists sres. apply last_snoc.
    - destruct sres as [u|ex'].
      + subst res. subst res'. discriminate.
      + subst res. subst res'. apply aborts_exit_status, (Hab "show_build_summary").
        apply elem_of_app. right. now left. }
  destruct res as [success|ex]; [apply wp_raise|]; rewrite Hc2;
    apply Hgoal; reflexivity.
Qed.

Lemma linux_main_spec self e :
  wp (BuildLinux.main self)
     (fun res r => summary_once "print_build_summary" (calls r) res)
     (start e).
Proof.
  unfold BuildLinux.main.
  apply wp_bind, wp_own. intros [[]|ex0] r0 Hc0; cbn [start calls] in Hc0;
    [|rewrite Hc0; apply summary_once_no_call].
  apply wp_try_except, wp_bind.
  eapply wp_mono; [apply linux_run_build_process_spec|].
  intros res r1 (cs & Hc1 & Hg). rewrite Hc0 in Hc1. cbn [app] in Hc1.
  assert ("print_build_summary" ∉ map fst cs) as Hfresh.
  { apply (absent_from_prefix _ _ _ (guarded_run_names _ _ _ _ Hg)).
    not_among. }
  destruct res as [success|ex].
  - (* the build returned: the summary is called, then sys.exit *)
    assert (forall sres res',
              (sres = Ret None /\
               res' = Raise (SystemExit (if success then 0 else 1)))
              \/ (exists ex, sres = Raise ex /\
                    res' = if is_Exception ex then Raise (SystemExit 1)
                           else Raise ex) ->
              summary_once "print_build_summary"
                (cs ++ [("print_build_summary", sres)]) res') as Hgoal.
    { intros sres res' Hres' Hab (name & ex & Hin & Hname).
      apply elem_of_app in Hin as [Hin|Hin];
        [|apply list_elem_of_singleton in Hin; now injection Hin as -> _].
      assert (success = false) as ->.
      { assert (Ret success = Ret false) as [= ->]; [|reflexivity].
        apply (guarded_run_aborted _ _ _ _ name ex Hg Hin).
        intros n x Hnx. apply (Hab n). apply elem_of_app. now left. }
      split; [|split].
      - now rewrite times_called_app, times_called_absent.
      - exists sres. apply last_snoc.
      - destruct Hres' as [[-> ->]|(ex' & -> & ->)]; [discriminate|].
        destruct (is_Exception ex') eqn:Eex; [discriminate|].
        apply aborts_exit_status, (Hab "print_build_summary").
        apply elem_of_app. right. now left. }
    apply wp_bind, wp_call_proc.
    + intros r2 Hc2. apply wp_raise. cbn [is_Exception].
      rewrite Hc2, Hc1. apply Hgoal. left. split; reflexivity.
    + intros ex r2 Hc2.
      destruct (is_Exception ex) eqn:Eex.
      * apply wp_bind, wp_own_modify. intros r3 Hc3.
        apply wp_bind, wp_own_modify. intros r4 Hc4. apply wp_raise.
        rewrite Hc4, Hc3, Hc2, Hc1. apply Hgoal. right. exists ex.
        now rewrite Eex.
      * rewrite Hc2, Hc1. apply Hgoal. right. exists ex. now rewrite Eex.
  - (* the build raised: only sys.exit of a method does that *)
    destruct (guarded_run_raises _ _ _ _ _ Hg eq_refl) as [[code ->] [name Hin]].
    cbn [is_Exception]. rewrite Hc1. intros Hab _.
    specialize (Hab name _ Hin). discriminate Hab.
Qed.

(** C6. When a method of the pipeline is interrupted by the user or
    aborted by an exception, and no method calls [sys.exit] by itself, the
    summary is called exactly once, after every other call, and the
    process exits with a status other than 0: so for [main] of
    [build_qt6_project.py] ([finally] in [run_build]) and for [main] of
    [build_linux.py] (summary after [run_build_process]). *)
Theorem summary_runs_once_on_interruption
    (qt6 : BuildQt6.Methods) (linux : BuildLinux.Methods) (e : Env) :
  summary_once "show_build_summary"
    (calls (BuildQt6.main qt6 (start e)).2) (BuildQt6.main qt6 (start e)).1
  /\
  summary_once "print_build_summary"
    (calls (BuildLinux.main linux (start e)).2) (BuildLinux.main linux (start e)).1.
Proof.
  split; [apply (qt6_main_spec qt6 e)|apply (linux_main_spec linux e)].
Qed.

Lemma summary_runs_once_on_interruption_witness :
  (times_called "show_build_summary"
     (calls (BuildQt6.main SampleRun.qt6_interrupted (start SampleTree.bare)).2)
   = 1%nat /\
   exit_status (BuildQt6.main SampleRun.qt6_interrupted (start SampleTree.bare)).1
   <> 0)
  /\
  (times_called "print_build_summary"
     (calls (BuildLinux.main SampleRun.linux_interrupted (start SampleTree.bare)).2)
   = 1%nat /\
   exit_status (BuildLinux.main SampleRun.linux_interrupted (start SampleTree.bare)).1
   <> 0).
Proof.
  destruct (summary_runs_once_on_interruption SampleRun.qt6_interrupted
              SampleRun.linux_interrupted SampleTree.bare) as [Hq Hl].
  assert (calls (BuildQt6.main SampleRun.qt6_interrupted (start SampleTree.bare)).2
          = [ ("show_header", Ret None);
              ("verify_prerequisites", Ret (Some true));
              ("clean_previous_builds", Ret (Some true));
              ("step1_build_plugins", Raise KeyboardInterrupt);
              ("show_build_summary", Ret None) ]) as Hcq
    by (vm_compute; reflexivity).
  assert (calls (BuildLinux.main SampleRun.linux_interrupted (start SampleTree.bare)).2
          = [ ("print_header", Ret None);
              ("check_sudo_access", Ret (Some true));
              ("update_package_lists", Ret (Some true));
              ("install_system_packages", Raise KeyboardInterrupt);
              ("print_build_summary", Ret None) ]) as Hcl
    by (vm_compute; reflexivity).
  split.
  - destruct Hq as (Ht & _ & Hx).
    + rewrite Hcq. intros name ex Hin.
      repeat (apply elem_of_cons in Hin as [Hin|Hin];
              [try discriminate Hin; now injection Hin as _ ->|]).
      now apply elem_of_nil in Hin.
    + exists "step1_build_plugins", KeyboardInterrupt. rewrite Hcq.
      split; [|discriminate]. do 3 right. now left.
    + split; [exact Ht|exact Hx].
  - destruct Hl as (Ht & _ & Hx).
    + rewrite Hcl. intros name ex Hin.
      repeat (apply elem_of_cons in Hin as [Hin|Hin];
              [try discriminate Hin; now injection Hin as _ ->|]).
      now apply elem_of_nil in Hin.
    + exists "install_system_packages", KeyboardInterrupt. rewrite Hcl.
      split; [|discriminate]. do 3 right. now left.
    + split; [exact Ht|exact Hx].
Defined.

(* ================================================================== *)
(** * Second attempts *)
(* ================================================================== *)

(** Running an executor inside a method: the answer, and one more launch. *)
Ltac run_command_step :=
  eapply wp_mono; [apply rich_run_command_spec|];
  let res := fresh "res" in
  let ok := fresh "ok" in
  intros res ? (? & ? & ? & ?);
  destruct res as [[[ok ?] ?]|?]; cbn [fst snd]; [destruct ok|].



Lemma rich_answer_raise b timeout ex :
  rich_answer b timeout = Raise ex -> ex = KeyboardInterrupt.
Proof.
  destruct b as [d rc out err| |text|]; cbn [rich_answer];
    [destruct (timeout <? d)%N|..]; now intros [=].
Qed.

Lemma wp_print_panel_stats content title (Q : Res unit -> Env -> Prop) e :
  (forall e', world e' = world e -> stats e' = stats e ->
              spawned (trace e') = spawned (trace e) -> Q (Ret tt) e') ->
  wp (SetupEnv.print_panel content title) Q e.
Proof.
  intros H. unfold SetupEnv.print_panel. wp_branches; apply H; now chase.
Qed.

Lemma wp_import_rich_value (Q : Res bool -> Env -> Prop) e :
  Q (Ret (rich_importable (world e) (length (spawned (trace e))))) e ->
  wp SetupEnv.import_rich Q e.
Proof. exact id. Qed.

Lemma count_upto_S f n :
  Z.of_nat (count_upto f (S n))
  = Z.of_nat (count_upto f n) + (if f n then 1 else 0).
Proof. cbn [count_upto]. destruct (f n); lia. Qed.

Lemma pip_progress_answer e0 n e :
  (n < 4)%nat -> pip_progress e0 n e ->
  rich_answer (next_behaviour e (nth n pip_attempts [])) 300 = pip_answer e0 n
  /\ rich_importable (world e) (S (length (spawned (trace e)))) = import_after e0 n.
Proof.
  intros Hn (Hw & Hsp & _). unfold pip_answer, import_after, next_behaviour.
  rewrite Hw, Hsp, length_app, length_take.
  replace (n `min` length pip_attempts)%nat with n by (cbn [length pip_attempts]; lia).
  split; [reflexivity|]. f_equal. lia.
Qed.

(** One round of the first loop: the command is launched once, a success
    is counted, and the round ends the search only when the import works
    afterwards. *)
Lemma first_loop_attempt e0 n e pip_cmd :
  (n < 2)%nat -> nth n pip_attempts [] = [pip_cmd; "install"; "rich"] ->
  pip_progress e0 n e ->
  wp (r <- SetupEnv.run_command [pip_cmd; "install"; "rich"]
             ("Installing rich library with " +:+ pip_cmd) None 300 ;;
      if r.1.1 then
        incr_python_packages_installed ;;;
        SetupEnv.print_message ("[OK] Rich library installed successfully with " +:+ pip_cmd) ;;;
        logger INFO ("Rich library installed with " +:+ pip_cmd) ;;;
        ok <- SetupEnv.import_rich ;;
        if ok then
          SetupEnv.print_message "[OK] Rich library import verified" ;;;
          ret (Some true)
        else
          SetupEnv.print_message "[WARN] Rich installed but import failed" ;;;
          ret None
      else
        SetupEnv.print_message ("[FAIL] Failed to install rich with " +:+ pip_cmd) ;;;
        ret None)
     (fun r e' =>
        pip_progress e0 (S n) e' /\
        match r with
        | Ret (Some b) => b = true /\ pip_settles e0 n = true
        | Ret None => pip_goes_on e0 n = true
        | Raise ex =>
            ex = KeyboardInterrupt /\ pip_answer e0 n = Raise KeyboardInterrupt
        end)
     e.
Proof.
  intros Hn Hcmd Hprog.
  destruct (pip_progress_answer e0 n e ltac:(lia) Hprog) as [Hans Himp].
  rewrite Hcmd in Hans. destruct Hprog as (Hw & Hsp & Hpp & Hte).
  unfold SetupEnv.run_command, SetupEnv.print_message,
    incr_python_packages_installed.
  apply wp_bind. eapply wp_mono;
    [apply wp_conj; [apply rich_run_command_spec|apply rich_run_command_stats]|].
  cbv beta. intros res e1 ((Hres & Hw1 & Hsp1 & _) & Hst1).
  rewrite Hans in Hres.
  assert (spawned (trace e1) = spawned (trace e0) ++ take (S n) pip_attempts)
    as Hsp1'.
  { rewrite Hsp1, Hsp, <- app_assoc. f_equal.
    rewrite <- Hcmd. destruct n as [|[|n]]; [reflexivity|reflexivity|lia]. }
  assert (pip_installed e0 n
          = match res with Ret (true, _, _) => true | _ => false end) as Hin
    by (unfold pip_installed; now rewrite <- Hres).
  assert (pip_failed e0 n
          = match res with Ret (false, _, _) => true | _ => false end) as Hfa
    by (unfold pip_failed; now rewrite <- Hres).
  unfold pip_settles, pip_goes_on, pip_progress.
  rewrite !count_upto_S, Hin, Hfa.
  replace (2 <=? n)%nat with false by (symmetry; apply Nat.leb_gt; lia).
  replace (n <? 2)%nat with true by (symmetry; apply Nat.ltb_lt; lia).
  destruct res as [[[[|] out] err]|ex]; cbn [fst snd andb orb].
  - apply wp_bind, wp_update_stats. intros e2 Hw2 Hst2 Hl2 Hf2 Ht2.
    apply wp_bind, wp_console_print. intros e3 Hw3 Hst3 Hl3 Hf3 Ht3.
    apply wp_bind, wp_logger. intros e4 Hw4 Hst4 Hl4 Ht4.
    apply wp_bind, wp_import_rich_value.
    assert (world e4 = world e0) as Hw' by congruence.
    assert (spawned (trace e4) = spawned (trace e0) ++ take (S n) pip_attempts)
      as Hsp'.
    { rewrite Ht4, Ht3, Ht2, !spawned_app. cbn [spawned omap list_omap].
      now rewrite !app_nil_r. }
    assert (python_packages_installed (stats e4)
            = python_packages_installed (stats e0)
              + (Z.of_nat (count_upto (pip_installed e0) n) + 1)
            /\ total_errors (stats e4)
               = total_errors (stats e0)
                 + (Z.of_nat (count_upto (pip_failed e0) n) + 0)) as [Hpp' Hte'].
    { rewrite Hst4, Hst3, Hst2, Hst1.
      cbn [python_packages_installed total_errors set_python_packages_installed].
      rewrite Hpp, Hte. split; lia. }
    replace (rich_importable (world e4) (length (spawned (trace e4))))
      with (import_after e0 n).
    2:{ rewrite <- Himp, Hw4, Hw3, Hw2, Hw1. f_equal.
        rewrite Ht4, Ht3, Ht2, !spawned_app. cbn [spawned omap list_omap].
        rewrite !app_nil_r, Hsp1, length_app. cbn [length]. lia. }
    destruct (import_after e0 n); cbv beta iota;
      apply wp_bind, wp_console_print; intros e5 Hw5 Hst5 Hl5 Hf5 Ht5;
      apply wp_ret.
    + split; [|now split].
      split; [congruence|]. split; [|split; congruence].
      rewrite Ht5, spawned_app. cbn [spawned omap list_omap].
      now rewrite app_nil_r.
    + split; [|reflexivity].
      split; [congruence|]. split; [|split; congruence].
      rewrite Ht5, spawned_app. cbn [spawned omap list_omap].
      now rewrite app_nil_r.
  - apply wp_bind, wp_console_print. intros e2 Hw2 Hst2 Hl2 Hf2 Ht2.
    apply wp_ret. split; [|reflexivity].
    split; [congruence|]. split.
    { rewrite Ht2, spawned_app. cbn [spawned omap list_omap].
      now rewrite app_nil_r. }
    rewrite Hst2, Hst1. cbn [python_packages_installed total_errors set_total_errors].
    rewrite Hpp, Hte. split; lia.
  - split.
    + split; [congruence|]. split; [exact Hsp1'|].
      rewrite Hst1, Hpp, Hte. split; lia.
    + assert (ex = KeyboardInterrupt) as ->
        by (eapply rich_answer_raise; symmetry; exact Hres).
      now split.
Qed.

(** One round of the second loop, with [--user]: a success ends the
    search without an import. *)
Lemma second_loop_attempt e0 n e pip_cmd :
  (2 <= n < 4)%nat ->
  nth n pip_attempts [] = [pip_cmd; "install"; "--user"; "rich"] ->
  pip_progress e0 n e ->
  wp (r <- SetupEnv.run_command [pip_cmd; "install"; "--user"; "rich"]
             ("Installing rich library with " +:+ pip_cmd +:+ " --user")
             None 300 ;;
      if r.1.1 then
        incr_python_packages_installed ;;;
        SetupEnv.print_message ("[OK] Rich library installed successfully with "
                                +:+ pip_cmd +:+ " --user") ;;;
        ret (Some true)
      else ret None)
     (fun r e' =>
        pip_progress e0 (S n) e' /\
        match r with
        | Ret (Some b) => b = true /\ pip_settles e0 n = true
        | Ret None => pip_goes_on e0 n = true
        | Raise ex =>
            ex = KeyboardInterrupt /\ pip_answer e0 n = Raise KeyboardInterrupt
        end)
     e.
Proof.
  intros Hn Hcmd Hprog.
  destruct (pip_progress_answer e0 n e ltac:(lia) Hprog) as [Hans _].
  rewrite Hcmd in Hans. destruct Hprog as (Hw & Hsp & Hpp & Hte).
  unfold SetupEnv.run_command, SetupEnv.print_message,
    incr_python_packages_installed.
  apply wp_bind. eapply wp_mono;
    [apply wp_conj; [apply rich_run_command_spec|apply rich_run_command_stats]|].
  cbv beta. intros res e1 ((Hres & Hw1 & Hsp1 & _) & Hst1).
  rewrite Hans in Hres.
  assert (spawned (trace e1) = spawned (trace e0) ++ take (S n) pip_attempts)
    as Hsp1'.
  { rewrite Hsp1, Hsp, <- app_assoc. f_equal.
    rewrite <- Hcmd.
    destruct n as [|[|[|[|n]]]]; [lia|lia|reflexivity|reflexivity|lia]. }
  assert (pip_installed e0 n
          = match res with Ret (true, _, _) => true | _ => false end) as Hin
    by (unfold pip_installed; now rewrite <- Hres).
  assert (pip_failed e0 n
          = match res with Ret (false, _, _) => true | _ => false end) as Hfa
    by (unfold pip_failed; now rewrite <- Hres).
  unfold pip_settles, pip_goes_on, pip_progress.
  rewrite !count_upto_S, Hin, Hfa.
  replace (2 <=? n)%nat with true by (symmetry; apply Nat.leb_le; lia).
  replace (n <? 2)%nat with false by (symmetry; apply Nat.ltb_ge; lia).
  destruct res as [[[[|] out] err]|ex]; cbn [fst snd andb orb].
  - apply wp_bind, wp_update_stats. intros e2 Hw2 Hst2 Hl2 Hf2 Ht2.
    apply wp_bind, wp_console_print. intros e3 Hw3 Hst3 Hl3 Hf3 Ht3.
    apply wp_ret. split; [|now split].
    split; [congruence|]. split.
    { rewrite Ht3, Ht2, !spawned_app. cbn [spawned omap list_omap].
      now rewrite !app_nil_r. }
    rewrite Hst3, Hst2, Hst1.
    cbn [python_packages_installed total_errors set_python_packages_installed].
    rewrite Hpp, Hte. split; lia.
  - apply wp_ret. split; [|reflexivity].
    split; [congruence|]. split; [exact Hsp1'|].
    rewrite Hst1. cbn [python_packages_installed total_errors set_total_errors].
    rewrite Hpp, Hte. split; lia.
  - split.
    + split; [congruence|]. split; [exact Hsp1'|].
      rewrite Hst1, Hpp, Hte. split; lia.
    + assert (ex = KeyboardInterrupt) as ->
        by (eapply rich_answer_raise; symmetry; exact Hres).
      now split.
Qed.

Lemma pip_progress_start e e1 :
  world e1 = world e -> stats e1 = stats e ->
  spawned (trace e1) = spawned (trace e) -> pip_progress e 0 e1.
Proof.
  intros Hw Hst Hsp. unfold pip_progress. rewrite Hw, Hst, Hsp.
  cbn [take count_upto Z.of_nat]. rewrite app_nil_r.
  repeat split; lia.
Qed.

Lemma goes_on_below (e : Env) (k : nat) :
  (forall i, (i < k)%nat -> pip_goes_on e i = true) ->
  pip_goes_on e k = true ->
  forall i, (i < S k)%nat -> pip_goes_on e i = true.
Proof.
  intros H Hk i Hi. destruct (decide (i = k)) as [->|Hne]; [exact Hk|].
  apply H. lia.
Qed.

(** The search of [install_python_rich] when the library is not there:
    the four commands are tried in order; the search stops at the first
    attempt that does not leave it to go on, or at the fourth. *)
Lemma install_python_rich_search e :
  rich_available (world e) = false ->
  wp SetupEnv.install_python_rich
     (fun r e' =>
        exists k,
          (k < 4)%nat /\
          pip_progress e (S k) e' /\
          (forall i, (i < k)%nat -> pip_goes_on e i = true) /\
          pip_outcome e k r)
     e.
Proof.
  intros Hrich. unfold SetupEnv.install_python_rich, SetupEnv.pip_commands.
  apply wp_bind, wp_get. rewrite Hrich.
  apply wp_bind, wp_print_panel_stats. intros e1 Hw1 Hst1 Hsp1.
  pose proof (pip_progress_start e e1 Hw1 Hst1 Hsp1) as P0.
  assert (forall i, (i < 0)%nat -> pip_goes_on e i = true) as G0
    by (intros i Hi; lia).
  cbn [for_each].
  apply wp_bind, wp_bind.
  eapply wp_mono; [apply (first_loop_attempt e 0 e1 "pip3"); [lia|reflexivity|exact P0]|].
  intros [[b|]|ex] e2 [P1 Hr]; cbv beta iota.
  { destruct Hr as [-> Hr]. apply wp_ret, wp_ret.
    exists 0%nat. split; [lia|]. split; [exact P1|]. split; [exact G0|exact Hr]. }
  2:{ exists 0%nat. split; [lia|]. split; [exact P1|]. split; [exact G0|exact Hr]. }
  pose proof (goes_on_below e 0 G0 Hr) as G1.
  apply wp_bind.
  eapply wp_mono; [apply (first_loop_attempt e 1 e2 "pip"); [lia|reflexivity|exact P1]|].
  clear Hr. intros [[b|]|ex] e3 [P2 Hr]; cbv beta iota.
  { destruct Hr as [-> Hr]. apply wp_ret, wp_ret.
    exists 1%nat. split; [lia|]. split; [exact P2|]. split; [exact G1|exact Hr]. }
  2:{ exists 1%nat. split; [lia|]. split; [exact P2|]. split; [exact G1|exact Hr]. }
  pose proof (goes_on_below e 1 G1 Hr) as G2.
  apply wp_ret. cbv beta iota.
  apply wp_bind, wp_bind.
  eapply wp_mono; [apply (second_loop_attempt e 2 e3 "pip3"); [lia|reflexivity|exact P2]|].
  clear Hr. intros [[b|]|ex] e4 [P3 Hr]; cbv beta iota.
  { destruct Hr as [-> Hr]. apply wp_ret, wp_ret.
    exists 2%nat. split; [lia|]. split; [exact P3|]. split; [exact G2|exact Hr]. }
  2:{ exists 2%nat. split; [lia|]. split; [exact P3|]. split; [exact G2|exact Hr]. }
  pose proof (goes_on_below e 2 G2 Hr) as G3.
  apply wp_bind.
  eapply wp_mono; [apply (second_loop_attempt e 3 e4 "pip"); [lia|reflexivity|exact P3]|].
  clear Hr. intros [[b|]|ex] e5 [P4 Hr]; cbv beta iota.
  { destruct Hr as [-> Hr]. apply wp_ret, wp_ret.
    exists 3%nat. split; [lia|]. split; [exact P4|]. split; [exact G3|exact Hr]. }
  2:{ exists 3%nat. split; [lia|]. split; [exact P4|]. split; [exact G3|exact Hr]. }
  apply wp_ret. cbv beta iota.
  unfold SetupEnv.print_message.
  apply wp_bind, wp_console_print. intros e6 Hw6 Hst6 Hl6 Hf6 Ht6. apply wp_ret.
  exists 3%nat. split; [lia|]. split; [|split; [exact G3|now split]].
  destruct P4 as (Pw & Psp & Ppp & Pte).
  split; [congruence|]. split; [|split; congruence].
  rewrite Ht6, spawned_app. cbn [spawned omap list_omap].
  now rewrite app_nil_r.
Qed.

(** ** [install_python_dependencies] of build_linux.py *)







(** With the library there, [install_python_rich] says so and returns:
    nothing is launched and no statistic changes. *)
Lemma install_python_rich_present e :
  rich_available (world e) = true ->
  (SetupEnv.install_python_rich e).1 = Ret true /\
  spawned (trace (SetupEnv.install_python_rich e).2) = spawned (trace e) /\
  stats (SetupEnv.install_python_rich e).2 = stats e.
Proof.
  intros Hrich.
  apply (wp_run SetupEnv.install_python_rich
           (fun r e' => r = Ret true /\ spawned (trace e') = spawned (trace e)
                        /\ stats e' = stats e)).
  unfold SetupEnv.install_python_rich, SetupEnv.print_message.
  apply wp_bind, wp_get. rewrite Hrich.
  apply wp_bind, wp_console_print. intros e1 Hw1 Hst1 Hl1 Hf1 Ht1. apply wp_ret.
  split; [reflexivity|]. split; [|exact Hst1].
  rewrite Ht1, spawned_app. cbn [spawned omap list_omap]. now rewrite app_nil_r.
Qed.


(** ** The controllers call no method twice *)







(** ** C7 *)




(* ================================================================== *)
(** * Log files *)
(* ================================================================== *)

(** ** The time stamp tells the second *)

Lemma digit_inj a b :
  Clock.digit a = Clock.digit b -> (a mod 10 = b mod 10)%N.
Proof.
  unfold Clock.digit. intros H.
  apply (f_equal N_of_ascii) in H.
  pose proof (N.mod_lt a 10 ltac:(lia)). pose proof (N.mod_lt b 10 ltac:(lia)).
  rewrite !N_ascii_embedding in H; lia.
Qed.

Lemma string_app_inv_head (p a b : string) : p +:+ a = p +:+ b -> a = b.
Proof.
  induction p as [|x p IH]; [exact id|].
  change (String x (p +:+ a) = String x (p +:+ b) -> a = b).
  intros [= H]. exact (IH H).
Qed.

Lemma strftime_stamp_same_second t1 t2 :
  Clock.same_second t1 t2 -> Clock.strftime_stamp t1 = Clock.strftime_stamp t2.
Proof.
  unfold Clock.strftime_stamp. now intros (-> & -> & -> & -> & -> & ->).
Qed.

Lemma last_digit a b :
  (a / 10 = b / 10 -> a mod 10 = b mod 10 -> a = b)%N.
Proof.
  intros Hd Hm. rewrite (N.div_mod a 10), (N.div_mod b 10) by discriminate.
  now rewrite Hd, Hm.
Qed.

Lemma two_digits a b :
  (a < 100 -> b < 100 ->
   (a / 10) mod 10 = (b / 10) mod 10 -> a mod 10 = b mod 10 -> a = b)%N.
Proof.
  intros Ha Hb Hd Hm. apply last_digit; [|exact Hm].
  rewrite !N.mod_small in Hd; [exact Hd| |];
    apply N.Div0.div_lt_upper_bound; assumption.
Qed.

Lemma four_digits a b :
  (a < 10000 -> b < 10000 ->
   (a / 1000) mod 10 = (b / 1000) mod 10 ->
   (a / 100) mod 10 = (b / 100) mod 10 ->
   (a / 10) mod 10 = (b / 10) mod 10 -> a mod 10 = b mod 10 -> a = b)%N.
Proof.
  intros Ha Hb H3 H2 H1 H0.
  apply last_digit; [|exact H0].
  apply last_digit; [|exact H1].
  rewrite !N.Div0.div_div. change (10 * 10)%N with 100%N.
  apply last_digit; [|exact H2].
  rewrite !N.Div0.div_div. change (100 * 10)%N with 1000%N.
  rewrite !N.mod_small in H3; [exact H3| |];
    apply N.Div0.div_lt_upper_bound; assumption.
Qed.

Lemma strftime_stamp_inj t1 t2 :
  Clock.valid t1 -> Clock.valid t2 ->
  Clock.strftime_stamp t1 = Clock.strftime_stamp t2 ->
  Clock.same_second t1 t2.
Proof.
  unfold Clock.valid, Clock.same_second, Clock.strftime_stamp.
  intros (Vy & Vm & Vd & Vh & Vmi & Vs & _) (Wy & Wm & Wd & Wh & Wmi & Ws & _) H.
  cbn [Clock.pad4 Clock.pad3 Clock.pad2 append] in H.
  injection H as Y3 Y2 Y1 Y0 M1 M0 D1 D0 h1 h0 m1 m0 s1 s0.
  apply digit_inj in Y3, Y2, Y1, Y0, M1, M0, D1, D0, h1, h0, m1, m0, s1, s0.
  repeat split;
    first [ apply four_digits; first [assumption|lia]
          | apply two_digits; first [assumption|lia] ].
Qed.

Lemma log_name_inj prefix project t1 t2 :
  Clock.valid t1 -> Clock.valid t2 ->
  log_name prefix project t1 = log_name prefix project t2 ->
  Clock.same_second t1 t2.
Proof.
  intros V1 V2 H. unfold log_name in H.
  apply app_inv_head in H. injection H as H.
  apply string_app_inv_head in H.
  apply (string_app_inv_head "_") in H.
  apply strftime_stamp_inj; [exact V1|exact V2|].
  cbv [Clock.strftime_stamp Clock.pad4 Clock.pad3 Clock.pad2 String.append]
    in H |- *.
  injection H; intros; congruence.
Qed.

(** ** What the calls do to the files *)

Lemma keeps_other_files_trans (log : path) (f1 f2 f3 : gmap path node) :
  keeps_other_files log f1 f2 -> keeps_other_files log f2 f3 ->
  keeps_other_files log f1 f3.
Proof. intros H1 H2 p c Hp Hf. apply H2, H1; assumption. Qed.

Lemma appends_only_refl (log : path) (f : gmap path node) : appends_only log f f.
Proof.
  split; [intros p c _ H; exact H|].
  intros c H. exists "". now rewrite append_empty_r.
Qed.

Lemma appends_only_trans (log : path) (f1 f2 f3 : gmap path node) :
  appends_only log f1 f2 -> appends_only log f2 f3 -> appends_only log f1 f3.
Proof.
  intros [K1 A1] [K2 A2]. split; [eapply keeps_other_files_trans; eassumption|].
  intros c H. destruct (A1 c H) as [m1 H1]. destruct (A2 _ H1) as [m2 H2].
  exists (m1 +:+ m2). now rewrite <- append_assoc.
Qed.

Lemma appends_only_same (log : path) (f f' : gmap path node) :
  f' = f -> appends_only log f f'.
Proof. intros ->. apply appends_only_refl. Qed.

(** A call that keeps every file as it is. *)
Lemma keeps_files_appends_only (log : path) (f f' : gmap path node) :
  (forall p c, f !! p = Some (File c) -> f' !! p = Some (File c)) ->
  appends_only log f f'.
Proof.
  intros H. split; [intros p c _; apply H|].
  intros c Hc. exists "". rewrite append_empty_r. now apply H.
Qed.

Lemma mkdir_chain_keeps_files (ps : list path) (f f' : gmap path node) :
  mkdir_chain ps f = inr f' ->
  forall p c, f !! p = Some (File c) -> f' !! p = Some (File c).
Proof.
  revert f. induction ps as [|q ps IH]; intros f H p c Hp; cbn [mkdir_chain] in H.
  - now injection H as <-.
  - destruct (f !! q) as [[d|]|] eqn:E; [discriminate H|now apply (IH f)|].
    apply (IH _ H). rewrite lookup_insert_ne; [exact Hp|].
    intros ->. rewrite E in Hp. discriminate Hp.
Qed.

Lemma fs_apply_mkdir (log p : path) (parents exist_ok : bool) (f f' : gmap path node) :
  fs_apply (Mkdir p parents exist_ok) f = inr f' -> appends_only log f f'.
Proof.
  intros H. apply keeps_files_appends_only. intros q c Hq.
  cbn [fs_apply] in H. destruct (f !! p) as [[d|]|] eqn:E.
  - discriminate H.
  - destruct exist_ok; [now injection H as <-|discriminate H].
  - destruct parents; [now apply (mkdir_chain_keeps_files _ _ _ H)|].
    destruct (is_dir f (parent p)); [|discriminate H]. injection H as <-.
    rewrite lookup_insert_ne; [exact Hq|].
    intros ->. rewrite E in Hq. discriminate Hq.
Qed.

Lemma fs_apply_append (log : path) (data : string) (f f' : gmap path node) :
  fs_apply (Append log data) f = inr f' ->
  appends_only log f f' /\ is_file f' log.
Proof.
  intros H. cbn [fs_apply] in H. destruct (f !! log) as [[c|]|] eqn:E.
  - injection H as <-. split; [split|].
    + intros p c' Hp Hc. now rewrite lookup_insert_ne.
    + intros c' Hc. rewrite E in Hc. injection Hc as <-.
      exists data. apply lookup_insert_eq.
    + eexists. apply lookup_insert_eq.
  - discriminate H.
  - destruct (is_dir f (parent log)); [|discriminate H]. injection H as <-.
    split; [split|].
    + intros p c' Hp Hc. now rewrite lookup_insert_ne.
    + intros c' Hc. rewrite E in Hc. discriminate Hc.
    + eexists. apply lookup_insert_eq.
Qed.

Lemma fs_apply_write_text (log : path) (data : string) (f f' : gmap path node) :
  fs_apply (WriteText log data) f = inr f' ->
  keeps_other_files log f f' /\ f' !! log = Some (File data).
Proof.
  intros H. cbn [fs_apply] in H.
  destruct (is_dir f log); [discriminate H|].
  destruct (is_dir f (parent log)); [|discriminate H]. injection H as <-.
  split; [|apply lookup_insert_eq].
  intros p c Hp Hc. now rewrite lookup_insert_ne.
Qed.

Lemma is_file_appends_only (log : path) (f f' : gmap path node) :
  appends_only log f f' -> is_file f log -> is_file f' log.
Proof. intros [_ A] [c Hc]. destruct (A c Hc) as [more H]. eexists. exact H. Qed.

(** The file handler appends to the log file and touches nothing else. *)
Lemma fs_handler_write data e log :
  log_file e = Some log ->
  appends_only log (fs e) (fs (handler_write data e)).
Proof.
  intros Hl. unfold handler_write. rewrite Hl.
  destruct (fs_apply (Append log data) (fs e)) as [text|f'] eqn:E;
    [apply appends_only_refl|].
  now apply fs_apply_append in E as [E _].
Qed.

Lemma logger_fs lvl msg e log :
  log_file e = Some log ->
  wp (logger lvl msg)
     (fun r e' => r = Ret tt /\ world e' = world e /\
                  log_file e' = Some log /\
                  appends_only log (fs e) (fs e'))
     e.
Proof.
  intros Hl. unfold wp, logger, modify; cbn [fst snd emit world log_file fs].
  split; [reflexivity|]. split; [apply world_handler_write|].
  split; [now rewrite log_file_handler_write|].
  now apply fs_handler_write.
Qed.

Lemma log_lines_spec lines e log :
  log_file e = Some log ->
  wp (log_lines lines)
     (fun r e' => r = Ret tt /\ world e' = world e /\
                  log_file e' = Some log /\
                  appends_only log (fs e) (fs e'))
     e.
Proof.
  revert e. induction lines as [|l lines IH]; intros e Hl; cbn [log_lines].
  - apply wp_ret. split; [reflexivity|]. split; [reflexivity|].
    split; [exact Hl|apply appends_only_refl].
  - apply wp_bind. eapply wp_mono; [apply (logger_fs _ _ _ _ Hl)|].
    intros r e1 (-> & Hw & Hl1 & Ha). cbv beta iota.
    eapply wp_mono; [apply (IH _ Hl1)|].
    intros r e2 (-> & Hw2 & Hl2 & Ha2).
    split; [reflexivity|]. split; [congruence|]. split; [exact Hl2|].
    eapply appends_only_trans; eassumption.
Qed.

(** [setup_logging] names the log file after the clock reading it takes
    once [logs/] is there, opens it for appending, and touches no other
    file; when it returns, the file exists and is the log file of the
    process. *)
Lemma setup_logging_spec prefix banner e :
  wp (Builder.setup_logging prefix banner)
     (fun r e' =>
        let log := log_name prefix (project_dir (world e))
                     (clock (world e) (S (length (trace e)))) in
        world e' = world e /\
        appends_only log (fs e) (fs e') /\
        (r = Ret tt -> log_file e' = Some log /\ is_file (fs e') log))
     e.
Proof.
  unfold Builder.setup_logging. cbv zeta.
  apply wp_bind, wp_get. apply wp_bind, wp_fs_call.
  { intros e1 text Hw _ _ Hf _.
    split; [exact Hw|]. split; [now apply appends_only_same|discriminate]. }
  intros e1 Hw1 _ Hl1 Hf1 Ht1. apply wp_bind, wp_get.
  assert (log_name prefix (project_dir (world e))
            (clock (world e) (S (length (trace e))))
          = (project_dir (world e) ++ ["logs"])
              ++ [prefix +:+ "_" +:+ Clock.strftime_stamp (now e1) +:+ ".log"])
    as Hname.
  { unfold log_name, now. rewrite Hw1, Ht1, length_app, Nat.add_1_r.
    now rewrite <- app_assoc. }
  rewrite Hname. clear Hname.
  set (log := (project_dir (world e) ++ ["logs"]) ++ _).
  apply (fs_apply_mkdir log) in Hf1.
  apply wp_bind, wp_fs_call.
  { intros e2 text Hw2 _ _ Hf2 _.
    split; [congruence|]. split; [now rewrite Hf2|discriminate]. }
  intros e2 Hw2 _ Hl2 Hf2 Ht2.
  apply fs_apply_append in Hf2 as [Ha2 Hfile2].
  apply wp_bind, wp_modify.
  eapply wp_mono; [apply (log_lines_spec _ _ log); reflexivity|].
  intros r e3 (-> & Hw3 & Hl3 & Ha3). cbn [with_log_file world fs] in Hw3, Ha3.
  split; [congruence|].
  assert (appends_only log (fs e) (fs e3)) as Ha
    by (eapply appends_only_trans; [|exact Ha3];
        eapply appends_only_trans; eassumption).
  split; [exact Ha|]. intros _. split; [exact Hl3|].
  eapply is_file_appends_only; [exact Ha3|exact Hfile2].
Qed.

(** ** cmake_error_logger.py *)

Section CmakeLog.
Import CmakeErrorLogger.

Lemma returns_lift {A} (m : M Env A) (Q : Res A -> Env -> Prop) e :
  wp m Q e -> returns (lift m) Q e.
Proof. unfold returns, lift, wp. now destruct (m e). Qed.

Lemma returns_bind {A B} (m : P A) (k : A -> P B) (Q : Res B -> Env -> Prop) e :
  returns m (fun r e' => match r with
                         | Ret a => returns (k a) Q e'
                         | Raise ex => Q (Raise ex) e'
                         end) e ->
  returns (bindP m k) Q e.
Proof.
  unfold returns, bindP. destruct (m e) as [[[a|ex] e']|]; exact id.
Qed.

Lemma returns_mono {A} (m : P A) (Q Q' : Res A -> Env -> Prop) e :
  returns m Q e -> (forall r e', Q r e' -> Q' r e') -> returns m Q' e.
Proof.
  unfold returns. destruct (m e) as [[r e']|]; [|exact (fun H _ => H)].
  intros H HQ. now apply HQ.
Qed.

(** The state of the run once the log file [log] is open: the world is
    [w], the files that [f0] held beside [log] are as they were, and
    [log] is a file. *)
Variables (w : World) (f0 : gmap path node) (log : path).
Hypothesis never : never_hangs w.

Let Inv (e : Env) : Prop :=
  world e = w /\ keeps_other_files log f0 (fs e) /\ is_file (fs e) log.

Let preserves {A} (m : P A) : Prop :=
  forall e, Inv e -> returns m (fun _ e' => Inv e') e.

Lemma preserves_bind {A B} (m : P A) (k : A -> P B) :
  preserves m -> (forall a, preserves (k a)) -> preserves (bindP m k).
Proof.
  intros Hm Hk e He. apply returns_bind.
  eapply returns_mono; [apply (Hm e He)|].
  intros [a|ex] e' He'; [now apply Hk|exact He'].
Qed.

Lemma preserves_try_except {A} (body : P A) handler :
  preserves body ->
  (forall ex h, handler ex = Some h -> preserves h) ->
  preserves (try_exceptP body handler).
Proof.
  intros Hb Hh e He. specialize (Hb e He).
  unfold returns, try_exceptP in *.
  destruct (body e) as [[[a|ex] e']|]; [exact Hb| |exact Hb].
  destruct (handler ex) as [h|] eqn:E; [|exact Hb].
  exact (Hh ex h E e' Hb).
Qed.

Lemma preserves_when (b : bool) (m : P unit) :
  preserves m -> preserves (whenP b m).
Proof.
  intros Hm. destruct b; [exact Hm|]. intros e He. exact He.
Qed.

Lemma preserves_get : preserves (lift get).
Proof. intros e He. exact He. Qed.

Lemma preserves_f_write data : preserves (f_write log data).
Proof.
  intros e (Hw & Hk & Hf). apply returns_lift, wp_fs_call.
  - intros e' text Hw' _ _ Hfs _. unfold Inv. rewrite Hw', Hfs. auto.
  - intros e' Hw' _ _ Hfs _. apply fs_apply_append in Hfs as [[Ha _] Hfile].
    split; [congruence|]. split; [|exact Hfile].
    eapply keeps_other_files_trans; eassumption.
Qed.

Lemma preserves_console_print text : preserves (lift (console_print text)).
Proof.
  intros e (Hw & Hk & Hf). apply returns_lift, wp_console_print.
  intros e' Hw' _ _ Hfs _. unfold Inv. rewrite Hw', Hfs. auto.
Qed.

Lemma preserves_subprocess_run cmd : preserves (subprocess_run cmd).
Proof using never.
  intros e (Hw & Hk & Hf). unfold returns, subprocess_run. cbv zeta.
  rewrite Hw.
  destruct (behaviour w (length (spawned (trace e))) cmd) eqn:E;
    cbn [run_unbounded]; try (split; [exact Hw|split; assumption]).
  now apply never in E.
Qed.

Lemma preserves_run_and_log label cmd : preserves (run_and_log log label cmd).
Proof using never.
  unfold run_and_log. apply preserves_try_except.
  - repeat first
      [ apply preserves_bind; [|intros ?]
      | apply preserves_when
      | apply preserves_f_write
      | apply preserves_subprocess_run ].
  - intros ex h Hh. destruct (is_Exception ex); [|discriminate Hh].
    injection Hh as <-. apply preserves_f_write.
Qed.

End CmakeLog.

(** A run of [cmake_error_logger.py] in which no program hangs comes back;
    it names its log file after the clock reading taken once [logs/] is
    there, and leaves every other file as it was.  When it ends without an
    exception the log file exists. *)
Lemma run_full_cmake_build_and_log_errors_spec e :
  never_hangs (world e) ->
  returns CmakeErrorLogger.run_full_cmake_build_and_log_errors
    (fun r e' =>
       let log := CmakeErrorLogger.log_file_at (world e)
                    (clock (world e) (S (length (trace e)))) in
       world e' = world e /\
       keeps_other_files log (fs e) (fs e') /\
       (r = Ret tt -> is_file (fs e') log))
    e.
Proof.
  intros Hnever. unfold CmakeErrorLogger.run_full_cmake_build_and_log_errors.
  cbv zeta.
  apply returns_bind, returns_lift, wp_get.
  apply returns_bind, returns_lift, wp_fs_call.
  { intros e1 text Hw _ _ Hf _. split; [exact Hw|].
    split; [rewrite Hf; now intros p c _ H|discriminate]. }
  intros e1 Hw1 _ _ Hf1 Ht1.
  apply returns_bind, returns_lift, wp_get.
  assert (now e1 = clock (world e) (S (length (trace e)))) as Hnow
    by (unfold now; now rewrite Hw1, Ht1, length_app, Nat.add_1_r).
  rewrite Hnow, Hw1. clear Hnow.
  set (log := CmakeErrorLogger.log_file_at (world e) _).
  apply (fs_apply_mkdir log) in Hf1 as [Hk1 _].
  apply returns_bind, returns_lift, wp_fs_call.
  { intros e2 text Hw2 _ _ Hf2 _. split; [congruence|].
    split; [now rewrite Hf2|discriminate]. }
  intros e2 Hw2 _ _ Hf2 Ht2.
  apply fs_apply_write_text in Hf2 as [Hk2 Hfile].
  assert (world e2 = world e /\ keeps_other_files log (fs e) (fs e2) /\
          is_file (fs e2) log) as Hinv.
  { split; [congruence|]. split; [|eexists; exact Hfile].
    eapply keeps_other_files_trans; eassumption. }
  eapply returns_mono.
  - clear Hw2 Ht2 Hk2 Hfile. revert e2 Hinv.
    repeat first
      [ apply (preserves_bind (world e) (fs e) log); [|intros ?]
      | apply (preserves_get (world e) (fs e) log)
      | apply (preserves_f_write (world e) (fs e) log)
      | apply (preserves_run_and_log (world e) (fs e) log Hnever)
      | apply (preserves_console_print (world e) (fs e) log) ].
  - intros r e3 (Hw3 & Hk3 & Hf3). cbv beta.
    split; [exact Hw3|]. split; [exact Hk3|]. intros _. exact Hf3.
Qed.

(* ================================================================== *)
(** * C8: the log files of two runs *)
(* ================================================================== *)

Lemma log_name_same_second prefix project t1 t2 :
  Clock.valid t1 -> Clock.valid t2 ->
  log_name prefix project t1 = log_name prefix project t2
  <-> Clock.same_second t1 t2.
Proof.
  intros V1 V2. split; [now apply log_name_inj|].
  intros H. unfold log_name. now rewrite (strftime_stamp_same_second _ _ H).
Qed.

(** A process that sets up logging in front of the files [f]. *)
Lemma setup_logging_boot (prefix : string) (banner : path -> path -> list string)
    (w : World) (f : gmap path node) :
  let run := Builder.setup_logging prefix banner (boot w f) in
  let log := log_name prefix (project_dir w) (start_reading w) in
  (run.1 = Ret tt -> log_file run.2 = Some log /\ is_file (fs run.2) log) /\
  appends_only log f (fs run.2).
Proof.
  destruct (setup_logging_spec prefix banner (boot w f)) as (_ & Ha & Hr).
  split; [exact Hr|exact Ha].
Qed.

Lemma logging_setups_inv prefix setup :
  (prefix, setup) ∈ logging_setups ->
  exists banner, setup = Builder.setup_logging prefix banner.
Proof.
  unfold logging_setups. intros H.
  repeat (apply elem_of_cons in H as [[= -> ->]|H]; [eexists; reflexivity|]).
  now apply elem_of_nil in H.
Qed.

(** Two runs of [cmake_error_logger.py] within one second: the first
    finds [cmake] failing, the second finds no [cmake] at all.  The second
    run opens the log file of the first and truncates it. *)
Lemma cmake_logger_truncates_within_a_second :
  match CmakeErrorLogger.run_full_cmake_build_and_log_errors
          (boot (SampleLogs.cmake_error Sample.noon) SampleLogs.project_only) with
  | Some (Ret _, e1) =>
      match CmakeErrorLogger.run_full_cmake_build_and_log_errors
              (boot (SampleLogs.no_cmake Sample.noon) (fs e1)) with
      | Some (Ret _, e2) =>
          match fs e1 !! SampleLogs.log, fs e2 !! SampleLogs.log with
          | Some (File c1), Some (File c2) => Text.is_prefix c1 c2 = false
          | _, _ => False
          end
      | _ => False
      end
  | _ => False
  end.
Proof. vm_compute. reflexivity. Qed.

(** C8, as stated, fails: the time stamp in the name of a log file has a
    resolution of one second.  Two consecutive runs of
    [cmake_error_logger.py] that read the clock within the same second
    (here the second run finds no [cmake] and ends at once) name the same
    file, and the second, opening it with mode ['w'], overwrites what the
    first wrote. *)
Lemma runs_within_a_second_share_a_log :
  ~ (forall (w1 w2 : World) (f : gmap path node),
       match CmakeErrorLogger.run_full_cmake_build_and_log_errors (boot w1 f) with
       | Some (_, e1) =>
           match CmakeErrorLogger.run_full_cmake_build_and_log_errors
                   (boot w2 (fs e1)) with
           | Some (_, e2) =>
               CmakeErrorLogger.log_file_at w1 (start_reading w1)
               <> CmakeErrorLogger.log_file_at w2 (start_reading w2)
               /\ fs e2 !! CmakeErrorLogger.log_file_at w1 (start_reading w1)
                  = fs e1 !! CmakeErrorLogger.log_file_at w1 (start_reading w1)
           | None => True
           end
       | None => True
       end).
Proof.
  intros H.
  specialize (H (SampleLogs.cmake_error Sample.noon)
                (SampleLogs.no_cmake Sample.noon) SampleLogs.project_only).
  revert H. vm_compute. intros [_ H]. discriminate H.
Qed.

(** C8, amended.  A run names its log file
    [logs/<prefix>_<YYYYMMDD_HHMMSS>.log] after the clock reading it takes
    at start; for readings in the range of a clock, two runs have the same
    log file exactly when they read the clock within the same second.
    Setting up logging in one of the four builder classes, and every log
    record written afterwards, only appends to the log file of the run and
    changes no other file; a run of [cmake_error_logger.py] in which no
    program hangs comes back, having changed no file but its own log file.
    So a run that starts in another second than an earlier run leaves the
    log file of the earlier run as it was. *)
Theorem log_files_of_two_runs
    (prefix : string) (setup : M Env unit) (w1 w2 : World)
    (f1 f2 : gmap path node) :
  (prefix, setup) ∈ logging_setups ->
  project_dir w1 = project_dir w2 -> cwd w1 = cwd w2 ->
  Clock.valid (start_reading w1) -> Clock.valid (start_reading w2) ->
  never_hangs w2 ->
  let t1 := start_reading w1 in
  let t2 := start_reading w2 in
  let log1 := log_name prefix (project_dir w1) t1 in
  let log2 := log_name prefix (project_dir w2) t2 in
  let clog1 := CmakeErrorLogger.log_file_at w1 t1 in
  let clog2 := CmakeErrorLogger.log_file_at w2 t2 in
  (log1 = log2 <-> Clock.same_second t1 t2) /\
  (clog1 = clog2 <-> Clock.same_second t1 t2) /\
  ((setup (boot w1 f1)).1 = Ret tt ->
   log_file (setup (boot w1 f1)).2 = Some log1 /\
   is_file (fs (setup (boot w1 f1)).2) log1) /\
  ((setup (boot w2 f2)).1 = Ret tt ->
   log_file (setup (boot w2 f2)).2 = Some log2 /\
   is_file (fs (setup (boot w2 f2)).2) log2) /\
  appends_only log2 f2 (fs (setup (boot w2 f2)).2) /\
  (forall e lvl msg,
     log_file e = Some log2 ->
     appends_only log2 (fs e) (fs (logger lvl msg e).2)) /\
  (~ Clock.same_second t1 t2 ->
   forall c, f2 !! log1 = Some (File c) ->
             fs (setup (boot w2 f2)).2 !! log1 = Some (File c)) /\
  returns CmakeErrorLogger.run_full_cmake_build_and_log_errors
    (fun r e' =>
       keeps_other_files clog2 f2 (fs e') /\
       (r = Ret tt -> is_file (fs e') clog2) /\
       (~ Clock.same_second t1 t2 ->
        forall c, f2 !! clog1 = Some (File c) ->
                  fs e' !! clog1 = Some (File c)))
    (boot w2 f2).
Proof.
  intros Hin Hproj Hcwd V1 V2 Hnever. cbv zeta.
  apply logging_setups_inv in Hin as [banner ->].
  assert (log_name prefix (project_dir w1) (start_reading w1)
          = log_name prefix (project_dir w2) (start_reading w2)
          <-> Clock.same_second (start_reading w1) (start_reading w2)) as Hlog
    by (rewrite Hproj; now apply log_name_same_second).
  assert (CmakeErrorLogger.log_file_at w1 (start_reading w1)
          = CmakeErrorLogger.log_file_at w2 (start_reading w2)
          <-> Clock.same_second (start_reading w1) (start_reading w2)) as Hclog.
  { unfold CmakeErrorLogger.log_file_at. rewrite Hcwd.
    apply (log_name_same_second "cmake_build_errors" (cwd w2)); assumption. }
  destruct (setup_logging_boot prefix banner w1 f1) as [Hr1 _].
  destruct (setup_logging_boot prefix banner w2 f2) as [Hr2 Ha2].
  split; [exact Hlog|]. split; [exact Hclog|].
  split; [exact Hr1|]. split; [exact Hr2|]. split; [exact Ha2|].
  split; [|split].
  - intros e lvl msg Hl.
    now destruct (logger_fs lvl msg e _ Hl) as (_ & _ & _ & H).
  - intros Hsec c Hc. apply (proj1 Ha2); [|exact Hc].
    intros E. now apply Hsec, Hlog.
  - eapply returns_mono;
      [apply (run_full_cmake_build_and_log_errors_spec (boot w2 f2) Hnever)|].
    intros r e' (_ & Hk & Hf). cbn [boot world fs trace length] in Hk, Hf.
    split; [exact Hk|]. split; [exact Hf|].
    intros Hsec c Hc. apply Hk; [|exact Hc].
    intros E. now apply Hsec, Hclog.
Qed.

Lemma log_files_of_two_runs_witness :
  log_name "build_linux" Sample.project Sample.noon
  <> log_name "build_linux" Sample.project SampleLogs.a_second_later
  /\ is_file
       (fs (BuildLinux.setup_logging
              (boot (SampleLogs.no_cmake SampleLogs.a_second_later)
                    SampleLogs.project_only)).2)
       (log_name "build_linux" Sample.project SampleLogs.a_second_later).
Proof.
  pose proof (log_files_of_two_runs "build_linux" BuildLinux.setup_logging
                (SampleLogs.no_cmake Sample.noon)
                (SampleLogs.no_cmake SampleLogs.a_second_later)
                SampleLogs.project_only SampleLogs.project_only
                ltac:(apply elem_of_cons; now left) eq_refl eq_refl
                ltac:(vm_compute; repeat split; discriminate)
                ltac:(vm_compute; repeat split; discriminate)
                ltac:(intros n cmd; discriminate))
    as (Hlog & _ & _ & Hr2 & _).
  split.
  - intros E. apply Hlog in E. destruct E as (_ & _ & _ & _ & _ & E).
    discriminate E.
  - apply Hr2. vm_compute. reflexivity.
Defined.

(* ================================================================== *)
(** * Further properties: the executors and the steps that use them *)
(* ================================================================== *)

(** ** The count of errors *)

Lemma linux_run_command_stats cmd cwd capture timeout e :
  wp (BuildLinux.run_command cmd cwd capture timeout)
     (fun r e' => stats e' = stats e)
     e.
Proof.
  unfold BuildLinux.run_command.
  wp_steps.
  assert (forall Q : Res unit -> Env -> Prop,
            (forall e', stats e' = stats e -> Q (Ret tt) e') ->
            wp (match cwd with
                | Some d => logger INFO ("Working directory: " +:+ Os.str d)
                | None => ret tt
                end) Q e') as Hcwd.
  { intros Q HQ. destruct cwd as [d|]; wp_steps; apply HQ; now chase. }
  apply Hcwd. clear Hcwd. intros e2 Hs2. wp_step.
  destruct capture; wp_steps;
    (match goal with
     | |- context [Os.run cmd ?b _ _ timeout] =>
         destruct b as [d rc out err| |text|]; cbn [Os.run]
     end;
     [destruct (timeout <? d)%N|..]);
    cbn [completed stream Os.stdout Os.stderr Os.returncode strip_stream];
    wp_steps;
    repeat (match goal with
            | |- if ?b then _ else _ => destruct b
            | |- wp (if ?b then _ else _) _ _ => destruct b
            end; wp_steps).
  all: chase; rewrite ?Hs2; reflexivity.
Qed.

(** X1. The executors of [LinuxBuilder], [Qt6Builder] and
    [UbuntuEnvironmentSetup] add one to [total_errors] exactly when they
    answer failure (a command that exits with a code other than 0, a
    timeout, a launch that fails) and change no other statistic; the
    executor of [LinuxQt6Builder] never changes the statistics. *)
Theorem failed_commands_are_counted
    (running : string) (cmd : list string) (description : string)
    (cwd : option path) (capture : bool) (timeout : N) (e : Env) :
  match (run_command_rich running cmd description cwd timeout e).1 with
  | Ret (true, _, _) =>
      stats (run_command_rich running cmd description cwd timeout e).2 = stats e
  | Ret (false, _, _) =>
      total_errors (stats (run_command_rich running cmd description cwd timeout e).2)
      = total_errors (stats e) + 1 /\
      stats (run_command_rich running cmd description cwd timeout e).2
      = set_total_errors (total_errors (stats e) + 1) (stats e)
  | Raise _ =>
      stats (run_command_rich running cmd description cwd timeout e).2 = stats e
  end
  /\ stats (BuildLinux.run_command cmd cwd capture timeout e).2 = stats e.
Proof.
  split; [|exact (linux_run_command_stats cmd cwd capture timeout e)].
  pose proof (rich_run_command_stats running cmd description cwd timeout e) as H.
  unfold wp in H.
  destruct (run_command_rich running cmd description cwd timeout e).1
    as [[[[|] out] err]|ex]; [exact H| |exact H].
  split; [|exact H]. now rewrite H.
Qed.

(** ** [check_sudo_access] and [update_package_lists] of build_linux.py *)

(** X2. [check_sudo_access] launches [sudo -n true] with five seconds of
    timeout and nothing else: it answers [True] when [sudo] exits with 0
    in time, [False] when it exits with another code or runs out of time;
    when [sudo] cannot be launched the exception is not caught here, and
    neither is an interrupt. *)
Theorem sudo_check_outcomes (e : Env) :
  (LinuxQt6Builder.check_sudo_access e).1
  = match next_behaviour e ["sudo"; "-n"; "true"] with
    | Exits d rc _ _ => if (5 <? d)%N then Ret false else Ret (rc =? 0)
    | Hangs => Ret false
    | Fails text => Raise (Exception text)
    | Interrupted => Raise KeyboardInterrupt
    end
  /\ trace (LinuxQt6Builder.check_sudo_access e).2
     = trace e ++ [Spawn ["sudo"; "-n"; "true"] None true (Some 5%N)]
  /\ stats (LinuxQt6Builder.check_sudo_access e).2 = stats e
  /\ fs (LinuxQt6Builder.check_sudo_access e).2 = fs e.
Proof.
  change (wp LinuxQt6Builder.check_sudo_access
            (fun r e' =>
               r = match next_behaviour e ["sudo"; "-n"; "true"] with
                   | Exits d rc _ _ => if (5 <? d)%N then Ret false else Ret (rc =? 0)
                   | Hangs => Ret false
                   | Fails text => Raise (Exception text)
                   | Interrupted => Raise KeyboardInterrupt
                   end
               /\ trace e' = trace e ++ [Spawn ["sudo"; "-n"; "true"] None true (Some 5%N)]
               /\ stats e' = stats e /\ fs e' = fs e) e).
  unfold LinuxQt6Builder.check_sudo_access. wp_steps.
  destruct (next_behaviour e ["sudo"; "-n"; "true"]) as [d rc out err| |text|];
    cbn [Os.run]; [destruct (5 <? d)%N|..]; cbv beta iota; wp_steps;
    repeat split; assumption.
Qed.

(** What [LinuxQt6Builder.run_command] shows and keeps: nothing is
    printed, the statistics stay. *)
Lemma linux_run_command_quiet cmd cwd capture timeout e :
  wp (BuildLinux.run_command cmd cwd capture timeout)
     (fun r e' => printed (trace e') = printed (trace e) /\ stats e' = stats e)
     e.
Proof.
  unfold BuildLinux.run_command.
  wp_steps.
  assert (forall Q : Res unit -> Env -> Prop,
            (forall e', printed (trace e') = printed (trace e) ->
                        stats e' = stats e -> Q (Ret tt) e') ->
            wp (match cwd with
                | Some d => logger INFO ("Working directory: " +:+ Os.str d)
                | None => ret tt
                end) Q e') as Hcwd.
  { intros Q HQ. destruct cwd as [d|]; wp_steps; apply HQ; now chase. }
  apply Hcwd. clear Hcwd. intros e2 Hp2 Hs2. wp_step.
  destruct capture; wp_steps;
    (match goal with
     | |- context [Os.run cmd ?b _ _ timeout] =>
         destruct b as [d rc out err| |text|]; cbn [Os.run]
     end;
     [destruct (timeout <? d)%N|..]);
    cbn [completed stream Os.stdout Os.stderr Os.returncode strip_stream];
    wp_steps;
    repeat (match goal with
            | |- if ?b then _ else _ => destruct b
            | |- wp (if ?b then _ else _) _ _ => destruct b
            end; wp_steps).
  all: chase; rewrite ?Hp2, ?Hs2; split; reflexivity.
Qed.

Lemma update_package_lists_spec e :
  wp LinuxQt6Builder.update_package_lists
     (fun r e' =>
        let answer := linux_answer (next_behaviour e ["sudo"; "apt"; "update"])
                        false 120 in
        match answer with
        | Ret (true, _, _) =>
            r = Ret true /\
            printed (trace e')
            = printed (trace e)
              ++ ["[bold yellow]📦 Updating package lists...[/bold yellow]";
                  "[green]✓ Package lists updated successfully[/green]"]
        | Ret (false, _, err) =>
            r = Ret false /\
            printed (trace e')
            = printed (trace e)
              ++ ["[bold yellow]📦 Updating package lists...[/bold yellow]";
                  "[red]✗ Failed to update package lists: " +:+ err +:+ "[/red]"]
        | Raise ex => r = Raise ex
        end /\
        spawned (trace e') = spawned (trace e) ++ [["sudo"; "apt"; "update"]])
     e.
Proof.
  unfold LinuxQt6Builder.update_package_lists. wp_steps.
  eapply wp_mono;
    [apply wp_conj; [apply linux_run_command_spec|apply linux_run_command_quiet]|].
  cbv beta.
  intros r e1 ((Hr & Hw & Hs & Hf) & Hp & Hst).
  rewrite (next_behaviour_quiet e) in Hr by now chase.
  cbv zeta. rewrite <- Hr.
  destruct r as [[[[|] out] err]|ex]; cbn [fst snd]; wp_steps.
  - split; [split; [reflexivity|]|]; chase; rewrite ?Hp, ?Hs; now chase.
  - split; [split; [reflexivity|]|]; chase; rewrite ?Hp, ?Hs; now chase.
  - chase; rewrite ?Hs; now chase.
Qed.

(** X3. [update_package_lists] launches [sudo apt update] once and answers
    [True] exactly when it exits with 0 within 120 seconds.  When [apt]
    exits with another code, the line that reports the failure carries no
    detail: the executor was called without capture, so what [apt] wrote
    to stderr is not in it. *)
Theorem apt_update_outcome (e : Env) :
  ((LinuxQt6Builder.update_package_lists e).1 = Ret true
   <-> exists d out err,
         next_behaviour e ["sudo"; "apt"; "update"] = Exits d 0 out err /\
         (d <= 120)%N)
  /\ (forall d rc out err,
        next_behaviour e ["sudo"; "apt"; "update"] = Exits d rc out err ->
        (d <= 120)%N -> rc <> 0 ->
        (LinuxQt6Builder.update_package_lists e).1 = Ret false /\
        printed (trace (LinuxQt6Builder.update_package_lists e).2)
        = printed (trace e)
          ++ ["[bold yellow]📦 Updating package lists...[/bold yellow]";
              "[red]✗ Failed to update package lists: [/red]"])
  /\ spawned (trace (LinuxQt6Builder.update_package_lists e).2)
     = spawned (trace e) ++ [["sudo"; "apt"; "update"]].
Proof.
  pose proof (update_package_lists_spec e) as [H Hs]. cbv zeta in H.
  split; [|split; [|exact Hs]].
  - destruct (next_behaviour e ["sudo"; "apt"; "update"])
      as [d rc out err| |text|] eqn:E; cbn [linux_answer] in H.
    + destruct (120 <? d)%N eqn:Ed.
      * destruct H as [-> _]. split; [discriminate|].
        intros (d' & out' & err' & [= -> _ _ _] & Hd).
        apply N.ltb_lt in Ed. lia.
      * apply N.ltb_ge in Ed. destruct (rc =? 0) eqn:Erc; destruct H as [-> _].
        -- apply Z.eqb_eq in Erc. subst rc. split; [intros _|reflexivity].
           now exists d, out, err.
        -- split; [discriminate|].
           intros (d' & out' & err' & [= _ -> _ _] & _). discriminate Erc.
    + destruct H as [-> _]. split; [discriminate|].
      now intros (d' & out' & err' & [=] & _).
    + destruct H as [-> _]. split; [discriminate|].
      now intros (d' & out' & err' & [=] & _).
    + rewrite H. split; [discriminate|].
      now intros (d' & out' & err' & [=] & _).
  - intros d rc out err E Hd Hrc. rewrite E in H. cbn [linux_answer] in H.
    apply N.ltb_ge in Hd. rewrite Hd in H.
    apply Z.eqb_neq in Hrc. rewrite Hrc in H. exact H.
Qed.

Lemma apt_update_outcome_witness :
  (LinuxQt6Builder.update_package_lists (boot SampleSteps.apt_locked ∅)).1
  = Ret false
  /\ printed (trace (LinuxQt6Builder.update_package_lists
                       (boot SampleSteps.apt_locked ∅)).2)
     = ["[bold yellow]📦 Updating package lists...[/bold yellow]";
        "[red]✗ Failed to update package lists: [/red]"].
Proof.
  apply (proj1 (proj2 (apt_update_outcome (boot SampleSteps.apt_locked ∅)))
           3%N 100 "" "E: Could not get lock /var/lib/apt/lists/lock");
    [reflexivity|vm_compute; discriminate|discriminate].
Defined.

(** ** [verify_prerequisites] *)

(** The program launched next is the one that would have been launched
    from [e]: nothing was launched in between. *)
Ltac quiet_next e H :=
  match type of H with
  | context [next_behaviour ?x ?c] =>
      let Hnext := fresh "Hnext" in
      assert (next_behaviour x c = next_behaviour e c) as Hnext
        by (apply next_behaviour_quiet; now chase);
      rewrite Hnext in H; clear Hnext
  end.

(** The flag of the table: every check passed. *)
Lemma check_rows_all checks :
  (Cleaning.check_rows checks).2 = forallb (fun c => c.1.2) checks.
Proof.
  induction checks as [|[[name status] details] checks IH]; [reflexivity|].
  cbn [Cleaning.check_rows forallb fst snd]. destruct status; [exact IH|reflexivity].
Qed.

Lemma qt6_verify_prerequisites_spec e :
  wp Qt6Builder.verify_prerequisites
     (fun r e' =>
        spawned (trace e') = spawned (trace e) ++ [["cmake"; "--version"]] /\
        match rich_answer (next_behaviour e ["cmake"; "--version"]) 300 with
        | Ret (cmake_ok, _, _) =>
            r = Ret (Os.exists_ (fs e) (project_dir (world e) ++ ["CMakeLists.txt"])
                     && cmake_ok)
        | Raise ex => r = Raise ex
        end)
     e.
Proof.
  unfold Qt6Builder.verify_prerequisites. wp_steps.
  assert (Os.exists_ (fs e') (project_dir (world e') ++ ["CMakeLists.txt"])
          = Os.exists_ (fs e) (project_dir (world e) ++ ["CMakeLists.txt"])) as ->
    by now chase.
  destruct (Os.exists_ (fs e) (project_dir (world e) ++ ["CMakeLists.txt"]));
    wp_steps; unfold BuildQt6.run_command;
    (eapply wp_mono; [apply rich_run_command_spec|]);
    intros r e2 (Hr & Hw & Hs & _);
    quiet_next e Hr;
    rewrite <- Hr;
    (destruct r as [[[[|] out] err]|ex]; cbn [fst snd Cleaning.check_rows negb];
     wp_steps; (split; [now chase|reflexivity])).
Qed.

Lemma linux_verify_prerequisites_spec e :
  wp LinuxBuilder.verify_prerequisites
     (fun r e' =>
        match rich_answer (next_behaviour e ["cmake"; "--version"]) 300 with
        | Ret (cmake_ok, _, _) =>
            spawned (trace e')
            = spawned (trace e) ++ [["cmake"; "--version"]; ["g++"; "--version"]] /\
            match rich_answer
                    (behaviour (world e) (S (length (spawned (trace e))))
                       ["g++"; "--version"]) 300 with
            | Ret (gcc_ok, _, _) =>
                r = Ret (Os.exists_ (fs e) (project_dir (world e) ++ ["CMakeLists.txt"])
                         && cmake_ok && gcc_ok)
            | Raise ex => r = Raise ex
            end
        | Raise ex =>
            spawned (trace e') = spawned (trace e) ++ [["cmake"; "--version"]] /\
            r = Raise ex
        end)
     e.
Proof.
  unfold LinuxBuilder.verify_prerequisites. wp_steps.
  assert (Os.exists_ (fs e') (project_dir (world e') ++ ["CMakeLists.txt"])
          = Os.exists_ (fs e) (project_dir (world e) ++ ["CMakeLists.txt"])) as ->
    by now chase.
  destruct (Os.exists_ (fs e) (project_dir (world e) ++ ["CMakeLists.txt"]));
    wp_steps; unfold AllInOne.run_command;
    (eapply wp_mono; [apply rich_run_command_spec|]);
    intros r e2 (Hr & Hw & Hs & _);
    quiet_next e Hr;
    rewrite <- Hr;
    (destruct r as [[[cmake_ok out] err]|ex]; cbn [fst snd];
     [|split; [now chase|reflexivity]]);
    wp_steps;
    (eapply wp_mono; [apply rich_run_command_spec|]);
    intros r' e3 (Hr' & Hw' & Hs' & _);
    (assert (next_behaviour e2 ["g++"; "--version"]
             = behaviour (world e) (S (length (spawned (trace e))))
                 ["g++"; "--version"]) as Hnext
       by (unfold next_behaviour; chase;
           rewrite length_app, Nat.add_1_r; reflexivity));
    rewrite Hnext in Hr'; rewrite <- Hr';
    (destruct r' as [[[gcc_ok out'] err']|ex]; cbn [fst snd];
     [|split; [now chase|reflexivity]]);
    destruct cmake_ok, gcc_ok; cbn [fst snd Cleaning.check_rows negb andb];
    wp_steps; (split; [now chase|reflexivity]).
Qed.

(** X4. [verify_prerequisites] runs every check, whatever the earlier ones
    found: [Qt6Builder] launches [cmake --version] even when
    [CMakeLists.txt] is missing, [LinuxBuilder] launches [g++ --version]
    even when [cmake] is missing; each answers [True] exactly when the
    file exists and every command succeeds within its 300 seconds. *)
Theorem prerequisites_are_all_checked (e : Env) :
  (spawned (trace (Qt6Builder.verify_prerequisites e).2)
   = spawned (trace e) ++ [["cmake"; "--version"]] /\
   match rich_answer (next_behaviour e ["cmake"; "--version"]) 300 with
   | Ret (cmake_ok, _, _) =>
       (Qt6Builder.verify_prerequisites e).1
       = Ret (Os.exists_ (fs e) (project_dir (world e) ++ ["CMakeLists.txt"])
              && cmake_ok)
   | Raise ex => (Qt6Builder.verify_prerequisites e).1 = Raise ex
   end)
  /\
  match rich_answer (next_behaviour e ["cmake"; "--version"]) 300 with
  | Ret (cmake_ok, _, _) =>
      spawned (trace (LinuxBuilder.verify_prerequisites e).2)
      = spawned (trace e) ++ [["cmake"; "--version"]; ["g++"; "--version"]] /\
      match rich_answer
              (behaviour (world e) (S (length (spawned (trace e))))
                 ["g++"; "--version"]) 300 with
      | Ret (gcc_ok, _, _) =>
          (LinuxBuilder.verify_prerequisites e).1
          = Ret (Os.exists_ (fs e) (project_dir (world e) ++ ["CMakeLists.txt"])
                 && cmake_ok && gcc_ok)
      | Raise ex => (LinuxBuilder.verify_prerequisites e).1 = Raise ex
      end
  | Raise ex =>
      spawned (trace (LinuxBuilder.verify_prerequisites e).2)
      = spawned (trace e) ++ [["cmake"; "--version"]] /\
      (LinuxBuilder.verify_prerequisites e).1 = Raise ex
  end.
Proof.
  split.
  - exact (qt6_verify_prerequisites_spec e).
  - exact (linux_verify_prerequisites_spec e).
Qed.

(** ** [configure_cmake] of build_linux_all_in_one.py *)

Lemma find_qt6_quiet paths qt6_path e :
  wp (AllInOne.find_qt6 paths qt6_path)
     (fun r e' => (exists p, r = Ret p) /\ world e' = world e /\
                  stats e' = stats e /\
                  spawned (trace e') = spawned (trace e))
     e.
Proof.
  induction paths as [|p paths IH]; cbn [AllInOne.find_qt6].
  - wp_steps. eauto.
  - wp_branches; [|exact IH]. split; [eauto|]. repeat split; now chase.
Qed.

Lemma configure_cmake_outcome_spec e :
  wp AllInOne.configure_cmake
     (fun r e' =>
        exists qt6_path,
          let args := AllInOne.cmake_args qt6_path (project_dir (world e)) in
          match rich_answer (next_behaviour e args) 600 with
          | Ret (true, _, _) =>
              r = Ret true /\ cmake_successful (stats e') = true /\
              total_errors (stats e') = total_errors (stats e)
          | Ret (false, _, _) =>
              match rich_answer
                      (behaviour (world e) (S (length (spawned (trace e))))
                         (<[2%nat := "Ninja"]> args)) 600 with
              | Ret (true, _, _) =>
                  r = Ret true /\ cmake_successful (stats e') = true /\
                  total_errors (stats e') = total_errors (stats e) + 1
              | Ret (false, _, _) =>
                  r = Ret false /\
                  cmake_successful (stats e') = cmake_successful (stats e) /\
                  total_errors (stats e') = total_errors (stats e) + 2
              | Raise ex => r = Raise ex
              end
          | Raise ex => r = Raise ex
          end)
     e.
Proof.
  unfold AllInOne.configure_cmake. wp_steps.
  eapply wp_mono; [apply find_qt6_quiet|].
  intros r1 e1 ([qt6_path ->] & Hw1 & Hst1 & Hs1). cbv beta iota. wp_steps.
  cbv zeta.
  assert (project_dir (world e1) = project_dir (world e)) as -> by now chase.
  unfold AllInOne.run_command.
  eapply wp_mono;
    [apply wp_conj; [apply rich_run_command_spec|apply rich_run_command_stats]|].
  cbv beta. intros res e2 ((Hres & Hw2 & Hs2 & _) & Hst2).
  quiet_next e Hres.
  destruct res as [[[[|] out] err]|ex]; cbn [fst snd].
  - wp_steps. exists qt6_path. cbv zeta. rewrite <- Hres.
    split; [reflexivity|]. chase.
    split; reflexivity.
  - wp_steps.
    eapply wp_mono;
      [apply wp_conj; [apply rich_run_command_spec|apply rich_run_command_stats]|].
    cbv beta. intros res e5 ((Hres5 & Hw5 & Hs5 & _) & Hst5).
    match type of Hres5 with
    | context [next_behaviour ?x ?c] =>
        assert (next_behaviour x c
                = behaviour (world e) (S (length (spawned (trace e)))) c) as Hnext
          by (unfold next_behaviour; chase;
              rewrite length_app, Nat.add_1_r; reflexivity)
    end.
    rewrite Hnext in Hres5.
    destruct res as [[[[|] out'] err']|ex]; cbn [fst snd]; wp_steps;
      exists qt6_path; cbv zeta; rewrite <- Hres, <- Hres5.
    + split; [reflexivity|]. chase.
      split; reflexivity.
    + split; [reflexivity|]. chase.
      cbn [cmake_successful total_errors set_total_errors]. split; [reflexivity|lia].
    + reflexivity.
  - exists qt6_path. cbv zeta. rewrite <- Hres. reflexivity.
Qed.

(** X5. [configure_cmake] of [LinuxBuilder] answers [True], and sets
    [cmake_successful], exactly when the first [cmake] run or, after its
    failure, the run with the Ninja generator succeeds within 600 seconds;
    every failed run adds one to [total_errors], so a configuration that
    succeeds only with Ninja still counts one error, and one that fails
    counts two and leaves [cmake_successful] as it was. *)
Theorem configure_cmake_outcome (e : Env) :
  exists qt6_path,
    let args := AllInOne.cmake_args qt6_path (project_dir (world e)) in
    let r := (AllInOne.configure_cmake e).1 in
    let e' := (AllInOne.configure_cmake e).2 in
    match rich_answer (next_behaviour e args) 600 with
    | Ret (true, _, _) =>
        r = Ret true /\ cmake_successful (stats e') = true /\
        total_errors (stats e') = total_errors (stats e)
    | Ret (false, _, _) =>
        match rich_answer
                (behaviour (world e) (S (length (spawned (trace e))))
                   (<[2%nat := "Ninja"]> args)) 600 with
        | Ret (true, _, _) =>
            r = Ret true /\ cmake_successful (stats e') = true /\
            total_errors (stats e') = total_errors (stats e) + 1
        | Ret (false, _, _) =>
            r = Ret false /\
            cmake_successful (stats e') = cmake_successful (stats e) /\
            total_errors (stats e') = total_errors (stats e) + 2
        | Raise ex => r = Raise ex
        end
    | Raise ex => r = Raise ex
    end.
Proof. exact (configure_cmake_outcome_spec e). Qed.

(** ** [install_python_rich] of setup_environment.py *)

Lemma settles_not_goes_on e k :
  pip_settles e k = true -> pip_goes_on e k = false.
Proof.
  unfold pip_settles, pip_goes_on, pip_installed, pip_failed.
  destruct (pip_answer e k) as [[[[|] out] err]|ex]; cbn [andb orb];
    try discriminate.
  destruct (2 <=? k)%nat eqn:E; cbn [orb].
  - intros _. apply Nat.leb_le in E.
    now replace (k <? 2)%nat with false by (symmetry; apply Nat.ltb_ge; lia).
  - intros ->. now rewrite andb_false_r.
Qed.

Lemma interrupted_attempt e k :
  pip_answer e k = Raise KeyboardInterrupt ->
  pip_settles e k = false /\ pip_goes_on e k = false.
Proof.
  unfold pip_settles, pip_goes_on, pip_installed, pip_failed.
  now intros ->.
Qed.

(** How the search ended, read from the answer. *)
Lemma pip_outcome_iff e k r :
  pip_outcome e k r ->
  (r = Ret true <-> pip_settles e k = true) /\
  (r = Ret false <-> k = 3%nat /\ pip_goes_on e 3 = true) /\
  (forall ex, r = Raise ex ->
              ex = KeyboardInterrupt /\
              pip_answer e k = Raise KeyboardInterrupt).
Proof.
  unfold pip_outcome. destruct r as [[|]|ex]; intros H.
  - split; [now split|]. split; [|discriminate].
    split; [discriminate|]. intros [-> Hgo].
    apply settles_not_goes_on in H. congruence.
  - destruct H as [-> Hgo]. split; [|split; [now split|discriminate]].
    split; [discriminate|]. intros Hs.
    apply settles_not_goes_on in Hs. congruence.
  - destruct H as [-> Hans].
    destruct (interrupted_attempt e k Hans) as [Hs Hgo].
    split; [split; [discriminate|congruence]|].
    split; [split; [discriminate|]|].
    + intros [-> Hgo']. congruence.
    + intros ex' [= <-]. now split.
Qed.

(** X6. [install_python_rich] answers [True] at once, launching nothing
    and counting nothing, when the library is available.  Otherwise it
    launches its four [pip] commands in order up to an attempt number [k]
    and answers [True] exactly when that last command succeeded (and, for
    the two commands without [--user], [import rich] then worked),
    [False] exactly when the fourth command was launched and failed, and
    raises only for an interrupt of that last command; every launched
    command that succeeded has added one to [python_packages_installed]
    and every one that failed one to [total_errors]. *)
Theorem rich_installation_outcome (e : Env) :
  (rich_available (world e) = true ->
   (SetupEnv.install_python_rich e).1 = Ret true /\
   spawned (trace (SetupEnv.install_python_rich e).2) = spawned (trace e) /\
   stats (SetupEnv.install_python_rich e).2 = stats e) /\
  (rich_available (world e) = false ->
   exists k,
     (k < 4)%nat /\
     spawned (trace (SetupEnv.install_python_rich e).2)
     = spawned (trace e) ++ take (S k) pip_attempts /\
     ((SetupEnv.install_python_rich e).1 = Ret true <->
      pip_settles e k = true) /\
     ((SetupEnv.install_python_rich e).1 = Ret false <->
      k = 3%nat /\ pip_goes_on e 3 = true) /\
     (forall ex, (SetupEnv.install_python_rich e).1 = Raise ex ->
                 ex = KeyboardInterrupt /\
                 pip_answer e k = Raise KeyboardInterrupt) /\
     python_packages_installed (stats (SetupEnv.install_python_rich e).2)
     = python_packages_installed (stats e)
       + Z.of_nat (count_upto (pip_installed e) (S k)) /\
     total_errors (stats (SetupEnv.install_python_rich e).2)
     = total_errors (stats e) + Z.of_nat (count_upto (pip_failed e) (S k))).
Proof.
  split; [exact (install_python_rich_present e)|].
  intros Hrich.
  destruct (install_python_rich_search e Hrich)
    as (k & Hk & (_ & Hsp & Hpp & Hte) & _ & O).
  destruct (pip_outcome_iff e k _ O) as (Ht & Hf & Hx).
  exists k. repeat (split; [assumption|]). assumption.
Qed.

Lemma rich_installation_outcome_witness :
  spawned (trace (SetupEnv.install_python_rich
                    (boot SampleSteps.nothing_installed ∅)).2)
  = pip_attempts
  /\ total_errors (stats (SetupEnv.install_python_rich
                            (boot SampleSteps.nothing_installed ∅)).2) = 4.
Proof.
  destruct (proj2 (rich_installation_outcome
                     (boot SampleSteps.nothing_installed ∅)) eq_refl)
    as (k & _ & Hs & _ & Hf & _ & _ & Hte).
  assert (k = 3%nat) as -> by (apply Hf; vm_compute; reflexivity).
  split; [exact Hs|exact Hte].
Defined.

(* ================================================================== *)
(** * Further properties: the exit status of [main] *)
(* ================================================================== *)

Lemma wp_own_post {A} (m : M Env A) (P : Res A -> Env -> Prop)
    (Q : Res A -> Run -> Prop) r :
  wp m P (env r) ->
  (forall res r', P res (env r') -> calls r' = calls r -> Q res r') ->
  wp (own m) Q r.
Proof.
  unfold wp, own. destruct (m (env r)) as [res e']. cbn [fst snd].
  intros HP HQ. apply HQ; [exact HP|reflexivity].
Qed.

(** [setup_logging] raises nothing but the [OSError] of its two calls to
    the file system. *)
Lemma setup_logging_raises prefix banner e :
  wp (Builder.setup_logging prefix banner)
     (fun r _ => r = Ret tt \/ exists text, r = Raise (Exception text))
     e.
Proof.
  unfold Builder.setup_logging. cbv zeta.
  apply wp_bind, wp_get. apply wp_bind, wp_fs_call; [intros; right; eauto|].
  intros e1 _ _ _ _ _. apply wp_bind, wp_get.
  apply wp_bind, wp_fs_call; [intros; right; eauto|].
  intros e2 _ _ _ _ _. apply wp_bind, wp_modify.
  eapply wp_mono; [eapply log_lines_spec; reflexivity|].
  intros r e3 (-> & _). now left.
Qed.

(** A guarded run that answers [True] called every step, and every step
    returned [True]. *)
Lemma guarded_run_true header names cs :
  guarded_run header names cs (Ret true) -> all_steps_passed names cs.
Proof.
  intros (hres & steps & -> & _ & _ & Htrue)%guarded_run_fail_fast.
  destruct (Htrue eq_refl) as [Hnames Hall]. intros name Hin.
  rewrite <- Hnames in Hin. apply list_elem_of_fmap in Hin as ([n res] & -> & Hin).
  specialize (Hall _ Hin). cbn [snd fst] in *. subst res. now right.
Qed.

Lemma qt6_main_exit_spec self e :
  wp (BuildQt6.main self)
     (fun res r =>
        exit_status res = 0 ->
        all_steps_passed BuildQt6.step_names (calls r) \/ exited_with_zero (calls r))
     (start e).
Proof.
  unfold BuildQt6.main.
  apply wp_bind. apply (wp_own_post get (fun res _ => exists e0, res = Ret e0));
    [eexists; reflexivity|].
  intros res0 r0 [e0 ->] Hc0. cbn [start calls] in Hc0.
  destruct (negb (python_at_least_3_7 (world e0))).
  { apply wp_bind, wp_own_modify. intros r1 Hc1. apply wp_raise. discriminate. }
  apply wp_bind. eapply wp_own_post; [apply setup_logging_raises|].
  intros res1 r1 [->|[text ->]] Hc1; [|discriminate].
  apply wp_bind. eapply wp_mono; [apply qt6_run_build_spec|].
  intros res r2 (cs & Hc2 & body & bres & sres & -> & Hg & Hres).
  rewrite Hc1, Hc0 in Hc2. cbn [app] in Hc2.
  assert (forall res',
            match res with
            | Ret success => res' = Raise (SystemExit (if success then 0 else 1))
            | Raise ex => res' = Raise ex
            end ->
            exit_status res' = 0 ->
            all_steps_passed BuildQt6.step_names
              (body ++ [("show_build_summary", sres)])
            \/ exited_with_zero (body ++ [("show_build_summary", sres)]))
    as Hgoal.
  { intros res' Hres' Hzero. destruct sres as [u|ex'].
    - subst bres. destruct res as [[|]|ex].
      + left. intros name Hin. apply elem_of_app. left.
        now apply (guarded_run_true _ _ _ Hg).
      + subst res'. discriminate Hzero.
      + subst res'.
        destruct (guarded_run_raises _ _ _ _ _ Hg eq_refl) as [[code ->] [name Hin]].
        cbn [exit_status] in Hzero. subst code.
        right. exists name. apply elem_of_app. now left.
    - subst res. subst res'. right. exists "show_build_summary".
      apply elem_of_app. right.
      destruct ex' as [|code|cmd t|text]; try discriminate Hzero.
      cbn [exit_status] in Hzero. subst code. now left. }
  destruct res as [success|ex]; [apply wp_raise|]; rewrite Hc2;
    apply Hgoal; reflexivity.
Qed.

Lemma linux_main_exit_spec self e :
  wp (BuildLinux.main self)
     (fun res r =>
        exit_status res = 0 ->
        all_steps_passed BuildLinux.step_names (calls r) \/ exited_with_zero (calls r))
     (start e).
Proof.
  unfold BuildLinux.main.
  apply wp_bind. eapply wp_own_post; [apply setup_logging_raises|].
  intros res0 r0 [->|[text ->]] Hc0; [|discriminate].
  cbn [start calls] in Hc0.
  apply wp_try_except, wp_bind.
  eapply wp_mono; [apply linux_run_build_process_spec|].
  intros res r1 (cs & Hc1 & Hg). rewrite Hc0 in Hc1. cbn [app] in Hc1.
  destruct res as [success|ex].
  - apply wp_bind, wp_call_proc.
    + intros r2 Hc2. apply wp_raise. cbn [is_Exception].
      destruct success; [|discriminate]. intros _. left.
      intros name Hin. rewrite Hc2, Hc1. apply elem_of_app. left.
      now apply (guarded_run_true _ _ _ Hg).
    + intros ex r2 Hc2.
      destruct ex as [|code|cmd t|text]; cbn [is_Exception].
      * discriminate.
      * cbn [exit_status]. intros ->. right. exists "print_build_summary".
        rewrite Hc2. apply elem_of_app. right. now left.
      * apply wp_bind, wp_own_modify. intros r3 Hc3.
        apply wp_bind, wp_own_modify. intros r4 Hc4. apply wp_raise. discriminate.
      * apply wp_bind, wp_own_modify. intros r3 Hc3.
        apply wp_bind, wp_own_modify. intros r4 Hc4. apply wp_raise. discriminate.
  - destruct (guarded_run_raises _ _ _ _ _ Hg eq_refl) as [[code ->] [name Hin]].
    cbn [is_Exception exit_status]. intros ->. right. exists name.
    now rewrite Hc1.
Qed.

(** X7. An exit status of 0 can be trusted: [main] of build_qt6_project.py
    and of build_linux.py end with status 0 only when every step of the
    pipeline was called and returned [True] -- or when a method called
    [sys.exit(0)] by itself, which no [except] clause on the way stops. *)
Theorem exit_status_zero_means_success
    (qt6 : BuildQt6.Methods) (linux : BuildLinux.Methods) (e : Env) :
  (exit_status (BuildQt6.main qt6 (start e)).1 = 0 ->
   all_steps_passed BuildQt6.step_names (calls (BuildQt6.main qt6 (start e)).2)
   \/ exited_with_zero (calls (BuildQt6.main qt6 (start e)).2))
  /\
  (exit_status (BuildLinux.main linux (start e)).1 = 0 ->
   all_steps_passed BuildLinux.step_names (calls (BuildLinux.main linux (start e)).2)
   \/ exited_with_zero (calls (BuildLinux.main linux (start e)).2)).
Proof.
  split; [apply (qt6_main_exit_spec qt6 e)|apply (linux_main_exit_spec linux e)].
Qed.

Lemma exit_status_zero_means_success_witness :
  all_steps_passed BuildQt6.step_names
    (calls (BuildQt6.main SampleSteps.qt6_fine (start SampleTree.bare)).2)
  \/ exited_with_zero
       (calls (BuildQt6.main SampleSteps.qt6_fine (start SampleTree.bare)).2).
Proof.
  apply (proj1 (exit_status_zero_means_success SampleSteps.qt6_fine
                  SampleRun.linux_interrupted SampleTree.bare)).
  vm_compute. reflexivity.
Defined.

(* ================================================================== *)
(** * Further properties: cmake_error_logger.py *)
(* ================================================================== *)

Section Launches.
Import CmakeErrorLogger.

Lemma launches_bind {A B} (m : P A) (k : A -> P B) l1 l2 l :
  launches l1 m -> (forall a, launches l2 (k a)) -> l = l1 ++ l2 ->
  launches l (bindP m k).
Proof.
  intros Hm Hk -> e. specialize (Hm e). unfold ensures, bindP in *.
  destruct (m e) as [[[a|ex] e1]|]; [|exact I|exact I].
  specialize (Hk a e1). unfold ensures in Hk.
  destruct (k a e1) as [[[b|ex] e2]|]; [|exact I|exact I].
  now rewrite Hk, Hm, app_assoc.
Qed.

Lemma always_launches_launches {A} l (m : P A) :
  always_launches l m -> launches l m.
Proof.
  intros H e. specialize (H e). unfold ensures in *.
  destruct (m e) as [[[a|ex] e']|]; [exact H|exact I|exact I].
Qed.

Lemma always_bind {A B} (m : P A) (k : A -> P B) l :
  always_launches l m -> (forall a, always_launches [] (k a)) ->
  always_launches l (bindP m k).
Proof.
  intros Hm Hk e. specialize (Hm e). unfold ensures, bindP in *.
  destruct (m e) as [[[a|ex] e1]|]; [|exact Hm|exact I].
  specialize (Hk a e1). unfold ensures in Hk.
  destruct (k a e1) as [[r e2]|]; [|exact I].
  now rewrite Hk, Hm, app_nil_r.
Qed.

Lemma always_try_except {A} (body : P A) handler l :
  always_launches l body ->
  (forall ex h, handler ex = Some h -> always_launches [] h) ->
  always_launches l (try_exceptP body handler).
Proof.
  intros Hb Hh e. specialize (Hb e). unfold ensures, try_exceptP in *.
  destruct (body e) as [[[a|ex] e1]|]; [exact Hb| |exact I].
  destruct (handler ex) as [h|] eqn:E; [|exact Hb].
  specialize (Hh ex h E e1). unfold ensures in Hh.
  destruct (h e1) as [[r e2]|]; [|exact I].
  now rewrite Hh, Hb, app_nil_r.
Qed.

Lemma always_lift {A} (m : M Env A) :
  (forall e, spawned (trace (m e).2) = spawned (trace e)) ->
  always_launches [] (lift m).
Proof.
  intros H e. unfold ensures, lift. specialize (H e).
  destruct (m e) as [r e']. cbn [snd] in H. now rewrite H, app_nil_r.
Qed.

Lemma always_get : always_launches [] (lift get).
Proof. now apply always_lift. Qed.

Lemma always_fs_call op : always_launches [] (lift (fs_call op)).
Proof.
  apply always_lift. intros e.
  apply (wp_fs_call op (fun _ e' => spawned (trace e') = spawned (trace e)));
    intros; now chase.
Qed.

Lemma always_f_write log data : always_launches [] (f_write log data).
Proof. apply always_fs_call. Qed.

Lemma always_console_print text : always_launches [] (lift (console_print text)).
Proof.
  apply always_lift. intros e.
  apply (wp_console_print text (fun _ e' => spawned (trace e') = spawned (trace e)));
    intros; now chase.
Qed.

Lemma always_when (b : bool) (m : P unit) :
  always_launches [] m -> always_launches [] (whenP b m).
Proof. intros H. destruct b; [exact H|]. now apply always_lift. Qed.

Lemma always_subprocess_run cmd : always_launches [cmd] (subprocess_run cmd).
Proof.
  intros e. unfold ensures, subprocess_run. cbv zeta.
  destruct (run_unbounded _ true true) as [r|]; [|exact I].
  cbn [emit trace]. now rewrite spawned_app.
Qed.

(** One of the two [try] blocks: the command is launched once, whatever
    comes of it. *)
Lemma always_run_and_log log label cmd :
  always_launches [cmd] (run_and_log log label cmd).
Proof.
  unfold run_and_log. apply always_try_except.
  - apply always_bind; [apply always_subprocess_run|]. intros result.
    repeat first
      [ apply always_f_write
      | apply always_when
      | apply always_bind; [|intros ?] ].
  - intros ex h Hh. destruct (is_Exception ex); [|discriminate Hh].
    injection Hh as <-. apply always_f_write.
Qed.

Lemma run_full_launches :
  launches [cmake_configure_cmd; cmake_build_cmd]
    run_full_cmake_build_and_log_errors.
Proof.
  unfold run_full_cmake_build_and_log_errors.
  repeat first
    [ apply always_launches_launches, always_run_and_log
    | apply always_launches_launches, always_get
    | apply always_launches_launches, always_fs_call
    | apply always_launches_launches, always_f_write
    | apply always_launches_launches, always_console_print
    | eapply launches_bind; [| intros ?; cbv zeta |] ].
  all: reflexivity.
Qed.

End Launches.

(** X8. Whenever a run of cmake_error_logger.py ends normally, it has
    launched the two commands, [cmake -B build -S . ...] and then
    [cmake --build build --parallel 4], and nothing else: the build is
    started whatever the configuration returned, even when [cmake] could
    not be started at all. *)
Theorem cmake_logger_runs_both_steps (e e' : Env) :
  CmakeErrorLogger.run_full_cmake_build_and_log_errors e = Some (Ret tt, e') ->
  spawned (trace e')
  = spawned (trace e)
    ++ [CmakeErrorLogger.cmake_configure_cmd; CmakeErrorLogger.cmake_build_cmd].
Proof.
  intros H. pose proof (run_full_launches e) as Hl.
  unfold ensures in Hl. now rewrite H in Hl.
Qed.

Lemma cmake_logger_runs_both_steps_witness :
  exists e',
    CmakeErrorLogger.run_full_cmake_build_and_log_errors
      (boot (SampleLogs.no_cmake Sample.noon) SampleLogs.project_only)
    = Some (Ret tt, e') /\
    spawned (trace e')
    = [CmakeErrorLogger.cmake_configure_cmd; CmakeErrorLogger.cmake_build_cmd].
Proof.
  assert (exists e',
            CmakeErrorLogger.run_full_cmake_build_and_log_errors
              (boot (SampleLogs.no_cmake Sample.noon) SampleLogs.project_only)
            = Some (Ret tt, e')) as [e' He'].
  { destruct (CmakeErrorLogger.run_full_cmake_build_and_log_errors
                (boot (SampleLogs.no_cmake Sample.noon) SampleLogs.project_only))
      as [[[[]|ex] e']|] eqn:E.
    - now exists e'.
    - exfalso. revert E. vm_compute. discriminate.
    - exfalso. revert E. vm_compute. discriminate. }
  exists e'. split; [exact He'|].
  exact (cmake_logger_runs_both_steps _ _ He').
Defined.

(* ================================================================== *)
(** * Further properties: the steps that copy and clean *)
(* ================================================================== *)

(** ** What one call does to the files *)









(** ** [copy_main_executable] of build_qt6_project.py *)




(** ** [create_convenience_files] of build_qt6_project.py *)





(** ** [copy_plugins] of build_qt6_project.py *)










(** ** [verify_plugin_builds] of build_qt6_project.py *)








(** ** [clean_build_directory] of build_linux.py *)










